(** * FrankeNet: a semi-supervised DEV-regularised multilayer perceptron

    A shallow embedding of [LayerNet/theano_port/FrankeNet.py].

    The Python module is a graph builder: its classes assemble Theano
    expressions over shared variables, and the expressions are evaluated
    later, once per training step.  The embedding follows the two stages.

    - Construction-time Python values (drop rates, DEV weights, the mixing
      rate, layer sizes) are rationals, naturals and integers; the float
      constants of the source ([0.01], [1e-6], [0.5], ...) are the rationals
      they denote.
    - A Theano expression is a term of [texpr]; a shared variable is
      [Shared i], where [i] is the identity of the Python object.
    - [eval] gives a term its value over the real numbers, in an environment
      that binds the symbolic inputs, the shared variables and the random
      draws of one evaluation.  Floating-point rounding is not modelled; an
      operation that leaves the reals (a division by zero, the logarithm of a
      non-positive number) makes the evaluation [Undefined].
    - The constructors run in a builder monad that threads the numpy
      generator and the identities of the shared variables, and fails with
      the Python exception the source would raise.
    - [numpy.random.RandomState] and the loss class [MCL2HingeSS] of
      [output_losses.py] are interfaces; the examples instantiate them. *)

From Stdlib Require Import Reals QArith Qreals Lra Lia ZArith String List.
From stdpp Require Import base option list gmap.
Import ListNotations.

Set Default Proof Using "Type".

(** ** Results of fallible computations *)

Inductive res (E A : Type) : Type :=
| Ok (a : A)
| Err (e : E).
Arguments Ok {E A} a.
Arguments Err {E A} e.

#[export] Instance res_ret {E} : MRet (res E) := fun _ a => Ok a.
#[export] Instance res_bind {E} : MBind (res E) := fun _ _ f m =>
  match m with Ok a => f a | Err e => Err e end.

#[export] Instance res_fmap {E} : FMap (res E) := fun _ _ f m =>
  match m with Ok a => Ok (f a) | Err e => Err e end.

Definition is_ok {E A} (r : res E A) : bool :=
  match r with Ok _ => true | Err _ => false end.

(** What can go wrong while an expression is evaluated. *)
Inductive eval_error : Type :=
| DimensionMismatch   (* operand shapes do not agree *)
| UnboundVariable     (* an input or shared variable has no value *)
| IndexOutOfBounds    (* a subtensor index beyond the end *)
| Undefined.          (* the value is not a real number: x/0, log of x <= 0 *)

(** What can go wrong while the graph is built (Python exceptions). *)
Inductive py_exn : Type :=
| ZeroDivisionError
| IndexError.

(** ** Tensor values *)

(** Values of rank 0, 1 and 2.  [Column c] is a matrix of shape (n, 1) whose
    second axis is broadcastable: the result of [keepdims] sums and of
    [reshape((n, 1))]. *)
Inductive tensor : Type :=
| Scalar (r : R)
| Vector (v : list R)
| Matrix (m : list (list R))
| Column (c : list R).

Section Traversals.
Context {E : Type}.

Fixpoint traverse {A B} (f : A -> res E B) (l : list A) : res E (list B) :=
  match l with
  | [] => Ok []
  | x :: l' => y ← f x; ys ← traverse f l'; Ok (y :: ys)
  end.

Fixpoint zipM {A B C} (mismatch : E) (f : A -> B -> res E C)
    (u : list A) (v : list B) : res E (list C) :=
  match u, v with
  | [], [] => Ok []
  | x :: u', y :: v' => z ← f x y; zs ← zipM mismatch f u' v'; Ok (z :: zs)
  | _, _ => Err mismatch
  end.
End Traversals.

Open Scope R_scope.

Definition rsum (l : list R) : R := fold_right Rplus 0 l.

Abbreviation sres := (res eval_error).

(** Scalar operations. *)
Definition radd (x y : R) : sres R := Ok (x + y).
Definition rsub (x y : R) : sres R := Ok (x - y).
Definition rmul (x y : R) : sres R := Ok (x * y).
Definition rdiv (x y : R) : sres R :=
  if Req_dec_T y 0 then Err Undefined else Ok (x / y).
Definition req (x y : R) : sres R :=
  Ok (if Req_dec_T x y then 1 else 0).
Definition rneg (x : R) : sres R := Ok (- x).
Definition rsqr (x : R) : sres R := Ok (x * x).
Definition rsqrt (x : R) : sres R :=
  if Rlt_dec x 0 then Err Undefined else Ok (sqrt x).
Definition rabs (x : R) : sres R := Ok (Rabs x).
Definition rtanh (x : R) : sres R := Ok (tanh x).
Definition sigmoid (x : R) : R := 1 / (1 + exp (- x)).
Definition rsigmoid (x : R) : sres R := Ok (sigmoid x).
Definition rlog (x : R) : sres R :=
  if Rlt_dec 0 x then Ok (ln x) else Err Undefined.

(** Elementwise application of a unary operation. *)
Definition unop (f : R -> sres R) (t : tensor) : sres tensor :=
  match t with
  | Scalar r => Scalar <$> f r
  | Vector v => Vector <$> traverse f v
  | Matrix m => Matrix <$> traverse (traverse f) m
  | Column c => Column <$> traverse f c
  end.

(** Pairing two lists of the same length. *)
Definition zip_same {A B C} (f : A -> B -> sres C) : list A -> list B -> sres (list C) :=
  zipM DimensionMismatch f.

(** Elementwise application of a binary operation, with Theano's
    broadcasting: a scalar against anything, a vector against each row of a
    matrix, a broadcastable column against each column of a matrix. *)
Definition binop (f : R -> R -> sres R) (a b : tensor) : sres tensor :=
  match a, b with
  | Scalar x, Scalar y => Scalar <$> f x y
  | Scalar x, Vector v => Vector <$> traverse (f x) v
  | Scalar x, Matrix m => Matrix <$> traverse (traverse (f x)) m
  | Scalar x, Column c => Column <$> traverse (f x) c
  | Vector u, Scalar y => Vector <$> traverse (fun x => f x y) u
  | Matrix m, Scalar y => Matrix <$> traverse (traverse (fun x => f x y)) m
  | Column c, Scalar y => Column <$> traverse (fun x => f x y) c
  | Vector u, Vector v => Vector <$> zip_same f u v
  | Matrix m, Vector v => Matrix <$> traverse (fun row => zip_same f row v) m
  | Vector u, Matrix m => Matrix <$> traverse (fun row => zip_same f u row) m
  | Matrix m, Matrix m' => Matrix <$> zip_same (zip_same f) m m'
  | Matrix m, Column c =>
      Matrix <$> zip_same (fun row y => traverse (fun x => f x y) row) m c
  | Column c, Matrix m =>
      Matrix <$> zip_same (fun x row => traverse (f x) row) c m
  | Column c, Column c' => Column <$> zip_same f c c'
  | Column c, Vector v => Matrix <$> traverse (fun x => traverse (f x) v) c
  | Vector u, Column c =>
      Matrix <$> traverse (fun y => traverse (fun x => f x y) u) c
  end.

(** Reductions and shapes. *)
Definition elements (t : tensor) : list R :=
  match t with
  | Scalar r => [r]
  | Vector v => v
  | Matrix m => concat m
  | Column c => c
  end.

Definition sum_all (t : tensor) : tensor := Scalar (rsum (elements t)).

(** [T.sum(x, axis=1, keepdims=1)] *)
Definition sum_axis1_keep (t : tensor) : sres tensor :=
  match t with
  | Matrix m => Ok (Column (map rsum m))
  | Column c => Ok (Column c)
  | _ => Err DimensionMismatch
  end.

(** [x.size] and [x.shape[0]] *)
Definition size (t : tensor) : tensor := Scalar (INR (length (elements t))).

Definition shape0 (t : tensor) : sres nat :=
  match t with
  | Scalar _ => Err IndexOutOfBounds
  | Vector v => Ok (length v)
  | Matrix m => Ok (length m)
  | Column c => Ok (length c)
  end.

(** [x.reshape((n, 1))] *)
Definition reshape_col (t : tensor) (n : nat) : sres tensor :=
  if Nat.eqb (length (elements t)) n then Ok (Column (elements t))
  else Err DimensionMismatch.

(** Matrix products.  A matrix is the list of its rows. *)
Fixpoint transpose (m : list (list R)) : list (list R) :=
  match m with
  | [] => []
  | [r] => map (fun x => [x]) r
  | r :: m' => zip_with cons r (transpose m')
  end.

Definition dotv (u v : list R) : sres R := rsum <$> zip_same rmul u v.

Definition matmul (a b : list (list R)) : sres (list (list R)) :=
  traverse (fun row => traverse (dotv row) (transpose b)) a.

Definition as_matrix (c : list R) : list (list R) := map (fun x => [x]) c.

Definition dot (a b : tensor) : sres tensor :=
  match a, b with
  | Vector u, Vector v => Scalar <$> dotv u v
  | Vector u, Matrix m => Vector <$> traverse (dotv u) (transpose m)
  | Vector u, Column c => Vector <$> traverse (dotv u) [c]
  | Matrix m, Vector v => Vector <$> traverse (fun row => dotv row v) m
  | Column c, Vector v => Vector <$> traverse (fun row => dotv row v) (as_matrix c)
  | Matrix m, Matrix m' => Matrix <$> matmul m m'
  | Matrix m, Column c => Matrix <$> matmul m (as_matrix c)
  | Column c, Matrix m => Matrix <$> matmul (as_matrix c) m
  | Column c, Column c' => Matrix <$> matmul (as_matrix c) (as_matrix c')
  | _, _ => Err DimensionMismatch
  end.

Definition transpose_tensor (t : tensor) : tensor :=
  match t with
  | Scalar r => Scalar r
  | Vector v => Vector v
  | Matrix m => Matrix (transpose m)
  | Column c => Matrix [c]
  end.

Definition subtensor (t : tensor) (i : nat) : sres tensor :=
  match t with
  | Scalar _ => Err IndexOutOfBounds
  | Vector v => from_option (fun x => Ok (Scalar x)) (Err IndexOutOfBounds) (v !! i)
  | Matrix m => from_option (fun r => Ok (Vector r)) (Err IndexOutOfBounds) (m !! i)
  | Column c => from_option (fun x => Ok (Vector [x])) (Err IndexOutOfBounds) (c !! i)
  end.

(** The 0/1 mask a random stream draws for a tensor of the shape of [t];
    [bit i j] is the draw for position (i, j). *)
Definition of_bit (b : bool) : R := if b then 1 else 0.

Definition draw_like (bit : nat -> nat -> bool) (t : tensor) : tensor :=
  match t with
  | Scalar _ => Scalar (of_bit (bit 0 0)%nat)
  | Vector v => Vector (imap (fun j _ => of_bit (bit 0%nat j)) v)
  | Matrix m => Matrix (imap (fun i row => imap (fun j _ => of_bit (bit i j)) row) m)
  | Column c => Column (imap (fun i _ => of_bit (bit i 0%nat)) c)
  end.

(** ** Theano expressions *)

#[warnings="-register-all"] Inductive texpr : Type :=
| Var (name : string)                 (* a symbolic input: T.matrix, T.ivector *)
| Shared (id : nat)                   (* theano.shared(...) *)
| Const (c : Q)                       (* a Python or numpy scalar *)
| Neg (a : texpr)
| Add (a b : texpr)
| Sub (a b : texpr)
| Mul (a b : texpr)
| Div (a b : texpr)
| Sqr (a : texpr)                     (* a ** 2. *)
| Sqrt (a : texpr)                    (* T.sqrt *)
| Abs (a : texpr)                     (* abs *)
| Tanh (a : texpr)                    (* T.tanh *)
| Sigmoid (a : texpr)                 (* T.nnet.sigmoid *)
| Log (a : texpr)                     (* T.log *)
| Eq (a b : texpr)                    (* T.eq *)
| Sum (a : texpr)                     (* T.sum(a) *)
| SumAxis1Keep (a : texpr)            (* T.sum(a, axis=1, keepdims=1) *)
| Dot (a b : texpr)                   (* T.dot *)
| Transpose (a : texpr)               (* a.T *)
| ReshapeCol (a like : texpr)         (* a.reshape((like.shape[0], 1)) *)
| Cast (a : texpr)                    (* T.cast(a, floatX) *)
| Size (a : texpr)                    (* a.size *)
| Shape0 (a : texpr)                  (* a.shape[0] *)
| Binomial (seed : Z) (p : Q) (like : texpr)
    (* RandomStreams(seed).binomial(n=1, p=p, size=like.shape) *)
| Stack (l : list texpr)              (* a Python list of scalars as a vector *)
| Subtensor (a : texpr) (i : nat).    (* a[i] *)

(** One evaluation of the graph: the values of the symbolic inputs and of
    the shared variables, and what the random streams draw. *)
Record env : Type := {
  inputs : string -> option tensor;
  shared : nat -> option tensor;
  binomial_draw : Z -> Q -> nat -> nat -> bool;
}.

Definition lookup_input (ρ : env) (x : string) : sres tensor :=
  from_option Ok (Err UnboundVariable) (inputs ρ x).

Definition lookup_shared (ρ : env) (i : nat) : sres tensor :=
  from_option Ok (Err UnboundVariable) (shared ρ i).

Definition as_scalar (t : tensor) : sres R :=
  match t with
  | Scalar r => Ok r
  | _ => Err DimensionMismatch
  end.

Fixpoint eval (ρ : env) (e : texpr) : sres tensor :=
  match e with
  | Var x => lookup_input ρ x
  | Shared i => lookup_shared ρ i
  | Const c => Ok (Scalar (Q2R c))
  | Neg a => x ← eval ρ a; unop rneg x
  | Add a b => x ← eval ρ a; y ← eval ρ b; binop radd x y
  | Sub a b => x ← eval ρ a; y ← eval ρ b; binop rsub x y
  | Mul a b => x ← eval ρ a; y ← eval ρ b; binop rmul x y
  | Div a b => x ← eval ρ a; y ← eval ρ b; binop rdiv x y
  | Sqr a => x ← eval ρ a; unop rsqr x
  | Sqrt a => x ← eval ρ a; unop rsqrt x
  | Abs a => x ← eval ρ a; unop rabs x
  | Tanh a => x ← eval ρ a; unop rtanh x
  | Sigmoid a => x ← eval ρ a; unop rsigmoid x
  | Log a => x ← eval ρ a; unop rlog x
  | Eq a b => x ← eval ρ a; y ← eval ρ b; binop req x y
  | Sum a => x ← eval ρ a; Ok (sum_all x)
  | SumAxis1Keep a => x ← eval ρ a; sum_axis1_keep x
  | Dot a b => x ← eval ρ a; y ← eval ρ b; dot x y
  | Transpose a => x ← eval ρ a; Ok (transpose_tensor x)
  | ReshapeCol a like => x ← eval ρ a; y ← eval ρ like; n ← shape0 y; reshape_col x n
  | Cast a => eval ρ a
  | Size a => x ← eval ρ a; Ok (size x)
  | Shape0 a => x ← eval ρ a; n ← shape0 x; Ok (Scalar (INR n))
  | Binomial seed p like =>
      x ← eval ρ like; Ok (draw_like (binomial_draw ρ seed p) x)
  | Stack l =>
      Vector <$> (fix go (l : list texpr) : sres (list R) :=
                    match l with
                    | [] => Ok []
                    | a :: l' => x ← eval ρ a; r ← as_scalar x; rs ← go l'; Ok (r :: rs)
                    end) l
  | Subtensor a i => x ← eval ρ a; subtensor x i
  end.

Definition eval_scalars (ρ : env) (l : list texpr) : sres (list R) :=
  traverse (fun a => x ← eval ρ a; as_scalar x) l.


(** ** Python values at construction time *)

Definition Qltb (x y : Q) : bool := negb (Qle_bool y x).

(** Python's [x / y] on floats. *)
Definition py_div (x y : Q) : res py_exn Q :=
  if Qeq_bool y 0 then Err ZeroDivisionError else Ok (x / y)%Q.

(** Python's [l[i]] for [0 <= i]. *)
Definition py_index {A} (l : list A) (i : nat) : res py_exn A :=
  from_option Ok (Err IndexError) (l !! i).

(** Python's [l[-1]]. *)
Definition py_last {A} (l : list A) : res py_exn A :=
  from_option Ok (Err IndexError) (last l).

(** The values [joint_loss] is compared with [1] on. *)
Inductive pyval : Type :=
| PyInt (z : Z)
| PyBool (b : bool)
| PyFloat (q : Q)
| PyNone.

(** Python's [v == n] for an integer literal [n]. *)
Definition py_eq_int (v : pyval) (n : Z) : bool :=
  match v with
  | PyInt z => Z.eqb z n
  | PyBool b => Z.eqb (if b then 1 else 0) n
  | PyFloat q => Qeq_bool q (inject_Z n)
  | PyNone => false
  end.

(** A numpy array held by a shared variable when it is created. *)
Inductive ndarray : Type :=
| Array1 (v : list Q)
| Array2 (m : list (list Q)).

(** [numpy.random.RandomState], as far as the module uses it. *)
Class RandomState (G : Type) := {
  randint : Z -> G -> Z * G;
  standard_normal : nat -> nat -> G -> list (list Q) * G;
}.

(** ** Building the graph *)

(** The state the constructors thread: the generator, the identity of the
    next shared variable, and the initial values of those created so far. *)
Record builder (G : Type) : Type := Builder {
  rng : G;
  next_id : nat;
  initial : gmap nat ndarray;
}.
Arguments Builder {G}.
Arguments rng {G}.
Arguments next_id {G}.
Arguments initial {G}.

Definition build (G A : Type) : Type := builder G -> res py_exn (A * builder G).

#[export] Instance build_ret {G} : MRet (build G) := fun _ a s => Ok (a, s).
#[export] Instance build_bind {G} : MBind (build G) := fun _ _ f m s =>
  match m s with
  | Ok (a, s') => f a s'
  | Err e => Err e
  end.

Definition raise {G A} (e : py_exn) : build G A := fun _ => Err e.

Definition lift {G A} (r : res py_exn A) : build G A := fun s =>
  match r with Ok a => Ok (a, s) | Err e => Err e end.

Fixpoint foldM {G S A} (f : S -> A -> build G S) (s : S) (l : list A) : build G S :=
  match l with
  | [] => mret s
  | x :: l' => s' ← f s x; foldM f s' l'
  end.

Section Primitives.
Context {G : Type} `{RandomState G}.

(** [rng.randint(high)] *)
Definition rng_randint (high : Z) : build G Z := fun s =>
  let '(n, g) := randint high (rng s) in
  Ok (n, Builder g (next_id s) (initial s)).

(** [rng.standard_normal(size=(n, m))] *)
Definition rng_standard_normal (n m : nat) : build G (list (list Q)) := fun s =>
  let '(a, g) := standard_normal n m (rng s) in
  Ok (a, Builder g (next_id s) (initial s)).

(** [theano.shared(value=...)]: a new variable, with its own identity. *)
Definition theano_shared (value : ndarray) : build G texpr := fun s =>
  Ok (Shared (next_id s),
      Builder (rng s) (S (next_id s)) (<[next_id s := value]> (initial s))).
End Primitives.

(** [T.nnet.binary_crossentropy(output, target)] *)
Definition binary_crossentropy (output target : texpr) : texpr :=
  Neg (Add (Mul target (Log output))
           (Mul (Sub (Const 1) target) (Log (Sub (Const 1) output)))).

(** ** The source *)

Definition row_normalize (x : texpr) : texpr :=
  let x_normed := Div x (Sqrt (Add (SumAxis1Keep (Sqr x)) (Const 1e-6))) in
  x_normed.

Module HiddenLayer.

Record t : Type := Make {
  input : texpr;
  activation : option (texpr -> texpr);
  in_dim : nat;
  out_dim : nat;
  W : texpr;
  b : texpr;
  linear_output : texpr;
  output : texpr;
  act_l2_sum : texpr;
  act_l1_sum : texpr;
  inp_l1_sum : texpr;
  params : list texpr;
}.

(** The weight the layer computes with (line 47 of the source). *)
Definition rescaled (drop_rate : Q) (W : texpr) : res py_exn texpr :=
  if Qltb drop_rate 0.01 then Ok W
  else c ← py_div 1 (1 - drop_rate); Ok (Mul (Const c) W).

Section WithRng.
Context {G : Type} `{RandomState G}.

Definition _drop_from_input (input : texpr) (p : Q) : build G texpr :=
  seed ← rng_randint 100000;
  let drop_mask := Binomial seed (1 - p) input in
  let droppy_input := Mul input (Cast drop_mask) in
  mret droppy_input.

Definition __init__ (input : texpr) (n_in n_out : nat)
    (activation : option (texpr -> texpr)) (drop_rate : Q)
    (W b : option texpr) (use_bias : bool) : build G t :=
  input ← (if Qltb drop_rate 0.01 then mret input
           else _drop_from_input input drop_rate);
  W ← match W with
      | None =>
          W_init ← rng_standard_normal n_in n_out;
          theano_shared (Array2 (map (map (Qmult 0.01)) W_init))
      | Some W => mret W
      end;
  b ← match b with
      | None => theano_shared (Array1 (replicate n_out 0%Q))
      | Some b => mret b
      end;
  W ← lift (rescaled drop_rate W);
  let linear_output :=
    if use_bias then Add (Dot input W) b else Dot input W in
  let output :=
    match activation with
    | None => linear_output
    | Some f => f linear_output
    end in
  mret {| input := input; activation := activation;
          in_dim := n_in; out_dim := n_out;
          W := W; b := b;
          linear_output := linear_output; output := output;
          act_l2_sum := Div (Sum (Sqr output)) (Size output);
          act_l1_sum := Sum (Abs (row_normalize output));
          inp_l1_sum := Sum (Abs (row_normalize input));
          params := if use_bias then [W; b] else [W] |}.
End WithRng.

End HiddenLayer.

(** The classification loss of [output_losses.py], which the module imports:
    an object built from a layer, with a loss and an error count. *)
Record OutputLoss : Type := {
  loss_func : texpr -> texpr;
  errors : texpr -> texpr;
}.

Class output_losses : Type := {
  MCL2HingeSS : HiddenLayer.t -> OutputLoss;
}.

(** The [params] dictionary; [dev_mix_rate] is the one optional key. *)
Module Params.
Record t : Type := Make {
  layer_sizes : list nat;
  lam_l2a : Q;
  use_bias : bool;
  dev_clones : nat;
  dev_types : list Z;
  dev_lams : list Q;
  dev_mix_rate : option Q;
}.
End Params.

Module SS_DEV_NET.

Record t : Type := Make {
  act_fun : texpr -> texpr;
  using_sigmoid : Z;
  dev_types : list Z;
  dev_lams_sum : Q;
  dev_lams : texpr;
  dev_mix_rate : Q;
  clip_params : gmap nat Z;
  mlp_layers : list HiddenLayer.t;
  dev_clones : list (list HiddenLayer.t);
  input : texpr;
  mlp_params : list texpr;
  layer_count : nat;
  layers : list HiddenLayer.t;
  raw_dae_layers : list (list HiddenLayer.t);
  sde_dae_layers : list (list HiddenLayer.t);
  dae_params : list (list texpr);
  raw_dae_losses : list (list texpr);
  sde_dae_losses : list (list texpr);
  raw_out_func : OutputLoss;
  raw_class_loss : texpr -> texpr;
  raw_reg_loss : texpr;
  class_errors : texpr -> texpr;
  sde_out_func : OutputLoss;
  sde_class_loss : texpr -> texpr;
  sde_reg_loss : texpr;
}.

(** [self.clip_params[p] = flag]; the keys are shared variables. *)
Definition clip (p : texpr) (flag : Z) (d : gmap nat Z) : gmap nat Z :=
  match p with
  | Shared i => <[i := flag]> d
  | _ => d
  end.

Definition _dev_loss (X1 X2 Y : texpr) (dev_type : Z) : texpr :=
  let ss_mask := ReshapeCol (Eq Y (Const 0)) Y in
  let var_fun x1 x2 :=
    Div (Sum (Sqr (Mul (Sub x1 x2) ss_mask))) (Sum ss_mask) in
  let tanh_fun x1 x2 := var_fun (Tanh x1) (Tanh x2) in
  let norm_fun x1 x2 := var_fun (row_normalize x1) (row_normalize x2) in
  let sigm_fun x1 x2 := var_fun (Sigmoid x1) (Sigmoid x2) in
  let cent_fun xt xo :=
    Div (Sum (binary_crossentropy (Sigmoid xo) (Sigmoid xt))) (Shape0 xt) in
  let dev_fun :=
    if Z.eqb dev_type 1 then norm_fun
    else if Z.eqb dev_type 2 then tanh_fun
    else if Z.eqb dev_type 3 then sigm_fun
    else if Z.eqb dev_type 4 then cent_fun
    else var_fun in
  dev_fun X1 X2.

(** One pass of the loop of [dev_cost] (lines 192 to 199). *)
Definition dev_cost_step (self : t) (y : texpr)
    (dev_losses : list texpr) (i : nat) : res py_exn (list texpr) :=
  '(x1, x2) ←
    (if Nat.ltb i (layer_count self - 1) then
       l1 ← py_index (mlp_layers self) i;
       c0 ← py_index (dev_clones self) 0;
       l2 ← py_index c0 i;
       Ok (HiddenLayer.output l1, HiddenLayer.output l2)
     else
       l1 ← py_index (mlp_layers self) i;
       c0 ← py_index (dev_clones self) 0;
       l2 ← py_index c0 i;
       Ok (HiddenLayer.linear_output l1, HiddenLayer.linear_output l2));
  dev_type ← py_index (dev_types self) i;
  Ok (dev_losses ++
        [Mul (Subtensor (dev_lams self) i) (_dev_loss x1 x2 y dev_type)]).

Fixpoint dev_cost_loop (self : t) (y : texpr) (dev_losses : list texpr)
    (range : list nat) : res py_exn (list texpr) :=
  match range with
  | [] => Ok dev_losses
  | i :: range' =>
      dev_losses ← dev_cost_step self y dev_losses i;
      dev_cost_loop self y dev_losses range'
  end.

Definition dev_cost (self : t) (y : texpr) (joint_loss : pyval)
    : res py_exn texpr :=
  let dmr := dev_mix_rate self in
  '(class_loss, reg_loss) ←
    (if Qltb 1e-5 (dev_lams_sum self) then
       let class_loss :=
         Add (Mul (Const dmr) (raw_class_loss self y))
             (Mul (Const (1 - dmr)) (sde_class_loss self y)) in
       dev_losses ← dev_cost_loop self y [] (seq 0 (layer_count self));
       let reg_loss :=
         Add (Sum (Stack dev_losses))
             (Mul (Const 0.5) (Add (raw_reg_loss self) (sde_reg_loss self))) in
       Ok (class_loss, reg_loss)
     else
       let class_loss := loss_func (raw_out_func self) y in
       let reg_loss := raw_reg_loss self in
       Ok (class_loss, reg_loss));
  let L :=
    if py_eq_int joint_loss 1 then Add class_loss reg_loss else reg_loss in
  Ok L.

(** [self.dev_reg_loss] and [self.sde_cost], the two lambdas of [__init__]. *)
Definition dev_reg_loss (self : t) (y : texpr) : res py_exn texpr :=
  dev_cost self y (PyInt 0).

Definition sde_cost (self : t) (y : texpr) : texpr :=
  Add (sde_class_loss self y) (sde_reg_loss self).

Section WithRng.
Context {G : Type} `{RandomState G} `{output_losses}.

Definition _masking_noise (input : texpr) (nz_lvl : Q) : build G texpr :=
  seed ← rng_randint 100000;
  let drop_mask := Binomial seed (1 - nz_lvl) input in
  let droppy_input := Mul input (Cast drop_mask) in
  mret droppy_input.

(** The attributes that [_construct_dae_layers] fills in. *)
Record dae : Type := Dae {
  dae_clip_params : gmap nat Z;
  dae_raw_layers : list (list HiddenLayer.t);
  dae_sde_layers : list (list HiddenLayer.t);
  dae_dae_params : list (list texpr);
  dae_raw_losses : list (list texpr);
  dae_sde_losses : list (list texpr);
}.

(** One pass of the first loop (lines 251 to 279). *)
Definition dae_layer_step (act_fun : texpr -> texpr)
    (mlp_layers : list HiddenLayer.t) (nz_lvl : Q)
    (d : dae) (i : nat) : build G dae :=
  l ← lift (py_index mlp_layers i);
  let W := HiddenLayer.W l in
  let b_enc := HiddenLayer.b l in
  input_enc ← _masking_noise (HiddenLayer.input l) nz_lvl;
  let obs_dim := HiddenLayer.in_dim l in
  let code_dim := HiddenLayer.out_dim l in
  encoder ← HiddenLayer.__init__ input_enc obs_dim code_dim
              (Some act_fun) 0 (Some W) (Some b_enc) true;
  let input_dec := HiddenLayer.output encoder in
  raw_decoder ← HiddenLayer.__init__ input_dec code_dim obs_dim
                  (Some act_fun) 0 (Some (Transpose W)) None true;
  sde_decoder ← HiddenLayer.__init__ input_dec code_dim obs_dim
                  (Some act_fun) 0.5 (Some (Transpose W))
                  (Some (HiddenLayer.b raw_decoder)) true;
  mret {| dae_clip_params :=
            clip (HiddenLayer.b raw_decoder) 0 (dae_clip_params d);
          dae_raw_layers := dae_raw_layers d ++ [[encoder; raw_decoder]];
          dae_sde_layers := dae_sde_layers d ++ [[encoder; sde_decoder]];
          dae_dae_params :=
            dae_dae_params d ++
              [[HiddenLayer.W encoder; HiddenLayer.b encoder;
                HiddenLayer.b raw_decoder]];
          dae_raw_losses := dae_raw_losses d;
          dae_sde_losses := dae_sde_losses d |}.

(** One pass of the second loop (lines 284 to 302). *)
Definition dae_loss_step (using_sigmoid : Z)
    (mlp_layers : list HiddenLayer.t) (lam_l1 : Q)
    (d : dae) (i : nat) : res py_exn dae :=
  l ← py_index mlp_layers i;
  let dae_input := HiddenLayer.input l in
  raw_pair ← py_index (dae_raw_layers d) i;
  raw_decoder ← py_index raw_pair 1;
  sde_pair ← py_index (dae_sde_layers d) i;
  sde_decoder ← py_index sde_pair 1;
  let '(raw_recon_loss, sde_recon_loss) :=
    if Z.eqb using_sigmoid 1 then
      (Sum (binary_crossentropy (HiddenLayer.output raw_decoder) dae_input),
       Sum (binary_crossentropy (HiddenLayer.output sde_decoder) dae_input))
    else
      (Sum (Sqr (Sub dae_input (HiddenLayer.linear_output raw_decoder))),
       Sum (Sqr (Sub dae_input (HiddenLayer.linear_output sde_decoder)))) in
  let raw_sparse_loss :=
    Mul (Const lam_l1) (HiddenLayer.inp_l1_sum raw_decoder) in
  let sde_sparse_loss :=
    Mul (Const lam_l1) (HiddenLayer.inp_l1_sum sde_decoder) in
  Ok {| dae_clip_params := dae_clip_params d;
        dae_raw_layers := dae_raw_layers d;
        dae_sde_layers := dae_sde_layers d;
        dae_dae_params := dae_dae_params d;
        dae_raw_losses :=
          dae_raw_losses d ++
            [[Div raw_recon_loss (Shape0 dae_input);
              Div raw_sparse_loss (Shape0 dae_input)]];
        dae_sde_losses :=
          dae_sde_losses d ++
            [[Div sde_recon_loss (Shape0 dae_input);
              Div sde_sparse_loss (Shape0 dae_input)]] |}.

Definition _construct_dae_layers (act_fun : texpr -> texpr)
    (using_sigmoid : Z) (mlp_layers : list HiddenLayer.t)
    (clip_params : gmap nat Z) (lam_l1 nz_lvl : Q) : build G dae :=
  let range := seq 0 (length mlp_layers - 1) in
  d ← foldM (dae_layer_step act_fun mlp_layers nz_lvl)
        (Dae clip_params [] [] [] [] []) range;
  foldM (fun d i => lift (dae_loss_step using_sigmoid mlp_layers lam_l1 d i))
    d range.

(** The variables of the main loop of [__init__] (lines 126 to 158). *)
Record chains : Type := Chains {
  ch_clip_params : gmap nat Z;
  ch_mlp_layers : list HiddenLayer.t;
  ch_dev_clones : list (list HiddenLayer.t);
  next_raw_input : texpr;
  next_drop_inputs : list texpr;
  first_layer : bool;
}.

(** One pass of the loop over the clones (lines 150 to 157). *)
Definition clone_step (act_fun : texpr -> texpr) (use_bias : bool)
    (n_in n_out : nat) (c : chains) (i : nat) : build G chains :=
  clone ← lift (py_index (ch_dev_clones c) i);
  inp ← lift (py_index (next_drop_inputs c) i);
  raw ← lift (py_last (ch_mlp_layers c));
  lay ← HiddenLayer.__init__ inp n_in n_out (Some act_fun)
          (if first_layer c then 0.2 else 0.5)
          (Some (HiddenLayer.W raw)) (Some (HiddenLayer.b raw)) use_bias;
  mret {| ch_clip_params := ch_clip_params c;
          ch_mlp_layers := ch_mlp_layers c;
          ch_dev_clones := <[i := clone ++ [lay]]> (ch_dev_clones c);
          next_raw_input := next_raw_input c;
          next_drop_inputs :=
            <[i := HiddenLayer.output lay]> (next_drop_inputs c);
          first_layer := first_layer c |}.

(** One pass of the loop over the layer sizes (lines 137 to 158). *)
Definition layer_step (act_fun : texpr -> texpr) (use_bias : bool)
    (dc_count : nat) (c : chains) (size : nat * nat) : build G chains :=
  let '(n_in, n_out) := size in
  raw ← HiddenLayer.__init__ (next_raw_input c) n_in n_out (Some act_fun)
          0 None None use_bias;
  let c :=
    {| ch_clip_params :=
         clip (HiddenLayer.b raw) 0
           (clip (HiddenLayer.W raw) 1 (ch_clip_params c));
       ch_mlp_layers := ch_mlp_layers c ++ [raw];
       ch_dev_clones := ch_dev_clones c;
       next_raw_input := HiddenLayer.output raw;
       next_drop_inputs := next_drop_inputs c;
       first_layer := first_layer c |} in
  c ← foldM (clone_step act_fun use_bias n_in n_out) c (seq 0 dc_count);
  mret {| ch_clip_params := ch_clip_params c;
          ch_mlp_layers := ch_mlp_layers c;
          ch_dev_clones := ch_dev_clones c;
          next_raw_input := next_raw_input c;
          next_drop_inputs := next_drop_inputs c;
          first_layer := false |}.

Definition __init__ (input : texpr) (params : Params.t) : build G t :=
  let act_fun := fun x => Sigmoid x in
  let using_sigmoid := 1%Z in
  let layer_sizes := Params.layer_sizes params in
  let lam_l2a := Params.lam_l2a params in
  let use_bias := Params.use_bias params in
  let dc_count := Params.dev_clones params in
  let dev_lams_sum := foldr Qplus 0%Q (Params.dev_lams params) in
  dev_lams ← theano_shared (Array1 (Params.dev_lams params));
  let dev_mix_rate := default 0%Q (Params.dev_mix_rate params) in
  let weight_matrix_sizes := zip layer_sizes (tail layer_sizes) in
  c ← foldM (layer_step act_fun use_bias dc_count)
        {| ch_clip_params := ∅;
           ch_mlp_layers := [];
           ch_dev_clones := replicate dc_count [];
           next_raw_input := input;
           next_drop_inputs := replicate dc_count input;
           first_layer := true |}
        weight_matrix_sizes;
  let mlp_layers := ch_mlp_layers c in
  let mlp_params := concat (map HiddenLayer.params mlp_layers) in
  d ← _construct_dae_layers act_fun using_sigmoid mlp_layers
        (ch_clip_params c) 0.01 0.25;
  raw_top ← lift (py_last mlp_layers);
  let raw_out_func := MCL2HingeSS raw_top in
  let raw_reg_loss :=
    Mul (Const lam_l2a) (Sum (Stack (map HiddenLayer.act_l2_sum mlp_layers))) in
  clone0 ← lift (py_index (ch_dev_clones c) 0);
  sde_top ← lift (py_last clone0);
  let sde_out_func := MCL2HingeSS sde_top in
  let sde_reg_loss :=
    Mul (Const lam_l2a) (Sum (Stack (map HiddenLayer.act_l2_sum clone0))) in
  mret {| act_fun := act_fun;
          using_sigmoid := using_sigmoid;
          dev_types := Params.dev_types params;
          dev_lams_sum := dev_lams_sum;
          dev_lams := dev_lams;
          dev_mix_rate := dev_mix_rate;
          clip_params := dae_clip_params d;
          mlp_layers := mlp_layers;
          dev_clones := ch_dev_clones c;
          input := input;
          mlp_params := mlp_params;
          layer_count := length mlp_layers;
          layers := mlp_layers;
          raw_dae_layers := dae_raw_layers d;
          sde_dae_layers := dae_sde_layers d;
          dae_params := dae_dae_params d;
          raw_dae_losses := dae_raw_losses d;
          sde_dae_losses := dae_sde_losses d;
          raw_out_func := raw_out_func;
          raw_class_loss := loss_func raw_out_func;
          raw_reg_loss := raw_reg_loss;
          class_errors := errors raw_out_func;
          sde_out_func := sde_out_func;
          sde_class_loss := loss_func sde_out_func;
          sde_reg_loss := sde_reg_loss |}.
End WithRng.

End SS_DEV_NET.

(** ** Quantities the properties speak of *)

(** The sum of the squares of a row, its L2 norm, and the row that
    [row_normalize] makes of it. *)
Definition sumsq (row : list R) : R := rsum (map (fun a => a * a) row).

Definition l2norm (row : list R) : R := sqrt (sumsq row).

Definition normalize_row (row : list R) : list R :=
  map (fun v => v / sqrt (sumsq row + 1 / 1000000)) row.

(** An environment that binds the symbolic inputs listed in [xs] and the
    shared variables listed in [σ]; every random stream draws [keep]. *)
Definition env_of (xs : list (string * tensor)) (σ : list (nat * tensor))
    (keep : bool) : env :=
  {| inputs := fun x => snd <$> List.find (fun p => String.eqb (fst p) x) xs;
     shared := fun i => snd <$> List.find (fun p => Nat.eqb (fst p) i) σ;
     binomial_draw := fun _ _ _ _ => keep |}.

(** The rows of a batch whose label is the unlabeled marker 0. *)
Fixpoint select_unlabeled {A} (y : list R) (rows : list A) : list A :=
  match y, rows with
  | yi :: y', r :: rows' =>
      if Req_dec_T yi 0 then r :: select_unlabeled y' rows'
      else select_unlabeled y' rows'
  | _, _ => []
  end.

(** The sum over a row of the squared differences of two representations. *)
Definition sq_dist (r s : list R) : R :=
  rsum (zip_with (fun p q => (p - q) * (p - q)) r s).

(** The sum of the squared differences over the masked entries, divided by
    the number of masked entries. *)
Definition masked_variance (y : list R) (a b : list (list R)) : R :=
  rsum (zip_with sq_dist (select_unlabeled y a) (select_unlabeled y b))
  / INR (length (select_unlabeled y y)).

(** The masked variance as the documentation words it, for comparison with
    the code: the divisor is the count of masked entries, the mask being
    broadcast across the feature dimension, so that every feature of every
    unlabeled example is counted. *)
Definition masked_variance_per_entry (y : list R) (a b : list (list R)) : R :=
  rsum (zip_with sq_dist (select_unlabeled y a) (select_unlabeled y b))
  / INR (length (concat (select_unlabeled y a))).

(** What a DEV selector other than 4 applies to a representation first. *)
Definition dev_transform (dev_type : Z) (m : list (list R)) : list (list R) :=
  if Z.eqb dev_type 1 then map normalize_row m
  else if Z.eqb dev_type 2 then map (map tanh) m
  else if Z.eqb dev_type 3 then map (map sigmoid) m
  else m.

(** The 0/1 values of the semi-supervised mask. *)
Definition mask_of (y : list R) : list R :=
  map (fun yi => if Req_dec_T yi 0 then 1 else 0) y.

(** The mask of [_dev_loss] and its masked variance, for reference in the
    statements below. *)
Definition ss_mask (Y : texpr) : texpr := ReshapeCol (Eq Y (Const 0)) Y.

Definition var_fun (Y x1 x2 : texpr) : texpr :=
  Div (Sum (Sqr (Mul (Sub x1 x2) (ss_mask Y)))) (Sum (ss_mask Y)).

(** ** Inputs for the examples *)

(** A batch of two examples with two features: the first unlabeled, the
    second labeled; the raw representation [x1], the droppy one [x2]. *)
Definition batch_env : env :=
  env_of [("x1"%string, Matrix [[1; 2]; [3; 4]]);
          ("x2"%string, Matrix [[0; 0]; [0; 0]]);
          ("y"%string, Vector [0; 1])] [] true.

(** ** Reading [dev_cost] *)

(** The representation of a layer that enters the DEV term of position [i]:
    the output, and for the last layer the linear output. *)
Definition dev_rep (self : SS_DEV_NET.t) (i : nat) (l : HiddenLayer.t) : texpr :=
  if Nat.ltb i (SS_DEV_NET.layer_count self - 1) then HiddenLayer.output l
  else HiddenLayer.linear_output l.

(** [term] is the weighted DEV term of position [i]. *)
Definition dev_term_at (self : SS_DEV_NET.t) (y : texpr) (c0 : list HiddenLayer.t)
    (i : nat) (term : texpr) : Prop :=
  exists raw clone dev_type,
    SS_DEV_NET.mlp_layers self !! i = Some raw /\
    c0 !! i = Some clone /\
    SS_DEV_NET.dev_types self !! i = Some dev_type /\
    term = Mul (Subtensor (SS_DEV_NET.dev_lams self) i)
             (SS_DEV_NET._dev_loss (dev_rep self i raw) (dev_rep self i clone)
                y dev_type).

(** The structure [__init__] gives the object, as far as [dev_cost] reads
    it: clone 0 exists and is as long as the raw chain. *)
Definition well_formed (self : SS_DEV_NET.t) (c0 : list HiddenLayer.t) : Prop :=
  SS_DEV_NET.layer_count self = length (SS_DEV_NET.mlp_layers self) /\
  SS_DEV_NET.dev_clones self !! 0%nat = Some c0 /\
  length c0 = SS_DEV_NET.layer_count self.

(** A small linear congruential generator and a squared-error loss, to run
    the constructors on in the examples. *)
Module Lcg.
Definition next (s : Z) : Z := ((1103515245 * s + 12345) mod 2147483648)%Z.

#[global] Instance random_state : RandomState Z := {|
  randint high s := ((next s mod high)%Z, next s);
  standard_normal n m s :=
    (replicate n (replicate m (inject_Z (next s mod 5 - 2))), next s);
|}.

#[global] Instance squared_error : output_losses := {|
  MCL2HingeSS layer :=
    {| loss_func y :=
         Sum (Sqr (Sub (HiddenLayer.linear_output layer) (ReshapeCol y y)));
       errors y :=
         Sum (Sqr (Sub (HiddenLayer.output layer) (ReshapeCol y y))) |};
|}.

Definition start : builder Z := Builder 42%Z 0 ∅.
End Lcg.

(** ** Reading the constructed network *)

(** The drop rate of the clone layers at position [j]. *)
Definition drop_rate_at (j : nat) : Q :=
  match j with
  | O => 0.2
  | S _ => 0.5
  end.

(** [lay] was built as a layer at position [j] of a clone: by the
    constructor, with the drop rate of the position and with the weight and
    the bias of the raw layer [raw] supplied. *)
Definition clone_layer_of {G} `{RandomState G} (act_fun : texpr -> texpr)
    (use_bias : bool) (j : nat) (raw lay : HiddenLayer.t) : Prop :=
  exists inp (st st' : builder G),
    HiddenLayer.__init__ inp (HiddenLayer.in_dim raw) (HiddenLayer.out_dim raw)
      (Some act_fun) (drop_rate_at j)
      (Some (HiddenLayer.W raw)) (Some (HiddenLayer.b raw)) use_bias st =
    Ok (lay, st').

(** An evaluation after an update of the shared variable [i]. *)
Definition set_shared (ρ : env) (i : nat) (v : tensor) : env :=
  {| inputs := inputs ρ;
     shared := fun j => if Nat.eqb j i then Some v else shared ρ j;
     binomial_draw := binomial_draw ρ |}.

Section Invariants.
Context {G : Type} `{RandomState G}.
Variables (act_fun : texpr -> texpr) (use_bias : bool) (K : nat).

(** Every layer of [clone] was built from the raw layer of its position. *)
Definition clone_of (mlp clone : list HiddenLayer.t) : Prop :=
  forall j lay, clone !! j = Some lay ->
    exists raw, mlp !! j = Some raw /\ clone_layer_of act_fun use_bias j raw lay.

(** The raw layers own the shared variables from [n0] on, two each. *)
Definition raw_params_from (n0 : nat) (mlp : list HiddenLayer.t) : Prop :=
  forall j raw, mlp !! j = Some raw ->
    HiddenLayer.W raw = Shared (n0 + 2 * j) /\
    HiddenLayer.b raw = Shared (n0 + 2 * j + 1).

(** The invariant of the loop over the layer sizes. *)
Definition main_inv (n0 : nat) (done : list (nat * nat))
    (c : SS_DEV_NET.chains) (st : builder G) : Prop :=
  length (SS_DEV_NET.ch_mlp_layers c) = length done /\
  next_id st = (n0 + 2 * length done)%nat /\
  SS_DEV_NET.first_layer c = bool_decide (length done = 0%nat) /\
  length (SS_DEV_NET.ch_dev_clones c) = K /\
  length (SS_DEV_NET.next_drop_inputs c) = K /\
  raw_params_from n0 (SS_DEV_NET.ch_mlp_layers c) /\
  forall i clone, SS_DEV_NET.ch_dev_clones c !! i = Some clone ->
    length clone = length (SS_DEV_NET.ch_mlp_layers c) /\
    clone_of (SS_DEV_NET.ch_mlp_layers c) clone.

(** The invariant of the loop over the clones, entered with [c0]. *)
Definition clone_inv (c0 : SS_DEV_NET.chains) (nid : nat) (done : list nat)
    (c : SS_DEV_NET.chains) (st : builder G) : Prop :=
  SS_DEV_NET.ch_mlp_layers c = SS_DEV_NET.ch_mlp_layers c0 /\
  SS_DEV_NET.ch_clip_params c = SS_DEV_NET.ch_clip_params c0 /\
  SS_DEV_NET.next_raw_input c = SS_DEV_NET.next_raw_input c0 /\
  SS_DEV_NET.first_layer c = SS_DEV_NET.first_layer c0 /\
  next_id st = nid /\
  length (SS_DEV_NET.ch_dev_clones c) = K /\
  length (SS_DEV_NET.next_drop_inputs c) = K /\
  forall i clone, SS_DEV_NET.ch_dev_clones c !! i = Some clone ->
    clone_of (SS_DEV_NET.ch_mlp_layers c0) clone /\
    length clone =
      if decide (i < length done)%nat
      then length (SS_DEV_NET.ch_mlp_layers c0)
      else (length (SS_DEV_NET.ch_mlp_layers c0) - 1)%nat.
End Invariants.

(** The DAE pair of position [i]: an encoder on the parameters of raw layer
    [i], and two decoders on the transposed weight, whose bias is the shared
    variable [n1 + i]. *)
Definition dae_pair_at (mlp : list HiddenLayer.t) (n1 : nat)
    (d : SS_DEV_NET.dae) (i : nat) : Prop :=
  exists raw encoder raw_decoder sde_decoder,
    mlp !! i = Some raw /\
    SS_DEV_NET.dae_raw_layers d !! i = Some [encoder; raw_decoder] /\
    SS_DEV_NET.dae_sde_layers d !! i = Some [encoder; sde_decoder] /\
    SS_DEV_NET.dae_dae_params d !! i =
      Some [HiddenLayer.W encoder; HiddenLayer.b encoder;
            HiddenLayer.b raw_decoder] /\
    HiddenLayer.W encoder = HiddenLayer.W raw /\
    HiddenLayer.b encoder = HiddenLayer.b raw /\
    HiddenLayer.W raw_decoder = Transpose (HiddenLayer.W raw) /\
    HiddenLayer.rescaled 0.5 (Transpose (HiddenLayer.W raw)) =
      Ok (HiddenLayer.W sde_decoder) /\
    HiddenLayer.b raw_decoder = Shared (n1 + i) /\
    HiddenLayer.b sde_decoder = HiddenLayer.b raw_decoder.

(** The invariant of the first loop of [_construct_dae_layers]. *)
Definition dae_inv {G} (mlp : list HiddenLayer.t) (n1 : nat) (done : list nat)
    (d : SS_DEV_NET.dae) (st : builder G) : Prop :=
  next_id st = (n1 + length done)%nat /\
  length (SS_DEV_NET.dae_raw_layers d) = length done /\
  length (SS_DEV_NET.dae_sde_layers d) = length done /\
  length (SS_DEV_NET.dae_dae_params d) = length done /\
  forall i, (i < length done)%nat -> dae_pair_at mlp n1 d i.

(** A network of two layers with one clone, and the same without DEV
    weights. *)
Definition example_params : Params.t :=
  {| Params.layer_sizes := [2; 2; 1]%nat;
     Params.lam_l2a := 0.1;
     Params.use_bias := true;
     Params.dev_clones := 1;
     Params.dev_types := [0; 2]%Z;
     Params.dev_lams := [1; 0.5]%Q;
     Params.dev_mix_rate := None |}.

Definition plain_params : Params.t :=
  {| Params.layer_sizes := [2; 2; 1]%nat;
     Params.lam_l2a := 0.1;
     Params.use_bias := true;
     Params.dev_clones := 1;
     Params.dev_types := [0; 2]%Z;
     Params.dev_lams := [0; 0]%Q;
     Params.dev_mix_rate := None |}.

(** An evaluation in which the shared variable 1, the weight of the first
    raw layer of a network built from [Lcg.start], is the matrix [[1]]. *)
Definition unit_weight_env : env :=
  env_of [] [(1%nat, Matrix [[1]])] true.

(** A batch whose one example is labeled (its label is 1, not the marker
    0), with equal raw and droppy representations; and the same batch with
    another droppy representation of that example. *)
Definition labeled_env : env :=
  env_of [("x1"%string, Matrix [[0]]);
          ("x2"%string, Matrix [[0]]);
          ("y"%string, Vector [1])] [] true.

Definition labeled_env' : env :=
  env_of [("x1"%string, Matrix [[0]]);
          ("x2"%string, Matrix [[1]]);
          ("y"%string, Vector [1])] [] true.

(** A batch of two examples, both labeled. *)
Definition all_labeled_env : env :=
  env_of [("y"%string, Vector [1; 2])] [] true.

(** An evaluation of the network built from [example_params]: a batch of one
    unlabeled example, the DEV weights as configured, all other parameters
    zero. *)
Definition example_env : env :=
  env_of [("x"%string, Matrix [[1; 2]]); ("y"%string, Vector [0])]
    [(0%nat, Vector [1; 1 / 2]);
     (1%nat, Matrix [[0; 0]; [0; 0]]);
     (2%nat, Vector [0; 0]);
     (3%nat, Matrix [[0]; [0]]);
     (4%nat, Vector [0])]
    true.

(** A batch of two rows, the second all zero. *)
Definition rows_env : env :=
  env_of [("x"%string, Matrix [[1]; [0]])] [] true.

(** ** Tactics *)

(** Unfold one step of [eval] and of the binds around it. *)
Ltac ev := cbn [eval mbind res_bind fmap res_fmap mret res_ret].

(** Evaluate an expression on concrete inputs, leaving the real numbers and
    the comparisons on them as they are. *)
Ltac eval_concrete :=
  lazy -[Rplus Rminus Rmult Rdiv Rinv Ropp IZR R0 R1 exp ln sqrt tanh sigmoid
         Rabs Q2R Req_dec_T Rlt_dec Rle_dec].

(** Decide the comparisons an evaluation is stuck on, by linear arithmetic. *)
Ltac decide_real :=
  match goal with
  | |- context [Rlt_dec ?a ?b] =>
      first [ destruct (Rlt_dec a b); [|exfalso; lra]
            | destruct (Rlt_dec a b); [exfalso; lra|] ]
  | |- context [Req_dec_T ?a ?b] =>
      first [ destruct (Req_dec_T a b); [|exfalso; lra]
            | destruct (Req_dec_T a b); [exfalso; lra|] ]
  end.

Ltac decide_reals :=
  eval_concrete; rewrite ?RMicromega.Q2R_0, ?RMicromega.Q2R_1;
  repeat (decide_real; eval_concrete;
          rewrite ?RMicromega.Q2R_0, ?RMicromega.Q2R_1).


(** ** Further quantities *)

(** The cross entropy of an output [o] against a target [t], as
    [T.nnet.binary_crossentropy] computes it entry by entry. *)
Definition cross_entropy (o t : R) : R := - (t * ln o + (1 - t) * ln (1 - o)).

(** The mean of the squares of the entries of a matrix. *)
Definition mean_square (m : list (list R)) : R :=
  sumsq (concat m) / INR (length (concat m)).

(** The input of the layer at position [j] of a chain built on [input]: the
    output of the layer before it. *)
Definition chain_input (input : texpr) (chain : list HiddenLayer.t) (j : nat) : texpr :=
  match j with
  | O => input
  | S j' => from_option HiddenLayer.output input (chain !! j')
  end.

(** The same network as [example_params], asked for without a clone, and
    with a single layer size. *)
Definition no_clone_params : Params.t :=
  {| Params.layer_sizes := [2; 2; 1]%nat;
     Params.lam_l2a := 0.1;
     Params.use_bias := true;
     Params.dev_clones := 0;
     Params.dev_types := [0; 2]%Z;
     Params.dev_lams := [1; 0.5]%Q;
     Params.dev_mix_rate := None |}.

(** [example_params] with a selector for the first layer only. *)
Definition short_types_params : Params.t :=
  {| Params.layer_sizes := [2; 2; 1]%nat;
     Params.lam_l2a := 0.1;
     Params.use_bias := true;
     Params.dev_clones := 1;
     Params.dev_types := [0]%Z;
     Params.dev_lams := [1; 0.5]%Q;
     Params.dev_mix_rate := None |}.

(** Two matrices with rows of pairwise equal length. *)
Definition same_shape (a b : list (list R)) : Prop :=
  Forall2 (fun r s => length r = length s) a b.

(** An evaluation for a single layer: a batch of one example with one
    feature, and the shared variable 1 as its weight. *)
Definition layer_env : env :=
  env_of [("x"%string, Matrix [[0]])] [(1%nat, Matrix [[1]])] true.

(** ** The chains a constructed network consists of *)

Section RawChain.
Context {G : Type} `{RandomState G}.
Variables (act_fun : texpr -> texpr) (input : texpr) (use_bias : bool).
Variables (n0 : nat) (σ0 : gmap nat ndarray).

(** Raw layer [j]: built on the output of raw layer [j - 1], with the shared
    variables [n0 + 2j] and [n0 + 2j + 1] as its weight and bias. *)
Definition raw_layer_at (sizes : list (nat * nat)) (mlp : list HiddenLayer.t)
    (j : nat) (raw : HiddenLayer.t) : Prop :=
  sizes !! j = Some (HiddenLayer.in_dim raw, HiddenLayer.out_dim raw) /\
  HiddenLayer.input raw = chain_input input mlp j /\
  HiddenLayer.W raw = Shared (n0 + 2 * j) /\
  HiddenLayer.b raw = Shared (n0 + 2 * j + 1) /\
  HiddenLayer.linear_output raw =
    (if use_bias
     then Add (Dot (HiddenLayer.input raw) (HiddenLayer.W raw)) (HiddenLayer.b raw)
     else Dot (HiddenLayer.input raw) (HiddenLayer.W raw)) /\
  HiddenLayer.output raw = act_fun (HiddenLayer.linear_output raw) /\
  HiddenLayer.act_l2_sum raw =
    Div (Sum (Sqr (HiddenLayer.output raw))) (Size (HiddenLayer.output raw)) /\
  HiddenLayer.params raw =
    (if use_bias then [HiddenLayer.W raw; HiddenLayer.b raw]
     else [HiddenLayer.W raw]).

(** The values the parameters of raw layer [j] are created with. *)
Definition raw_initial (σ : gmap nat ndarray) (j : nat) (raw : HiddenLayer.t) : Prop :=
  (exists g : G,
     σ !! (n0 + 2 * j)%nat =
       Some (Array2 (map (map (Qmult 0.01))
                       (standard_normal (HiddenLayer.in_dim raw)
                          (HiddenLayer.out_dim raw) g).1))) /\
  σ !! (n0 + 2 * j + 1)%nat =
    Some (Array1 (replicate (HiddenLayer.out_dim raw) 0%Q)).

(** [clip_params] after [L] raw layers: 1 for a weight, 0 for a bias. *)
Definition raw_clip (L : nat) (k : nat) : option Z :=
  if decide (n0 <= k < n0 + 2 * L)%nat
  then Some (if Nat.even (k - n0) then 1 else 0)%Z
  else None.

(** The invariant of the loop over the layer sizes, for the raw chain. *)
Definition raw_inv (done : list (nat * nat)) (c : SS_DEV_NET.chains)
    (st : builder G) : Prop :=
  length (SS_DEV_NET.ch_mlp_layers c) = length done /\
  next_id st = (n0 + 2 * length done)%nat /\
  SS_DEV_NET.next_raw_input c =
    chain_input input (SS_DEV_NET.ch_mlp_layers c) (length done) /\
  (forall j raw, SS_DEV_NET.ch_mlp_layers c !! j = Some raw ->
     raw_layer_at done (SS_DEV_NET.ch_mlp_layers c) j raw /\
     raw_initial (initial st) j raw) /\
  (forall k, SS_DEV_NET.ch_clip_params c !! k = raw_clip (length done) k) /\
  (forall k, (k < n0)%nat -> initial st !! k = σ0 !! k).

(** Layer [j] of a clone: built on the masked output of layer [j - 1] of the
    same clone. *)
Definition drop_layer_at (clone : list HiddenLayer.t) (j : nat)
    (lay : HiddenLayer.t) : Prop :=
  exists seed,
    HiddenLayer.input lay =
      Mul (chain_input input clone j)
        (Cast (Binomial seed (1 - drop_rate_at j) (chain_input input clone j))) /\
    HiddenLayer.output lay = act_fun (HiddenLayer.linear_output lay).

(** The invariant of the loop over the layer sizes, for the clones. *)
Definition drop_inv (K : nat) (done : list (nat * nat))
    (c : SS_DEV_NET.chains) (st : builder G) : Prop :=
  SS_DEV_NET.first_layer c = bool_decide (length done = 0%nat) /\
  length (SS_DEV_NET.ch_dev_clones c) = K /\
  length (SS_DEV_NET.next_drop_inputs c) = K /\
  forall i clone, SS_DEV_NET.ch_dev_clones c !! i = Some clone ->
    length clone = length done /\
    SS_DEV_NET.next_drop_inputs c !! i =
      Some (chain_input input clone (length done)) /\
    forall j lay, clone !! j = Some lay -> drop_layer_at clone j lay.

(** The invariant of the loop over the clones, at a layer of position [L]. *)
Definition drop_step_inv (K L : nat) (done : list nat)
    (c : SS_DEV_NET.chains) (st : builder G) : Prop :=
  SS_DEV_NET.first_layer c = bool_decide (L = 0%nat) /\
  length (SS_DEV_NET.ch_dev_clones c) = K /\
  length (SS_DEV_NET.next_drop_inputs c) = K /\
  forall i clone, SS_DEV_NET.ch_dev_clones c !! i = Some clone ->
    let n := if decide (i < length done)%nat then S L else L in
    length clone = n /\
    SS_DEV_NET.next_drop_inputs c !! i = Some (chain_input input clone n) /\
    forall j lay, clone !! j = Some lay -> drop_layer_at clone j lay.
End RawChain.

(** ** The autoencoders of a constructed network *)

(** The DAE of position [i]: the encoder reads the masked input of raw
    layer [i]; both decoders read the encoder's output, the sde decoder
    through a mask of its own; the decoders map back to the input
    dimension, with the shared variable [n1 + i] as their bias. *)
Definition dae_wired (act_fun : texpr -> texpr) (mlp : list HiddenLayer.t)
    (n1 : nat) (d : SS_DEV_NET.dae) (σ : gmap nat ndarray) (i : nat) : Prop :=
  exists raw encoder raw_decoder sde_decoder seed seed',
    mlp !! i = Some raw /\
    SS_DEV_NET.dae_raw_layers d !! i = Some [encoder; raw_decoder] /\
    SS_DEV_NET.dae_sde_layers d !! i = Some [encoder; sde_decoder] /\
    HiddenLayer.input encoder =
      Mul (HiddenLayer.input raw)
        (Cast (Binomial seed (1 - 0.25) (HiddenLayer.input raw))) /\
    HiddenLayer.linear_output encoder =
      Add (Dot (HiddenLayer.input encoder) (HiddenLayer.W raw)) (HiddenLayer.b raw) /\
    HiddenLayer.output encoder = act_fun (HiddenLayer.linear_output encoder) /\
    HiddenLayer.in_dim encoder = HiddenLayer.in_dim raw /\
    HiddenLayer.out_dim encoder = HiddenLayer.out_dim raw /\
    HiddenLayer.input raw_decoder = HiddenLayer.output encoder /\
    HiddenLayer.in_dim raw_decoder = HiddenLayer.out_dim raw /\
    HiddenLayer.out_dim raw_decoder = HiddenLayer.in_dim raw /\
    HiddenLayer.linear_output raw_decoder =
      Add (Dot (HiddenLayer.output encoder) (Transpose (HiddenLayer.W raw)))
        (Shared (n1 + i)) /\
    HiddenLayer.output raw_decoder = act_fun (HiddenLayer.linear_output raw_decoder) /\
    HiddenLayer.input sde_decoder =
      Mul (HiddenLayer.output encoder)
        (Cast (Binomial seed' (1 - 0.5) (HiddenLayer.output encoder))) /\
    HiddenLayer.in_dim sde_decoder = HiddenLayer.out_dim raw /\
    HiddenLayer.out_dim sde_decoder = HiddenLayer.in_dim raw /\
    HiddenLayer.linear_output sde_decoder =
      Add (Dot (HiddenLayer.input sde_decoder)
             (Mul (Const (1 / (1 - 0.5))) (Transpose (HiddenLayer.W raw))))
        (Shared (n1 + i)) /\
    HiddenLayer.output sde_decoder = act_fun (HiddenLayer.linear_output sde_decoder) /\
    HiddenLayer.inp_l1_sum raw_decoder =
      Sum (Abs (row_normalize (HiddenLayer.input raw_decoder))) /\
    HiddenLayer.inp_l1_sum sde_decoder =
      Sum (Abs (row_normalize (HiddenLayer.input sde_decoder))) /\
    σ !! (n1 + i)%nat = Some (Array1 (replicate (HiddenLayer.in_dim raw) 0%Q)) /\
    SS_DEV_NET.dae_clip_params d !! (n1 + i)%nat = Some 0%Z /\
    HiddenLayer.b raw_decoder = Shared (n1 + i) /\
    HiddenLayer.b sde_decoder = Shared (n1 + i).

(** The invariant of the first loop of [_construct_dae_layers], entered with
    the dictionary [clip1] and the initial values [σ1]. *)
Definition dae_wiring_inv {G} (act_fun : texpr -> texpr) (mlp : list HiddenLayer.t)
    (n1 : nat) (clip1 : gmap nat Z) (σ1 : gmap nat ndarray) (done : list nat)
    (d : SS_DEV_NET.dae) (st : builder G) : Prop :=
  next_id st = (n1 + length done)%nat /\
  SS_DEV_NET.dae_raw_losses d = [] /\
  SS_DEV_NET.dae_sde_losses d = [] /\
  length (SS_DEV_NET.dae_raw_layers d) = length done /\
  length (SS_DEV_NET.dae_sde_layers d) = length done /\
  (forall i, (i < length done)%nat -> dae_wired act_fun mlp n1 d (initial st) i) /\
  (forall k, (k < n1)%nat ->
     initial st !! k = σ1 !! k /\ SS_DEV_NET.dae_clip_params d !! k = clip1 !! k) /\
  (forall k, (n1 + length done <= k)%nat ->
     SS_DEV_NET.dae_clip_params d !! k = clip1 !! k).

(** The pair of losses of the DAE of position [i], for the decoders in
    [layers]: the cross entropy of the decoder's output against the input of
    raw layer [i], and the sparsity term, each divided by the batch size. *)
Definition dae_loss_at (mlp : list HiddenLayer.t)
    (layers : list (list HiddenLayer.t)) (losses : list (list texpr))
    (lam_l1 : Q) (i : nat) : Prop :=
  exists raw encoder decoder,
    mlp !! i = Some raw /\
    layers !! i = Some [encoder; decoder] /\
    losses !! i =
      Some [Div (Sum (binary_crossentropy (HiddenLayer.output decoder)
                        (HiddenLayer.input raw)))
              (Shape0 (HiddenLayer.input raw));
            Div (Mul (Const lam_l1) (HiddenLayer.inp_l1_sum decoder))
              (Shape0 (HiddenLayer.input raw))].

(** The invariant of the second loop of [_construct_dae_layers]. *)
Definition dae_loss_inv {G} (mlp : list HiddenLayer.t) (lam_l1 : Q)
    (d0 : SS_DEV_NET.dae) (st0 : builder G) (done : list nat)
    (d : SS_DEV_NET.dae) (st : builder G) : Prop :=
  st = st0 /\
  SS_DEV_NET.dae_raw_layers d = SS_DEV_NET.dae_raw_layers d0 /\
  SS_DEV_NET.dae_sde_layers d = SS_DEV_NET.dae_sde_layers d0 /\
  SS_DEV_NET.dae_dae_params d = SS_DEV_NET.dae_dae_params d0 /\
  SS_DEV_NET.dae_clip_params d = SS_DEV_NET.dae_clip_params d0 /\
  length (SS_DEV_NET.dae_raw_losses d) = length done /\
  length (SS_DEV_NET.dae_sde_losses d) = length done /\
  forall i, (i < length done)%nat ->
    dae_loss_at mlp (SS_DEV_NET.dae_raw_layers d0) (SS_DEV_NET.dae_raw_losses d)
      lam_l1 i /\
    dae_loss_at mlp (SS_DEV_NET.dae_sde_layers d0) (SS_DEV_NET.dae_sde_losses d)
      lam_l1 i.

(** ** The twin displacement noise *)

Section Twin.
Context {G : Type} `{RandomState G}.

(** [RandomStreams(seed).normal(size=like.shape)]: a node of the graph that
    draws, at each evaluation, a matrix of the shape of [like]. *)
Variable normal : Z -> texpr -> texpr.

Definition _twin_displacement_noise (input step_len : texpr)
    : build G (list texpr) :=
  seed ← rng_randint 100000;
  let step_dirs := normal seed input in
  let step_dirs := Mul (row_normalize step_dirs) step_len in
  let l_twin := Sub input step_dirs in
  let r_twin := Add input step_dirs in
  mret [l_twin; r_twin].
End Twin.

(** A batch of one point of the plane and a direction drawn for it, and
    the direction node that reads the draw from the input [noise]. *)
Definition twin_env : env :=
  env_of [("x"%string, Matrix [[1; 2]]); ("noise"%string, Matrix [[3; 4]])] [] true.

Definition noise_input (seed : Z) (like : texpr) : texpr := Var "noise".

(** ** Expressions without a random stream *)

(** No [Binomial] node occurs in the expression. *)
Fixpoint noise_free (e : texpr) : bool :=
  match e with
  | Var _ | Shared _ | Const _ => true
  | Neg a | Sqr a | Sqrt a | Abs a | Tanh a | Sigmoid a | Log a | Sum a
  | SumAxis1Keep a | Transpose a | Cast a | Size a | Shape0 a
  | Subtensor a _ => noise_free a
  | Add a b | Sub a b | Mul a b | Div a b | Eq a b | Dot a b
  | ReshapeCol a b => noise_free a && noise_free b
  | Binomial _ _ _ => false
  | Stack l => forallb noise_free l
  end.

(** The evaluation [ρ] with other draws of the random streams. *)
Definition with_draws (ρ : env) (draw : Z -> Q -> nat -> nat -> bool) : env :=
  {| inputs := inputs ρ; shared := shared ρ; binomial_draw := draw |}.

(** [example_params] with a DEV weight for the first layer only, and an
    evaluation in which the variable of the DEV weights holds that list. *)
Definition short_lams_params : Params.t :=
  {| Params.layer_sizes := [2; 2; 1]%nat;
     Params.lam_l2a := 0.1;
     Params.use_bias := true;
     Params.dev_clones := 1;
     Params.dev_types := [0; 2]%Z;
     Params.dev_lams := [1]%Q;
     Params.dev_mix_rate := None |}.

Definition short_lams_env : env :=
  env_of [("x"%string, Matrix [[1; 2]]); ("y"%string, Vector [0])]
    [(0%nat, Vector [1])] true.

(** ** Other clones *)

(** The network [self] with the list [clones] as its [dev_clones]. *)
Definition with_clones (self : SS_DEV_NET.t) (clones : list (list HiddenLayer.t))
    : SS_DEV_NET.t :=
  {| SS_DEV_NET.act_fun := SS_DEV_NET.act_fun self;
     SS_DEV_NET.using_sigmoid := SS_DEV_NET.using_sigmoid self;
     SS_DEV_NET.dev_types := SS_DEV_NET.dev_types self;
     SS_DEV_NET.dev_lams_sum := SS_DEV_NET.dev_lams_sum self;
     SS_DEV_NET.dev_lams := SS_DEV_NET.dev_lams self;
     SS_DEV_NET.dev_mix_rate := SS_DEV_NET.dev_mix_rate self;
     SS_DEV_NET.clip_params := SS_DEV_NET.clip_params self;
     SS_DEV_NET.mlp_layers := SS_DEV_NET.mlp_layers self;
     SS_DEV_NET.dev_clones := clones;
     SS_DEV_NET.input := SS_DEV_NET.input self;
     SS_DEV_NET.mlp_params := SS_DEV_NET.mlp_params self;
     SS_DEV_NET.layer_count := SS_DEV_NET.layer_count self;
     SS_DEV_NET.layers := SS_DEV_NET.layers self;
     SS_DEV_NET.raw_dae_layers := SS_DEV_NET.raw_dae_layers self;
     SS_DEV_NET.sde_dae_layers := SS_DEV_NET.sde_dae_layers self;
     SS_DEV_NET.dae_params := SS_DEV_NET.dae_params self;
     SS_DEV_NET.raw_dae_losses := SS_DEV_NET.raw_dae_losses self;
     SS_DEV_NET.sde_dae_losses := SS_DEV_NET.sde_dae_losses self;
     SS_DEV_NET.raw_out_func := SS_DEV_NET.raw_out_func self;
     SS_DEV_NET.raw_class_loss := SS_DEV_NET.raw_class_loss self;
     SS_DEV_NET.raw_reg_loss := SS_DEV_NET.raw_reg_loss self;
     SS_DEV_NET.class_errors := SS_DEV_NET.class_errors self;
     SS_DEV_NET.sde_out_func := SS_DEV_NET.sde_out_func self;
     SS_DEV_NET.sde_class_loss := SS_DEV_NET.sde_class_loss self;
     SS_DEV_NET.sde_reg_loss := SS_DEV_NET.sde_reg_loss self |}.

(** [example_params] with three clones, and with DEV weights that cancel. *)
Definition three_clone_params : Params.t :=
  {| Params.layer_sizes := [2; 2; 1]%nat;
     Params.lam_l2a := 0.1;
     Params.use_bias := true;
     Params.dev_clones := 3;
     Params.dev_types := [0; 2]%Z;
     Params.dev_lams := [1; 0.5]%Q;
     Params.dev_mix_rate := None |}.

Definition cancelling_params : Params.t :=
  {| Params.layer_sizes := [2; 2; 1]%nat;
     Params.lam_l2a := 0.1;
     Params.use_bias := true;
     Params.dev_clones := 1;
     Params.dev_types := [0; 2]%Z;
     Params.dev_lams := [1; -1]%Q;
     Params.dev_mix_rate := None |}.

(** [batch_env] with another labeled example: the second row of each
    representation is changed, the first, unlabeled one is kept. *)
Definition batch_env' : env :=
  env_of [("x1"%string, Matrix [[1; 2]; [7; 8]]);
          ("x2"%string, Matrix [[0; 0]; [5; 6]]);
          ("y"%string, Vector [0; 1])] [] true.

(** [example_env] with a value for the bias of the decoder, the shared
    variable 5 of a network built from [example_params]. *)
Definition dae_env : env :=
  env_of [("x"%string, Matrix [[1; 2]]); ("y"%string, Vector [0])]
    [(0%nat, Vector [1; 1 / 2]);
     (1%nat, Matrix [[0; 0]; [0; 0]]);
     (2%nat, Vector [0; 0]);
     (3%nat, Matrix [[0]; [0]]);
     (4%nat, Vector [0]);
     (5%nat, Vector [0; 0])]
    true.

(** * Properties *)

(** ** Results and traversals *)

Lemma res_bind_Ok {E A B} (f : A -> res E B) (a : A) : (Ok a ≫= f) = f a.
Proof. reflexivity. Qed.

Lemma res_bind_Err {E A B} (f : A -> res E B) (e : E) : (Err e ≫= f) = Err e.
Proof. reflexivity. Qed.

Lemma res_fmap_Ok {E A B} (f : A -> B) (a : A) : f <$> (Ok a : res E A) = Ok (f a).
Proof. reflexivity. Qed.

Lemma traverse_Forall {E A B} (f : A -> res E B) (g : A -> B) (l : list A) :
  Forall (fun x => f x = Ok (g x)) l -> traverse f l = Ok (map g l).
Proof.
  induction 1 as [|x l Hx _ IH]; [reflexivity|].
  cbn. rewrite Hx. cbn. rewrite IH. reflexivity.
Qed.

Lemma traverse_total {E A B} (g : A -> B) (l : list A) :
  traverse (E:=E) (fun x => Ok (g x)) l = Ok (map g l).
Proof. apply traverse_Forall, Forall_forall. reflexivity. Qed.

Lemma zipM_Forall2 {E A B C} (e : E) (f : A -> B -> res E C) (g : A -> B -> C)
    (u : list A) (v : list B) :
  Forall2 (fun x y => f x y = Ok (g x y)) u v ->
  zipM e f u v = Ok (zip_with g u v).
Proof.
  induction 1 as [|x y u v Hxy _ IH]; [reflexivity|].
  cbn. rewrite Hxy. cbn. rewrite IH. reflexivity.
Qed.

Lemma zip_same_total {A B C} (g : A -> B -> C) (u : list A) (v : list B) :
  length u = length v ->
  zip_same (fun x y => Ok (g x y)) u v = Ok (zip_with g u v).
Proof.
  intros Hlen. apply zipM_Forall2.
  revert v Hlen. induction u as [|x u IH]; intros [|y v] Hlen;
    simplify_eq/=; constructor; auto.
Qed.

Lemma eval_Stack ρ l : eval ρ (Stack l) = Vector <$> eval_scalars ρ l.
Proof.
  unfold eval_scalars. cbn [eval]. f_equal.
  induction l as [|a l IH]; [reflexivity|].
  cbn [traverse]. rewrite <- IH.
  destruct (eval ρ a) as [x|]; [|reflexivity]. cbn.
  destruct (as_scalar x); reflexivity.
Qed.

(** ** Elementwise operations on values *)

Lemma unop_Matrix_Forall f g m :
  Forall (Forall (fun v => f v = Ok (g v))) m ->
  unop f (Matrix m) = Ok (Matrix (map (map g) m)).
Proof.
  intros Hm. cbn [unop]. rewrite (traverse_Forall _ (map g)); [reflexivity|].
  eapply Forall_impl; [exact Hm|]. intros row Hrow. cbv beta in Hrow |- *.
  apply traverse_Forall, Hrow.
Qed.

Lemma unop_Matrix_total g m :
  unop (fun v => Ok (g v)) (Matrix m) = Ok (Matrix (map (map g) m)).
Proof.
  apply unop_Matrix_Forall, Forall_forall. intros row _.
  apply Forall_forall. reflexivity.
Qed.

Lemma unop_Column_Forall f g c :
  Forall (fun v => f v = Ok (g v)) c ->
  unop f (Column c) = Ok (Column (map g c)).
Proof. intros Hc. cbn [unop]. rewrite (traverse_Forall _ g) by exact Hc. reflexivity. Qed.

Lemma binop_Column_Scalar_total g c y :
  binop (fun a b => Ok (g a b)) (Column c) (Scalar y) =
  Ok (Column (map (fun a => g a y) c)).
Proof. cbn [binop]. rewrite traverse_total. reflexivity. Qed.

Lemma binop_Vector_Scalar_total g v y :
  binop (fun a b => Ok (g a b)) (Vector v) (Scalar y) =
  Ok (Vector (map (fun a => g a y) v)).
Proof. cbn [binop]. rewrite traverse_total. reflexivity. Qed.

Lemma binop_Scalar_Matrix_total g x m :
  binop (fun a b => Ok (g a b)) (Scalar x) (Matrix m) =
  Ok (Matrix (map (map (g x)) m)).
Proof.
  cbn [binop]. rewrite (traverse_Forall _ (map (g x))); [reflexivity|].
  apply Forall_forall. intros row _. apply traverse_total.
Qed.

Lemma binop_Matrix_Column_Forall2 f g m c :
  Forall2 (fun row y => Forall (fun x => f x y = Ok (g x y)) row) m c ->
  binop f (Matrix m) (Column c) =
  Ok (Matrix (zip_with (fun row y => map (fun x => g x y) row) m c)).
Proof.
  intros Hmc. cbn [binop]. unfold zip_same.
  rewrite (zipM_Forall2 _ _ (fun row y => map (fun x => g x y) row));
    [reflexivity|].
  eapply Forall2_impl; [exact Hmc|]. intros row y Hrow. cbv beta in Hrow |- *.
  apply traverse_Forall, Hrow.
Qed.

Lemma binop_Matrix_Matrix_total g a b :
  Forall2 (fun r s => length r = length s) a b ->
  binop (fun x y => Ok (g x y)) (Matrix a) (Matrix b) =
  Ok (Matrix (zip_with (zip_with g) a b)).
Proof.
  intros Hab. cbn [binop]. unfold zip_same at 1.
  rewrite (zipM_Forall2 _ _ (zip_with g)); [reflexivity|].
  eapply Forall2_impl; [exact Hab|]. intros r s Hrs. apply zip_same_total, Hrs.
Qed.

(** ** Row normalisation *)

Lemma rsum_squares_nonneg (row : list R) : 0 <= sumsq row.
Proof.
  unfold sumsq.
  induction row as [|a row IH]; cbn; unfold rsum in *; [lra|nra].
Qed.

Lemma Q2R_eps : Q2R 1e-6 = 1 / 1000000.
Proof.
  rewrite (Qeq_eqR 1e-6 (1 # 1000000)) by reflexivity.
  unfold Q2R. cbn [Qnum Qden]. lra.
Qed.

Lemma row_divisor_pos (row : list R) : 0 < sqrt (sumsq row + 1 / 1000000).
Proof.
  apply sqrt_lt_R0. pose proof (rsum_squares_nonneg row). lra.
Qed.

Lemma eval_row_normalize ρ x m :
  eval ρ x = Ok (Matrix m) ->
  eval ρ (row_normalize x) = Ok (Matrix (map normalize_row m)).
Proof.
  intros Hx. unfold row_normalize. ev. rewrite Hx. ev.
  unfold rsqr. rewrite unop_Matrix_total. ev.
  cbn [sum_axis1_keep]. ev.
  unfold radd. rewrite binop_Column_Scalar_total. ev.
  rewrite (unop_Column_Forall _ sqrt).
  2:{ rewrite !Forall_map. apply Forall_forall. intros row _. cbv beta.
      unfold rsqrt. destruct (Rlt_dec _ 0) as [Hneg|]; [|reflexivity].
      pose proof (rsum_squares_nonneg row) as Hp. unfold sumsq in Hp.
      rewrite Q2R_eps in Hneg. lra. }
  ev. rewrite (binop_Matrix_Column_Forall2 _ Rdiv).
  2:{ rewrite !Forall2_fmap_r. apply Forall_Forall2_diag, Forall_forall.
      intros row _. apply Forall_forall. intros v _. unfold rdiv.
      destruct (Req_dec_T _ 0) as [Hz|]; [|reflexivity].
      pose proof (row_divisor_pos row) as Hp. unfold sumsq in Hp.
      rewrite Q2R_eps in Hz. lra. }
  do 2 f_equal. rewrite !zip_with_fmap_r, zip_with_diag.
  apply map_ext. intros row. unfold normalize_row, sumsq.
  rewrite Q2R_eps. reflexivity.
Qed.

Lemma sumsq_scaled (row : list R) (d : R) :
  d <> 0 -> sumsq (map (fun v => v / d) row) = sumsq row / (d * d).
Proof.
  intros Hd. unfold sumsq, rsum.
  induction row as [|a row IH]; cbn; [field; exact Hd|].
  rewrite IH. field. exact Hd.
Qed.

Lemma sumsq_normalize_row (row : list R) :
  sumsq (normalize_row row) = sumsq row / (sumsq row + 1 / 1000000).
Proof.
  pose proof (row_divisor_pos row) as Hd.
  pose proof (rsum_squares_nonneg row) as Hs.
  unfold normalize_row. rewrite sumsq_scaled by lra.
  rewrite sqrt_sqrt by lra. reflexivity.
Qed.

Lemma normalize_row_ratio (row : list R) :
  0 <= sumsq row / (sumsq row + 1 / 1000000) <= 1 /\
  (1 <= sumsq row -> 1 - 1 / 1000000 <= sumsq row / (sumsq row + 1 / 1000000)).
Proof.
  pose proof (rsum_squares_nonneg row) as Hs.
  assert (Hd : 0 < sumsq row + 1 / 1000000) by lra.
  split; [split|].
  - apply Rmult_le_pos; [exact Hs|]. apply Rlt_le, Rinv_0_lt_compat, Hd.
  - apply (Rmult_le_reg_r (sumsq row + 1 / 1000000)); [exact Hd|].
    unfold Rdiv at 1. rewrite Rmult_assoc, Rinv_l by lra. lra.
  - intros Hbig. apply (Rmult_le_reg_r (sumsq row + 1 / 1000000)); [exact Hd|].
    unfold Rdiv at 3. rewrite Rmult_assoc, Rinv_l by lra. nra.
Qed.

Lemma l2norm_normalize_row_bounds (row : list R) :
  0 <= l2norm (normalize_row row) <= 1 /\
  (1 <= sumsq row -> 1 - 1 / 1000000 <= l2norm (normalize_row row)).
Proof.
  destruct (normalize_row_ratio row) as [Hq Hbig].
  unfold l2norm. rewrite sumsq_normalize_row.
  set (q := sumsq row / (sumsq row + 1 / 1000000)) in *.
  assert (Hle : sqrt q <= 1).
  { rewrite <- sqrt_1. apply sqrt_le_1_alt. lra. }
  assert (Hpos : 0 <= sqrt q) by apply sqrt_pos.
  split; [lra|]. intros Hs. specialize (Hbig Hs).
  assert (Hsq : sqrt q * sqrt q = q) by (apply sqrt_sqrt; lra).
  nra.
Qed.

(** C8, as the code has it.  For a matrix [m], [row_normalize] is defined and
    returns a matrix of the same shape whose rows are those of [m], each
    divided by the square root of (the sum of its squares plus 1e-6): the
    epsilon is added under the root.  The L2 norm of an output row is at most
    1; it is within 1e-6 of 1 for a row whose sum of squares is at least 1,
    and it is 0 for an all-zero row. *)
Theorem row_normalize_rows ρ x m :
  eval ρ x = Ok (Matrix m) ->
  exists out,
    eval ρ (row_normalize x) = Ok (Matrix out) /\
    length out = length m /\
    Forall2 (fun row o =>
      length o = length row /\
      o = map (fun v => v / sqrt (sumsq row + 1 / 1000000)) row /\
      0 <= l2norm o <= 1 /\
      (1 <= sumsq row -> 1 - 1 / 1000000 <= l2norm o) /\
      (sumsq row = 0 -> l2norm o = 0)) m out.
Proof.
  intros Hx. exists (map normalize_row m). split.
  - apply eval_row_normalize, Hx.
  - split; [apply length_map|].
    apply Forall2_fmap_r, Forall_Forall2_diag, Forall_forall. intros row _.
    split; [apply length_map|]. split; [reflexivity|].
    destruct (l2norm_normalize_row_bounds row) as [Hb Hbig].
    split; [exact Hb|]. split; [exact Hbig|].
    intros Hz. unfold l2norm. rewrite sumsq_normalize_row, Hz.
    unfold Rdiv. rewrite Rmult_0_l. apply sqrt_0.
Qed.

Lemma row_normalize_rows_witness :
  exists out,
    eval (env_of [("x"%string, Matrix [[3; 4]; [0; 0]])] [] true)
      (row_normalize (Var "x")) = Ok (Matrix out) /\
    length out = length [[3; 4]; [0; 0]] /\
    Forall2 (fun row o =>
      length o = length row /\
      o = map (fun v => v / sqrt (sumsq row + 1 / 1000000)) row /\
      0 <= l2norm o <= 1 /\
      (1 <= sumsq row -> 1 - 1 / 1000000 <= l2norm o) /\
      (sumsq row = 0 -> l2norm o = 0)) [[3; 4]; [0; 0]] out.
Proof.
  apply (row_normalize_rows
           (env_of [("x"%string, Matrix [[3; 4]; [0; 0]])] [] true) (Var "x")).
  reflexivity.
Defined.

(** C8, as the claim words it, fails.  On the row [1] the code divides by
    sqrt (1 + 1e-6), not by the norm plus 1e-6; and the all-zero row is
    mapped to itself, a row of norm 0, which is not near 1. *)
Lemma row_normalize_not_norm_plus_eps :
  eval rows_env (row_normalize (Var "x")) <>
    Ok (Matrix (map (fun row => map (fun v => v / (l2norm row + 1 / 1000000)) row)
                  [[1]; [0]])) /\
  exists o1 o2,
    eval rows_env (row_normalize (Var "x")) = Ok (Matrix [o1; o2]) /\
    l2norm o2 = 0 /\ Rabs (l2norm o2 - 1) = 1.
Proof.
  assert (Hev : eval rows_env (row_normalize (Var "x")) =
                Ok (Matrix (map normalize_row [[1]; [0]])))
    by (apply eval_row_normalize; reflexivity).
  assert (Hs1 : sumsq [1] = 1) by (unfold sumsq, rsum; cbn; lra).
  assert (Hs0 : sumsq [0] = 0) by (unfold sumsq, rsum; cbn; lra).
  split.
  - rewrite Hev. cbn [map normalize_row]. unfold l2norm. rewrite Hs1, Hs0.
    intros Heq. injection Heq as Heq _. rewrite sqrt_1 in Heq.
    assert (Hpos : 0 < sqrt (1 + 1 / 1000000)) by (apply sqrt_lt_R0; lra).
    assert (Hsq : sqrt (1 + 1 / 1000000) * sqrt (1 + 1 / 1000000) = 1 + 1 / 1000000)
      by (apply sqrt_sqrt; lra).
    assert (Hd : sqrt (1 + 1 / 1000000) = 1 + 1 / 1000000).
    { apply (f_equal (fun v => / v)) in Heq.
      unfold Rdiv in Heq. rewrite !Rmult_1_l, !Rinv_inv in Heq.
      unfold Rdiv. rewrite !Rmult_1_l. exact Heq. }
    rewrite Hd in Hsq. lra.
  - exists (normalize_row [1]), (normalize_row [0]). split; [exact Hev|].
    assert (Hn : l2norm (normalize_row [0]) = 0).
    { unfold l2norm. rewrite sumsq_normalize_row, Hs0.
      unfold Rdiv. rewrite Rmult_0_l. apply sqrt_0. }
    split; [exact Hn|]. rewrite Hn.
    replace (0 - 1) with (- (1)) by lra. rewrite Rabs_Ropp. apply Rabs_R1.
Qed.

(** ** The masked variance of [_dev_loss] *)

Lemma rsum_app (u v : list R) : rsum (u ++ v) = rsum u + rsum v.
Proof.
  unfold rsum. induction u as [|a u IH]; cbn; [lra|]. rewrite IH. lra.
Qed.

Lemma rsum_cons (a : R) (u : list R) : rsum (a :: u) = a + rsum u.
Proof. reflexivity. Qed.

Lemma eval_ss_mask ρ Y y :
  eval ρ Y = Ok (Vector y) ->
  eval ρ (ss_mask Y) = Ok (Column (mask_of y)).
Proof.
  intros HY. unfold ss_mask. ev. rewrite HY. ev.
  unfold req. rewrite binop_Vector_Scalar_total. ev.
  cbn [shape0]. ev. unfold reshape_col. cbn [elements].
  rewrite length_map, Nat.eqb_refl, RMicromega.Q2R_0. reflexivity.
Qed.

Lemma rsum_mask_of (y : list R) :
  rsum (mask_of y) = INR (length (select_unlabeled y y)).
Proof.
  induction y as [|yi y IH]; [reflexivity|].
  cbn [mask_of map select_unlabeled]. rewrite rsum_cons. fold (mask_of y).
  destruct (Req_dec_T yi 0).
  - cbn [length]. rewrite S_INR, IH. lra.
  - rewrite IH. lra.
Qed.

Lemma rsum_masked_row (r s : list R) (c : R) :
  rsum (map (fun v => v * v) (map (fun x => x * c) (zip_with Rminus r s))) =
  c * c * sq_dist r s.
Proof.
  unfold sq_dist, rsum. revert s.
  induction r as [|p r IH]; intros [|q s]; cbn; try lra.
  rewrite IH. lra.
Qed.

Lemma rsum_masked_squares (y : list R) (a b : list (list R)) :
  length a = length y ->
  length b = length y ->
  rsum (concat (map (map (fun v => v * v))
          (zip_with (fun row c => map (fun x => x * c) row)
             (zip_with (zip_with Rminus) a b) (mask_of y)))) =
  rsum (zip_with sq_dist (select_unlabeled y a) (select_unlabeled y b)).
Proof.
  revert a b. induction y as [|yi y IH]; intros [|r a] [|s b] Ha Hb;
    simplify_eq/=; [reflexivity|].
  rewrite rsum_app, rsum_masked_row. fold (mask_of y). rewrite IH by assumption.
  destruct (Req_dec_T yi 0); cbn [zip_with]; rewrite ?rsum_cons; lra.
Qed.

Lemma Forall2_same_length_zip (a b : list (list R)) :
  Forall2 (fun r s => length r = length s) a b ->
  length (zip_with (zip_with Rminus) a b) = length a.
Proof. intros Hab. rewrite length_zip_with_l_eq; [reflexivity|]. eapply Forall2_length, Hab. Qed.

(** The value of the masked variance: undefined when no label is 0. *)
Lemma eval_var_fun ρ Y A B y a b :
  eval ρ Y = Ok (Vector y) ->
  eval ρ A = Ok (Matrix a) ->
  eval ρ B = Ok (Matrix b) ->
  length a = length y ->
  Forall2 (fun r s => length r = length s) a b ->
  eval ρ (var_fun Y A B) =
    if Req_dec_T (INR (length (select_unlabeled y y))) 0 then Err Undefined
    else Ok (Scalar (masked_variance y a b)).
Proof.
  intros HY HA HB Hlen Hab.
  pose proof (Forall2_length _ _ _ Hab) as Hlen'.
  unfold var_fun. cbn [eval]. rewrite (eval_ss_mask _ _ _ HY), HA, HB. ev.
  unfold rsub. rewrite binop_Matrix_Matrix_total by exact Hab. ev.
  unfold rmul. rewrite (binop_Matrix_Column_Forall2 _ Rmult).
  2:{ apply Forall2_true.
      - intros row c. apply Forall_forall. reflexivity.
      - rewrite Forall2_same_length_zip by exact Hab.
        unfold mask_of. rewrite length_map. exact Hlen. }
  ev. unfold rsqr. rewrite unop_Matrix_total. ev.
  unfold sum_all. cbn [elements binop fmap res_fmap rdiv].
  rewrite rsum_mask_of, rsum_masked_squares by congruence.
  unfold rdiv. destruct (Req_dec_T _ 0); reflexivity.
Qed.

Lemma select_unlabeled_nonempty (y : list R) :
  Exists (fun yi => yi = 0) y -> INR (length (select_unlabeled y y)) <> 0.
Proof.
  intros Hy. apply not_0_INR.
  induction Hy as [yi y Hyi|yi y _ IH]; cbn [select_unlabeled].
  - destruct (Req_dec_T yi 0); [discriminate|contradiction].
  - destruct (Req_dec_T yi 0); [discriminate|exact IH].
Qed.

Lemma select_unlabeled_empty (y : list R) :
  Forall (fun yi => yi <> 0) y -> select_unlabeled y y = [].
Proof.
  induction 1 as [|yi y Hyi _ IH]; [reflexivity|]. cbn [select_unlabeled].
  destruct (Req_dec_T yi 0); [contradiction|exact IH].
Qed.

Lemma dev_transform_same_shape dev_type (a b : list (list R)) :
  Forall2 (fun r s => length r = length s) a b ->
  Forall2 (fun r s => length r = length s)
    (dev_transform dev_type a) (dev_transform dev_type b).
Proof.
  intros Hab. unfold dev_transform.
  repeat case_match; try exact Hab;
    apply Forall2_fmap; (eapply Forall2_impl; [exact Hab|]);
    intros r s Hrs; cbv beta; unfold normalize_row; rewrite !length_map; exact Hrs.
Qed.

Lemma dev_transform_length dev_type (a : list (list R)) :
  length (dev_transform dev_type a) = length a.
Proof. unfold dev_transform. repeat case_match; rewrite ?length_map; reflexivity. Qed.

(** For a selector other than 4, [_dev_loss] is the masked variance of the
    transformed representations. *)
Lemma dev_loss_var_fun ρ X1 X2 Y dev_type a b :
  dev_type <> 4%Z ->
  eval ρ X1 = Ok (Matrix a) ->
  eval ρ X2 = Ok (Matrix b) ->
  exists A B,
    SS_DEV_NET._dev_loss X1 X2 Y dev_type = var_fun Y A B /\
    eval ρ A = Ok (Matrix (dev_transform dev_type a)) /\
    eval ρ B = Ok (Matrix (dev_transform dev_type b)).
Proof.
  intros H4 H1 H2. unfold SS_DEV_NET._dev_loss, dev_transform.
  destruct (Z.eqb dev_type 1); [|destruct (Z.eqb dev_type 2);
    [|destruct (Z.eqb dev_type 3); [|destruct (Z.eqb_spec dev_type 4)]]].
  - exists (row_normalize X1), (row_normalize X2).
    split; [reflexivity|]. split; apply eval_row_normalize; assumption.
  - exists (Tanh X1), (Tanh X2). split; [reflexivity|].
    split; ev; rewrite ?H1, ?H2; ev; unfold rtanh; apply unop_Matrix_total.
  - exists (Sigmoid X1), (Sigmoid X2). split; [reflexivity|].
    split; ev; rewrite ?H1, ?H2; ev; unfold rsigmoid; apply unop_Matrix_total.
  - contradiction.
  - exists X1, X2. split; [reflexivity|]. split; assumption.
Qed.

(** C3, with the divisor the code computes.  For a DEV selector other than 4
    (so for 0 to 3, and for any selector outside 1 to 4, which is treated as
    0), and a batch with at least one label 0, the DEV term between the
    representations [a] (raw) and [b] (clone 0) is the sum, over all features
    of the examples whose label is 0, of the squared differences of the
    transformed representations (the per-example mask being broadcast across
    the feature dimension in the numerator), divided by the number of
    examples whose label is 0: the divisor [T.sum(ss_mask)] sums the mask
    column before any broadcast, so it counts examples, not masked entries.
    The transform is row normalisation for 1, tanh for 2, the sigmoid for 3
    and the identity otherwise. *)
Theorem dev_loss_masked_variance ρ X1 X2 Y dev_type y a b :
  dev_type <> 4%Z ->
  eval ρ Y = Ok (Vector y) ->
  eval ρ X1 = Ok (Matrix a) ->
  eval ρ X2 = Ok (Matrix b) ->
  length a = length y ->
  Forall2 (fun r s => length r = length s) a b ->
  Exists (fun yi => yi = 0) y ->
  eval ρ (SS_DEV_NET._dev_loss X1 X2 Y dev_type) =
    Ok (Scalar
          (rsum (zip_with sq_dist
                   (select_unlabeled y (dev_transform dev_type a))
                   (select_unlabeled y (dev_transform dev_type b)))
           / INR (length (select_unlabeled y y)))) /\
  dev_transform 0 a = a /\
  dev_transform 1 a = map normalize_row a /\
  dev_transform 2 a = map (map tanh) a /\
  dev_transform 3 a = map (map sigmoid) a /\
  (~ (1 <= dev_type <= 4)%Z -> dev_transform dev_type a = a).
Proof.
  intros H4 HY H1 H2 Hlen Hab Hy.
  split; [|repeat split].
  - destruct (dev_loss_var_fun ρ X1 X2 Y dev_type a b H4 H1 H2)
      as (A & B & -> & HA & HB).
    rewrite (eval_var_fun ρ Y A B y _ _ HY HA HB).
    + destruct (Req_dec_T _ 0) as [Hz|]; [|reflexivity].
      exfalso. exact (select_unlabeled_nonempty y Hy Hz).
    + rewrite dev_transform_length. exact Hlen.
    + apply dev_transform_same_shape, Hab.
  - intros Hout. unfold dev_transform.
    repeat (case_match; [lia|]). reflexivity.
Qed.

Lemma dev_loss_masked_variance_witness :
  eval batch_env (SS_DEV_NET._dev_loss (Var "x1") (Var "x2") (Var "y") 2) =
    Ok (Scalar
          (rsum (zip_with sq_dist
                   (select_unlabeled [0; 1] (dev_transform 2 [[1; 2]; [3; 4]]))
                   (select_unlabeled [0; 1] (dev_transform 2 [[0; 0]; [0; 0]])))
           / INR (length (select_unlabeled [0; 1] [0; 1])))) /\
  dev_transform 0 [[1; 2]; [3; 4]] = [[1; 2]; [3; 4]] /\
  dev_transform 1 [[1; 2]; [3; 4]] = map normalize_row [[1; 2]; [3; 4]] /\
  dev_transform 2 [[1; 2]; [3; 4]] = map (map tanh) [[1; 2]; [3; 4]] /\
  dev_transform 3 [[1; 2]; [3; 4]] = map (map sigmoid) [[1; 2]; [3; 4]] /\
  (~ (1 <= 2 <= 4)%Z -> dev_transform 2 [[1; 2]; [3; 4]] = [[1; 2]; [3; 4]]).
Proof.
  apply (dev_loss_masked_variance batch_env (Var "x1") (Var "x2") (Var "y") 2
           [0; 1] [[1; 2]; [3; 4]] [[0; 0]; [0; 0]]).
  - discriminate.
  - reflexivity.
  - reflexivity.
  - reflexivity.
  - reflexivity.
  - repeat constructor.
  - constructor. reflexivity.
Defined.

(** On [batch_env] the identity variant is ((1-0)² + (2-0)²) / 1 = 5: the
    one unlabeled example contributes its two features, the labeled one
    nothing, and the divisor is the number of unlabeled examples. *)
Example dev_loss_on_batch :
  eval batch_env (SS_DEV_NET._dev_loss (Var "x1") (Var "x2") (Var "y") 0) =
    Ok (Scalar 5).
Proof.
  change (SS_DEV_NET._dev_loss (Var "x1") (Var "x2") (Var "y") 0)
    with (var_fun (Var "y") (Var "x1") (Var "x2")).
  rewrite (eval_var_fun batch_env _ _ _ [0; 1] [[1; 2]; [3; 4]] [[0; 0]; [0; 0]]);
    try reflexivity; [|repeat constructor].
  unfold masked_variance. cbn [select_unlabeled].
  destruct (Req_dec_T 0 0) as [_|]; [|contradiction].
  destruct (Req_dec_T 1 0) as [H10|_]; [lra|].
  cbn [length INR zip_with]. unfold sq_dist, rsum. cbn [zip_with foldr].
  destruct (Req_dec_T 1 0) as [H10|_]; [lra|].
  do 2 f_equal. lra.
Qed.

(** C3, as the claim words it, fails.  On [batch_env] one example of two
    features is unlabeled: the masked entries are two, and the sum of the
    squared differences divided by their count is 5/2, while the code
    divides by the one unlabeled example and gives 5. *)
Lemma dev_loss_not_per_masked_entry :
  eval batch_env (SS_DEV_NET._dev_loss (Var "x1") (Var "x2") (Var "y") 0) =
    Ok (Scalar 5) /\
  masked_variance_per_entry [0; 1]
    (dev_transform 0 [[1; 2]; [3; 4]]) (dev_transform 0 [[0; 0]; [0; 0]]) =
    5 / 2 /\
  eval batch_env (SS_DEV_NET._dev_loss (Var "x1") (Var "x2") (Var "y") 0) <>
    Ok (Scalar
          (masked_variance_per_entry [0; 1]
             (dev_transform 0 [[1; 2]; [3; 4]])
             (dev_transform 0 [[0; 0]; [0; 0]]))).
Proof.
  assert (Hclaim : masked_variance_per_entry [0; 1]
            (dev_transform 0 [[1; 2]; [3; 4]])
            (dev_transform 0 [[0; 0]; [0; 0]]) = 5 / 2).
  { unfold masked_variance_per_entry, dev_transform.
    cbn [Z.eqb select_unlabeled].
    destruct (Req_dec_T 0 0) as [_|]; [|contradiction].
    destruct (Req_dec_T 1 0) as [H10|_]; [lra|].
    cbn [concat app length INR zip_with]. unfold sq_dist, rsum.
    cbn [zip_with foldr].
    destruct (Req_dec_T 1 0) as [H10|_]; [lra|]. lra. }
  split; [exact dev_loss_on_batch|]. split; [exact Hclaim|].
  rewrite Hclaim, dev_loss_on_batch. intros Heq. injection Heq as Heq. lra.
Qed.

(** ** The loop of [dev_cost] *)

Lemma py_index_Some {A} (l : list A) i x : l !! i = Some x -> py_index l i = Ok x.
Proof. unfold py_index. intros ->. reflexivity. Qed.

Lemma py_index_Ok {A} (l : list A) i x : py_index l i = Ok x -> l !! i = Some x.
Proof. unfold py_index. destruct (l !! i); cbn; congruence. Qed.

Lemma dev_cost_step_Ok self y c0 acc i raw clone dev_type :
  SS_DEV_NET.dev_clones self !! 0%nat = Some c0 ->
  SS_DEV_NET.mlp_layers self !! i = Some raw ->
  c0 !! i = Some clone ->
  SS_DEV_NET.dev_types self !! i = Some dev_type ->
  SS_DEV_NET.dev_cost_step self y acc i =
    Ok (acc ++ [Mul (Subtensor (SS_DEV_NET.dev_lams self) i)
                  (SS_DEV_NET._dev_loss (dev_rep self i raw) (dev_rep self i clone)
                     y dev_type)]).
Proof.
  intros Hc0 Hraw Hclone Hty. unfold SS_DEV_NET.dev_cost_step, dev_rep.
  rewrite (py_index_Some _ _ _ Hc0), (py_index_Some _ _ _ Hraw),
    (py_index_Some _ _ _ Hty).
  cbn [mbind res_bind]. rewrite (py_index_Some _ _ _ Hclone).
  destruct (Nat.ltb i _); reflexivity.
Qed.

Lemma dev_cost_loop_Ok self y c0 range :
  SS_DEV_NET.dev_clones self !! 0%nat = Some c0 ->
  Forall (fun i => (i < length (SS_DEV_NET.mlp_layers self))%nat /\
                   (i < length c0)%nat /\
                   (i < length (SS_DEV_NET.dev_types self))%nat) range ->
  forall acc, exists terms,
    SS_DEV_NET.dev_cost_loop self y acc range = Ok (acc ++ terms) /\
    Forall2 (dev_term_at self y c0) range terms.
Proof.
  intros Hc0. induction 1 as [|i range (Hi1 & Hi2 & Hi3) _ IH]; intros acc.
  - exists []. rewrite app_nil_r. split; [reflexivity|constructor].
  - apply lookup_lt_is_Some_2 in Hi1 as [raw Hraw].
    apply lookup_lt_is_Some_2 in Hi2 as [clone Hclone].
    apply lookup_lt_is_Some_2 in Hi3 as [dev_type Hty].
    cbn [SS_DEV_NET.dev_cost_loop].
    rewrite (dev_cost_step_Ok self y c0 acc i raw clone dev_type) by assumption.
    cbn [mbind res_bind].
    destruct (IH (acc ++ [Mul (Subtensor (SS_DEV_NET.dev_lams self) i)
                  (SS_DEV_NET._dev_loss (dev_rep self i raw) (dev_rep self i clone)
                     y dev_type)])) as (terms & -> & Hterms).
    eexists (_ :: terms). rewrite <- app_assoc. split; [reflexivity|].
    constructor; [|exact Hterms]. exists raw, clone, dev_type. auto.
Qed.

Lemma dev_cost_step_inv self y acc i out :
  SS_DEV_NET.dev_cost_step self y acc i = Ok out ->
  exists c0 term,
    SS_DEV_NET.dev_clones self !! 0%nat = Some c0 /\
    dev_term_at self y c0 i term /\
    out = acc ++ [term].
Proof.
  unfold SS_DEV_NET.dev_cost_step, dev_term_at, dev_rep, py_index. intros Hout.
  destruct (SS_DEV_NET.mlp_layers self !! i) as [raw|] eqn:Hraw;
    [|destruct (Nat.ltb i _); discriminate Hout].
  destruct (SS_DEV_NET.dev_clones self !! 0%nat) as [c0|] eqn:Hc0;
    [|destruct (Nat.ltb i _); discriminate Hout].
  cbn [mbind res_bind from_option] in Hout.
  destruct (c0 !! i) as [clone|] eqn:Hclone;
    [|destruct (Nat.ltb i _); discriminate Hout].
  destruct (SS_DEV_NET.dev_types self !! i) as [dev_type|] eqn:Hty;
    [|destruct (Nat.ltb i _); discriminate Hout].
  exists c0. eexists. split; [reflexivity|]. split.
  - exists raw, clone, dev_type. split; [reflexivity|]. split; [exact Hclone|].
    split; reflexivity.
  - destruct (Nat.ltb i _); cbn in Hout; injection Hout as <-; reflexivity.
Qed.

Lemma dev_cost_loop_inv self y range :
  forall acc out,
    SS_DEV_NET.dev_cost_loop self y acc range = Ok out ->
    exists terms,
      out = acc ++ terms /\
      Forall2 (fun i term =>
                 exists c0, SS_DEV_NET.dev_clones self !! 0%nat = Some c0 /\
                            dev_term_at self y c0 i term) range terms.
Proof.
  induction range as [|i range IH]; intros acc out; cbn [SS_DEV_NET.dev_cost_loop].
  - intros [= <-]. exists []. rewrite app_nil_r. split; [reflexivity|constructor].
  - destruct (SS_DEV_NET.dev_cost_step self y acc i) as [acc'|e] eqn:Hstep;
      cbn [mbind res_bind]; [|discriminate].
    apply dev_cost_step_inv in Hstep as (c0 & term & Hc0 & Hterm & ->).
    intros Hrest. apply IH in Hrest as (terms & -> & Hterms).
    exists (term :: terms). rewrite <- app_assoc. split; [reflexivity|].
    constructor; [|exact Hterms]. exists c0. split; assumption.
Qed.

(** The expression [dev_cost] builds on its DEV branch. *)
Lemma dev_cost_dev_branch self y joint_loss c0 :
  Qltb 1e-5 (SS_DEV_NET.dev_lams_sum self) = true ->
  well_formed self c0 ->
  (SS_DEV_NET.layer_count self <= length (SS_DEV_NET.dev_types self))%nat ->
  exists terms,
    Forall2 (dev_term_at self y c0) (seq 0 (SS_DEV_NET.layer_count self)) terms /\
    SS_DEV_NET.dev_cost self y joint_loss =
      let class_loss :=
        Add (Mul (Const (SS_DEV_NET.dev_mix_rate self))
               (SS_DEV_NET.raw_class_loss self y))
            (Mul (Const (1 - SS_DEV_NET.dev_mix_rate self))
               (SS_DEV_NET.sde_class_loss self y)) in
      let reg_loss :=
        Add (Sum (Stack terms))
            (Mul (Const 0.5)
               (Add (SS_DEV_NET.raw_reg_loss self) (SS_DEV_NET.sde_reg_loss self))) in
      Ok (if py_eq_int joint_loss 1 then Add class_loss reg_loss else reg_loss).
Proof.
  intros Hsum (Hcount & Hc0 & Hlen) Hty.
  destruct (dev_cost_loop_Ok self y c0 (seq 0 (SS_DEV_NET.layer_count self)) Hc0)
    with (acc := @nil texpr) as (terms & Hloop & Hterms).
  { apply Forall_forall. intros i Hi%list_elem_of_In%in_seq. lia. }
  exists terms. split; [exact Hterms|].
  unfold SS_DEV_NET.dev_cost. rewrite Hsum, Hloop. reflexivity.
Qed.

(** ** The value of the loss *)

Lemma eval_scalars_Forall2 ρ terms vals :
  Forall2 (fun t v => eval ρ t = Ok (Scalar v)) terms vals ->
  eval_scalars ρ terms = Ok vals.
Proof.
  unfold eval_scalars.
  induction 1 as [|t v terms vals Ht _ IH]; [reflexivity|].
  cbn [traverse]. rewrite Ht. cbn. rewrite IH. reflexivity.
Qed.

Lemma eval_Sum ρ a : eval ρ (Sum a) = x ← eval ρ a; Ok (sum_all x).
Proof. reflexivity. Qed.

Lemma eval_Sum_Stack ρ terms vals :
  Forall2 (fun t v => eval ρ t = Ok (Scalar v)) terms vals ->
  eval ρ (Sum (Stack terms)) = Ok (Scalar (rsum vals)).
Proof.
  intros H. rewrite eval_Sum, eval_Stack, (eval_scalars_Forall2 _ _ _ H).
  reflexivity.
Qed.

Lemma eval_Add_scalars ρ a b x y :
  eval ρ a = Ok (Scalar x) -> eval ρ b = Ok (Scalar y) ->
  eval ρ (Add a b) = Ok (Scalar (x + y)).
Proof. intros Ha Hb. cbn [eval]. rewrite Ha, Hb. reflexivity. Qed.

Lemma eval_Mul_scalars ρ a b x y :
  eval ρ a = Ok (Scalar x) -> eval ρ b = Ok (Scalar y) ->
  eval ρ (Mul a b) = Ok (Scalar (x * y)).
Proof. intros Ha Hb. cbn [eval]. rewrite Ha, Hb. reflexivity. Qed.

Lemma eval_Const ρ c : eval ρ (Const c) = Ok (Scalar (Q2R c)).
Proof. reflexivity. Qed.

Lemma Q2R_half : Q2R 0.5 = 1 / 2.
Proof.
  rewrite (Qeq_eqR 0.5 (1 # 2)) by reflexivity.
  unfold Q2R. cbn [Qnum Qden]. lra.
Qed.

Lemma Qltb_lt (x y : Q) : Qltb x y = true <-> (x < y)%Q.
Proof.
  unfold Qltb. rewrite negb_true_iff, <- not_true_iff_false, Qle_bool_iff.
  split; [apply Qnot_le_lt|apply Qlt_not_le].
Qed.

(** The values of the weighted DEV terms, layer by layer. *)
Lemma dev_terms_values self y c0 ρ range terms lams devs :
  Forall2 (dev_term_at self y c0) range terms ->
  Forall2 (fun i lam =>
    eval ρ (Subtensor (SS_DEV_NET.dev_lams self) i) = Ok (Scalar lam)) range lams ->
  Forall2 (fun i d => forall raw clone dev_type,
    SS_DEV_NET.mlp_layers self !! i = Some raw ->
    c0 !! i = Some clone ->
    SS_DEV_NET.dev_types self !! i = Some dev_type ->
    eval ρ (SS_DEV_NET._dev_loss (dev_rep self i raw) (dev_rep self i clone)
              y dev_type) = Ok (Scalar d)) range devs ->
  Forall2 (fun t v => eval ρ t = Ok (Scalar v)) terms (zip_with Rmult lams devs).
Proof.
  intros Hterms. revert lams devs.
  induction Hterms as [|i t range terms (raw & clone & dt & Hr & Hc & Ht & ->) _ IH];
    intros lams devs Hlams Hdevs.
  - inversion Hlams; subst. constructor.
  - inversion Hlams as [|? lam ? lams' Hlam Hlams']; subst.
    inversion Hdevs as [|? d ? devs' Hd Hdevs']; subst.
    cbn [zip_with]. constructor; [|apply IH; assumption].
    apply eval_Mul_scalars; [exact Hlam|]. apply Hd; assumption.
Qed.

(** C1.  When the sum of the DEV weights exceeds 1e-5, [dev_cost] returns an
    expression whose value is, for every evaluation in which the parts are
    scalars: the classification loss dev_mix_rate * raw + (1 - dev_mix_rate)
    * clone 0, plus the regularisation loss; or the regularisation loss alone
    when [joint_loss] is not 1.  The regularisation loss is the sum over the
    layers of the layer's DEV weight times its DEV term, plus 0.5 times the
    raw and 0.5 times the clone-0 activation regularisation.  The DEV term of
    layer [i] compares the outputs of raw layer [i] and of layer [i] of clone
    0, and the linear outputs for the last layer ([dev_rep]). *)
Theorem dev_cost_regularized self y joint_loss c0 ρ craw csde graw gsde lams devs :
  (1e-5 < SS_DEV_NET.dev_lams_sum self)%Q ->
  well_formed self c0 ->
  (SS_DEV_NET.layer_count self <= length (SS_DEV_NET.dev_types self))%nat ->
  eval ρ (SS_DEV_NET.raw_class_loss self y) = Ok (Scalar craw) ->
  eval ρ (SS_DEV_NET.sde_class_loss self y) = Ok (Scalar csde) ->
  eval ρ (SS_DEV_NET.raw_reg_loss self) = Ok (Scalar graw) ->
  eval ρ (SS_DEV_NET.sde_reg_loss self) = Ok (Scalar gsde) ->
  Forall2 (fun i lam =>
    eval ρ (Subtensor (SS_DEV_NET.dev_lams self) i) = Ok (Scalar lam))
    (seq 0 (SS_DEV_NET.layer_count self)) lams ->
  Forall2 (fun i d => forall raw clone dev_type,
    SS_DEV_NET.mlp_layers self !! i = Some raw ->
    c0 !! i = Some clone ->
    SS_DEV_NET.dev_types self !! i = Some dev_type ->
    eval ρ (SS_DEV_NET._dev_loss
              (if Nat.ltb i (SS_DEV_NET.layer_count self - 1)
               then HiddenLayer.output raw else HiddenLayer.linear_output raw)
              (if Nat.ltb i (SS_DEV_NET.layer_count self - 1)
               then HiddenLayer.output clone else HiddenLayer.linear_output clone)
              y dev_type) = Ok (Scalar d))
    (seq 0 (SS_DEV_NET.layer_count self)) devs ->
  exists L,
    SS_DEV_NET.dev_cost self y joint_loss = Ok L /\
    let dmr := Q2R (SS_DEV_NET.dev_mix_rate self) in
    let class_loss := dmr * craw + (1 - dmr) * csde in
    let reg_loss := rsum (zip_with Rmult lams devs) + 0.5 * graw + 0.5 * gsde in
    eval ρ L =
      Ok (Scalar (if py_eq_int joint_loss 1 then class_loss + reg_loss
                  else reg_loss)).
Proof.
  intros Hsum Hwf Hty Hcraw Hcsde Hgraw Hgsde Hlams Hdevs.
  apply Qltb_lt in Hsum.
  destruct (dev_cost_dev_branch self y joint_loss c0 Hsum Hwf Hty)
    as (terms & Hterms & ->).
  eexists. split; [reflexivity|]. cbv zeta.
  pose proof (dev_terms_values self y c0 ρ _ terms lams devs Hterms Hlams Hdevs)
    as Hvals.
  assert (Hreg : eval ρ
      (Add (Sum (Stack terms))
         (Mul (Const 0.5)
            (Add (SS_DEV_NET.raw_reg_loss self) (SS_DEV_NET.sde_reg_loss self)))) =
      Ok (Scalar (rsum (zip_with Rmult lams devs) + 0.5 * graw + 0.5 * gsde))).
  { erewrite eval_Add_scalars;
      [|apply eval_Sum_Stack, Hvals
       |apply eval_Mul_scalars;
          [apply eval_Const|apply eval_Add_scalars; eassumption]].
    rewrite Q2R_half. do 2 f_equal. lra. }
  destruct (py_eq_int joint_loss 1); [|exact Hreg].
  erewrite eval_Add_scalars; [reflexivity| |exact Hreg].
  erewrite eval_Add_scalars;
    [|apply eval_Mul_scalars; [apply eval_Const|eassumption]..].
  rewrite Q2R_minus, RMicromega.Q2R_1. reflexivity.
Qed.

(** C10.  Whenever the default call [dev_cost(y)] succeeds, the result is
    the sum [class_loss + reg_loss] of the two expressions of lines 189 to
    204.  With DEV weights of sum above 1e-5, [class_loss] is
    [dmr * raw_class_loss(y) + (1 - dmr) * sde_class_loss(y)] and [reg_loss]
    is the sum of the weighted DEV terms, one for each position below
    [layer_count] and each between raw layer [i] and layer [i] of clone 0,
    plus half of [raw_reg_loss + sde_reg_loss]; otherwise [class_loss] is the
    loss of the raw output function and [reg_loss] is [raw_reg_loss].  For
    every value of [joint_loss] the call returns the sum if
    [joint_loss == 1] and [reg_loss] alone otherwise: so for 0, for 2 and for
    [None], while [1], [1.0] and [True] compare equal to 1. *)
Theorem dev_cost_joint_flag self y L :
  SS_DEV_NET.dev_cost self y (PyInt 1) = Ok L ->
  exists class_loss reg_loss,
    L = Add class_loss reg_loss /\
    (if Qltb 1e-5 (SS_DEV_NET.dev_lams_sum self) then
       class_loss =
         Add (Mul (Const (SS_DEV_NET.dev_mix_rate self))
                (SS_DEV_NET.raw_class_loss self y))
             (Mul (Const (1 - SS_DEV_NET.dev_mix_rate self))
                (SS_DEV_NET.sde_class_loss self y)) /\
       exists dev_losses,
         Forall2 (fun i term =>
                    exists c0,
                      SS_DEV_NET.dev_clones self !! 0%nat = Some c0 /\
                      dev_term_at self y c0 i term)
           (seq 0 (SS_DEV_NET.layer_count self)) dev_losses /\
         reg_loss =
           Add (Sum (Stack dev_losses))
               (Mul (Const 0.5)
                  (Add (SS_DEV_NET.raw_reg_loss self)
                     (SS_DEV_NET.sde_reg_loss self)))
     else
       class_loss = loss_func (SS_DEV_NET.raw_out_func self) y /\
       reg_loss = SS_DEV_NET.raw_reg_loss self) /\
    (forall joint_loss,
       SS_DEV_NET.dev_cost self y joint_loss =
         Ok (if py_eq_int joint_loss 1 then Add class_loss reg_loss
             else reg_loss)) /\
    SS_DEV_NET.dev_cost self y (PyInt 2) = Ok reg_loss /\
    SS_DEV_NET.dev_reg_loss self y = Ok reg_loss /\
    (forall z, py_eq_int (PyInt z) 1 = true <-> z = 1%Z).
Proof.
  unfold SS_DEV_NET.dev_reg_loss, SS_DEV_NET.dev_cost.
  destruct (Qltb 1e-5 (SS_DEV_NET.dev_lams_sum self)).
  - destruct (SS_DEV_NET.dev_cost_loop self y [] _) as [terms|e] eqn:Hloop;
      cbn [mbind res_bind]; [|discriminate].
    apply dev_cost_loop_inv in Hloop as (terms' & Heq & Hterms).
    cbn [app] in Heq. subst terms'.
    intros [= <-]. eexists _, _. split; [reflexivity|].
    split; [split; [reflexivity|exists terms; split; [exact Hterms|reflexivity]]|].
    split; [reflexivity|]. split; [reflexivity|]. split; [reflexivity|].
    intros z. apply Z.eqb_eq.
  - cbn [mbind res_bind]. intros [= <-]. eexists _, _. split; [reflexivity|].
    split; [split; reflexivity|].
    split; [reflexivity|]. split; [reflexivity|]. split; [reflexivity|].
    intros z. apply Z.eqb_eq.
Qed.

(** ** The graph builder *)

Lemma build_bind_Ok {G A B} (m : build G A) (f : A -> build G B) s b s' :
  (m ≫= f) s = Ok (b, s') ->
  exists a s1, m s = Ok (a, s1) /\ f a s1 = Ok (b, s').
Proof.
  unfold mbind, build_bind. destruct (m s) as [[a s1]|e]; [|discriminate].
  intros Hf. exists a, s1. split; [reflexivity|exact Hf].
Qed.

Lemma build_ret_Ok {G A} (a b : A) (s s' : builder G) :
  (mret a : build G A) s = Ok (b, s') -> b = a /\ s' = s.
Proof. unfold mret, build_ret. intros [= -> ->]. split; reflexivity. Qed.

Lemma lift_Ok {G A} (r : res py_exn A) (s s' : builder G) a :
  lift r s = Ok (a, s') -> r = Ok a /\ s' = s.
Proof. unfold lift. destruct r; [|discriminate]. intros [= -> ->]. split; reflexivity. Qed.

Section Builder.
Context {G : Type} `{RandomState G}.

Lemma rng_randint_Ok high (s s' : builder G) n :
  rng_randint high s = Ok (n, s') ->
  n = (randint high (rng s)).1 /\
  s' = Builder (randint high (rng s)).2 (next_id s) (initial s).
Proof.
  unfold rng_randint. destruct (randint high (rng s)) as [k g].
  intros [= <- <-]. split; reflexivity.
Qed.

Lemma rng_standard_normal_Ok n m (s s' : builder G) a :
  rng_standard_normal n m s = Ok (a, s') ->
  a = (standard_normal n m (rng s)).1 /\
  s' = Builder (standard_normal n m (rng s)).2 (next_id s) (initial s).
Proof.
  unfold rng_standard_normal. destruct (standard_normal n m (rng s)) as [k g].
  intros [= <- <-]. split; reflexivity.
Qed.

Lemma theano_shared_Ok value (s s' : builder G) e :
  theano_shared value s = Ok (e, s') ->
  e = Shared (next_id s) /\
  s' = Builder (rng s) (S (next_id s)) (<[next_id s := value]> (initial s)).
Proof. unfold theano_shared. intros [= <- <-]. split; reflexivity. Qed.

(** What a successful call of the constructor of a layer returns. *)
Lemma HiddenLayer_init_Ok input n_in n_out act drop_rate Wo bo use_bias
    (st st' : builder G) layer :
  HiddenLayer.__init__ input n_in n_out act drop_rate Wo bo use_bias st =
    Ok (layer, st') ->
  let Ws := match Wo with Some W0 => W0 | None => Shared (next_id st) end in
  let k := match Wo with Some _ => next_id st | None => S (next_id st) end in
  HiddenLayer.rescaled drop_rate Ws = Ok (HiddenLayer.W layer) /\
  HiddenLayer.b layer = match bo with Some b0 => b0 | None => Shared k end /\
  next_id st' = match bo with Some _ => k | None => S k end /\
  HiddenLayer.input layer =
    (if Qltb drop_rate 0.01 then input
     else Mul input
            (Cast (Binomial (randint 100000 (rng st)).1 (1 - drop_rate) input))) /\
  (is_Some Wo -> is_Some bo ->
   st' = if Qltb drop_rate 0.01 then st
         else Builder (randint 100000 (rng st)).2 (next_id st) (initial st)) /\
  HiddenLayer.linear_output layer =
    (if use_bias
     then Add (Dot (HiddenLayer.input layer) (HiddenLayer.W layer))
            (HiddenLayer.b layer)
     else Dot (HiddenLayer.input layer) (HiddenLayer.W layer)) /\
  HiddenLayer.output layer =
    match act with
    | None => HiddenLayer.linear_output layer
    | Some f => f (HiddenLayer.linear_output layer)
    end /\
  HiddenLayer.in_dim layer = n_in /\
  HiddenLayer.out_dim layer = n_out /\
  HiddenLayer.activation layer = act /\
  HiddenLayer.act_l2_sum layer =
    Div (Sum (Sqr (HiddenLayer.output layer))) (Size (HiddenLayer.output layer)) /\
  HiddenLayer.params layer =
    (if use_bias then [HiddenLayer.W layer; HiddenLayer.b layer]
     else [HiddenLayer.W layer]).
Proof.
  unfold HiddenLayer.__init__. intros Hrun.
  apply build_bind_Ok in Hrun as (inp & s1 & Hinp & Hrun).
  apply build_bind_Ok in Hrun as (Ws & s2 & HWs & Hrun).
  apply build_bind_Ok in Hrun as (bs & s3 & Hbs & Hrun).
  apply build_bind_Ok in Hrun as (We & s4 & HWe & Hrun).
  apply lift_Ok in HWe as [HWe ->].
  apply build_ret_Ok in Hrun as [-> ->].
  cbn [HiddenLayer.W HiddenLayer.b HiddenLayer.input
    HiddenLayer.linear_output HiddenLayer.output HiddenLayer.in_dim
    HiddenLayer.out_dim HiddenLayer.activation HiddenLayer.act_l2_sum
    HiddenLayer.params].
  assert (Hin : inp = (if Qltb drop_rate 0.01 then input
     else Mul input
            (Cast (Binomial (randint 100000 (rng st)).1 (1 - drop_rate) input)))
     /\ next_id s1 = next_id st
     /\ s1 = (if Qltb drop_rate 0.01 then st
              else Builder (randint 100000 (rng st)).2 (next_id st) (initial st))).
  { destruct (Qltb drop_rate 0.01).
    - apply build_ret_Ok in Hinp as [-> ->]. auto.
    - unfold HiddenLayer._drop_from_input in Hinp.
      apply build_bind_Ok in Hinp as (seed & s0 & Hseed & Hinp).
      apply build_ret_Ok in Hinp as [-> ->].
      apply rng_randint_Ok in Hseed as [-> ->]. cbn. auto. }
  destruct Hin as (-> & Hid1 & Hst1).
  assert (HW : Ws = match Wo with Some W0 => W0 | None => Shared (next_id st) end
     /\ next_id s2 = match Wo with Some _ => next_id st | None => S (next_id st) end
     /\ (is_Some Wo -> s2 = s1)).
  { destruct Wo as [W0|].
    - apply build_ret_Ok in HWs as [-> ->]. auto.
    - apply build_bind_Ok in HWs as (Wi & s0 & HWi & HWs).
      apply rng_standard_normal_Ok in HWi as [-> ->].
      apply theano_shared_Ok in HWs as [-> ->]. cbn. rewrite Hid1.
      split; [reflexivity|]. split; [reflexivity|]. intros [? [=]]. }
  destruct HW as (-> & Hid2 & Hst2).
  assert (Hb : bs = match bo with
                    | Some b0 => b0
                    | None => Shared (next_id s2)
                    end
     /\ next_id s3 = match bo with Some _ => next_id s2 | None => S (next_id s2) end
     /\ (is_Some bo -> s3 = s2)).
  { destruct bo as [b0|].
    - apply build_ret_Ok in Hbs as [-> ->]. auto.
    - apply theano_shared_Ok in Hbs as [-> ->]. cbn.
      split; [reflexivity|]. split; [reflexivity|]. intros [? [=]]. }
  destruct Hb as (-> & Hid3 & Hst3).
  rewrite Hid3, Hid2.
  repeat split; try reflexivity; try assumption.
  intros HWo Hbo. rewrite Hst3, Hst2 by assumption. exact Hst1.
Qed.

Lemma rescaled_Ok drop_rate Ws :
  (Qltb drop_rate 0.01 = false -> ~ (drop_rate == 1)%Q) ->
  HiddenLayer.rescaled drop_rate Ws =
    Ok (if Qltb drop_rate 0.01 then Ws
        else Mul (Const (1 / (1 - drop_rate))) Ws).
Proof.
  intros Hne. unfold HiddenLayer.rescaled, py_div.
  destruct (Qltb drop_rate 0.01); [reflexivity|].
  destruct (Qeq_bool (1 - drop_rate) 0) eqn:Hz; [|reflexivity].
  exfalso. apply Hne; [reflexivity|]. apply Qeq_bool_eq in Hz.
  rewrite <- (Qplus_0_l drop_rate), <- Hz. ring.
Qed.

(** The constructor of a layer fails only on a drop rate of 1. *)
Lemma HiddenLayer_init_total input n_in n_out act drop_rate Wo bo use_bias
    (st : builder G) :
  (Qltb drop_rate 0.01 = false -> ~ (drop_rate == 1)%Q) ->
  exists layer st',
    HiddenLayer.__init__ input n_in n_out act drop_rate Wo bo use_bias st =
      Ok (layer, st').
Proof.
  intros Hne. pose proof (fun Ws => rescaled_Ok drop_rate Ws Hne) as HR.
  clear Hne. unfold HiddenLayer.__init__, HiddenLayer._drop_from_input.
  unfold mbind, build_bind, mret, build_ret, lift, rng_randint,
    rng_standard_normal, theano_shared.
  destruct (Qltb drop_rate 0.01) eqn:Hd; cbn;
    repeat (match goal with
            | |- context [randint ?h ?g] => destruct (randint h g)
            | |- context [standard_normal ?n ?m ?g] => destruct (standard_normal n m g)
            end; cbn);
    destruct Wo, bo; cbn;
    repeat (match goal with
            | |- context [standard_normal ?n ?m ?g] => destruct (standard_normal n m g)
            end; cbn);
    rewrite HR; eauto.
Qed.
End Builder.

(** ** Layers *)

Lemma Qltb_ge (x y : Q) : Qltb x y = false <-> (y <= x)%Q.
Proof.
  unfold Qltb. rewrite negb_false_iff. apply Qle_bool_iff.
Qed.

Lemma eval_scaled_weight ρ drop_rate Ws w :
  ~ (drop_rate == 1)%Q ->
  eval ρ Ws = Ok (Matrix w) ->
  eval ρ (Mul (Const (1 / (1 - drop_rate))) Ws) =
    Ok (Matrix (map (map (fun v => v / (1 - Q2R drop_rate))) w)).
Proof.
  intros Hne Hw. ev. rewrite Hw. ev. unfold rmul.
  rewrite binop_Scalar_Matrix_total. do 2 f_equal.
  apply map_ext. intros row. apply map_ext. intros v.
  rewrite Q2R_div, Q2R_minus, RMicromega.Q2R_1.
  - unfold Rdiv. ring.
  - intros Hz. apply Hne. rewrite <- (Qplus_0_l drop_rate), <- Hz. ring.
Qed.

Lemma imap_same_shape {A B} (f : nat -> nat -> B) (x : list (list A)) :
  Forall2 (fun r s => length r = length s) x
    (imap (fun i row => imap (fun j _ => f i j) row) x).
Proof.
  apply Forall2_same_length_lookup. split; [rewrite length_imap; reflexivity|].
  intros i r s Hr Hs. rewrite list_lookup_imap, Hr in Hs. cbn in Hs.
  injection Hs as <-. rewrite length_imap. reflexivity.
Qed.

Lemma eval_dropped_input ρ input seed p x :
  eval ρ input = Ok (Matrix x) ->
  eval ρ (Mul input (Cast (Binomial seed p input))) =
    Ok (Matrix (zip_with (zip_with Rmult) x
                  (imap (fun i row =>
                     imap (fun j _ => of_bit (binomial_draw ρ seed p i j)) row) x))).
Proof.
  intros Hx. ev. rewrite Hx. ev. cbn [draw_like]. unfold rmul.
  apply binop_Matrix_Matrix_total, imap_same_shape.
Qed.

Section Layers.
Context {G : Type} `{RandomState G}.

(** C6.  The constructor of a layer succeeds for every drop rate other
    than 1.  Below 0.01 the layer computes with the stored weight and the
    given input, and with weight and bias supplied it leaves the generator
    and the rest of the builder as they were.  From 0.01 on, the weight it
    computes with is the stored weight divided by (1 - rate), and the
    input it computes with is the given input times a 0/1 mask, drawn at
    each evaluation by a new random stream with keep probability
    (1 - rate), whose seed the constructor takes from the generator. *)
Theorem layer_weight_and_input input n_in n_out act drop_rate Wo bo use_bias
    (st : builder G) :
  ~ (drop_rate == 1)%Q ->
  exists layer st',
    HiddenLayer.__init__ input n_in n_out act drop_rate Wo bo use_bias st =
      Ok (layer, st') /\
    let Ws := match Wo with Some W0 => W0 | None => Shared (next_id st) end in
    let seed := (randint 100000 (rng st)).1 in
    HiddenLayer.linear_output layer =
      (if use_bias
       then Add (Dot (HiddenLayer.input layer) (HiddenLayer.W layer))
              (HiddenLayer.b layer)
       else Dot (HiddenLayer.input layer) (HiddenLayer.W layer)) /\
    ((drop_rate < 0.01)%Q ->
       HiddenLayer.W layer = Ws /\
       HiddenLayer.input layer = input /\
       (is_Some Wo -> is_Some bo -> st' = st)) /\
    ((0.01 <= drop_rate)%Q ->
       HiddenLayer.W layer = Mul (Const (1 / (1 - drop_rate))) Ws /\
       (forall ρ w, eval ρ Ws = Ok (Matrix w) ->
          eval ρ (HiddenLayer.W layer) =
            Ok (Matrix (map (map (fun v => v / (1 - Q2R drop_rate))) w))) /\
       HiddenLayer.input layer =
         Mul input (Cast (Binomial seed (1 - drop_rate) input)) /\
       (forall ρ x, eval ρ input = Ok (Matrix x) ->
          eval ρ (HiddenLayer.input layer) =
            Ok (Matrix
                  (zip_with (zip_with Rmult) x
                     (imap (fun i row =>
                        imap (fun j _ =>
                          of_bit (binomial_draw ρ seed (1 - drop_rate) i j)) row)
                        x)))) /\
       (is_Some Wo -> is_Some bo ->
        rng st' = (randint 100000 (rng st)).2)).
Proof.
  intros Hne.
  destruct (HiddenLayer_init_total input n_in n_out act drop_rate Wo bo
              use_bias st (fun _ => Hne)) as (layer & st' & Hrun).
  exists layer, st'. split; [exact Hrun|].
  apply HiddenLayer_init_Ok in Hrun
    as (HW & _ & _ & Hin & Hst & Hlin & _).
  rewrite rescaled_Ok in HW by auto. injection HW as HW.
  cbv zeta. split; [exact Hlin|]. split.
  - intros Hlt%Qltb_lt. rewrite Hlt in *. auto.
  - intros Hge%Qltb_ge. rewrite Hge in *.
    split; [symmetry; exact HW|]. split.
    { intros ρ w Hw. rewrite <- HW. apply eval_scaled_weight; assumption. }
    split; [exact Hin|]. split.
    { intros ρ x Hx. rewrite Hin. apply eval_dropped_input, Hx. }
    intros HWo Hbo. rewrite Hst by assumption. reflexivity.
Qed.
End Layers.

Lemma layer_weight_and_input_witness :
  exists layer st',
    HiddenLayer.__init__ (Var "x") 2 1 (Some Sigmoid) 0.5
      (Some (Shared 0)) (Some (Shared 1)) true Lcg.start = Ok (layer, st') /\
    let Ws := Shared 0 in
    let seed := (randint 100000 (rng Lcg.start)).1 in
    HiddenLayer.linear_output layer =
      Add (Dot (HiddenLayer.input layer) (HiddenLayer.W layer))
        (HiddenLayer.b layer) /\
    ((0.5 < 0.01)%Q ->
       HiddenLayer.W layer = Ws /\
       HiddenLayer.input layer = Var "x" /\
       (is_Some (Some (Shared 0)) -> is_Some (Some (Shared 1)) ->
        st' = Lcg.start)) /\
    ((0.01 <= 0.5)%Q ->
       HiddenLayer.W layer = Mul (Const (1 / (1 - 0.5))) Ws /\
       (forall ρ w, eval ρ Ws = Ok (Matrix w) ->
          eval ρ (HiddenLayer.W layer) =
            Ok (Matrix (map (map (fun v => v / (1 - Q2R 0.5))) w))) /\
       HiddenLayer.input layer =
         Mul (Var "x") (Cast (Binomial seed (1 - 0.5) (Var "x"))) /\
       (forall ρ x, eval ρ (Var "x") = Ok (Matrix x) ->
          eval ρ (HiddenLayer.input layer) =
            Ok (Matrix
                  (zip_with (zip_with Rmult) x
                     (imap (fun i row =>
                        imap (fun j _ =>
                          of_bit (binomial_draw ρ seed (1 - 0.5) i j)) row)
                        x)))) /\
       (is_Some (Some (Shared 0)) -> is_Some (Some (Shared 1)) ->
        rng st' = (randint 100000 (rng Lcg.start)).2)).
Proof.
  apply (layer_weight_and_input (G:=Z) (Var "x") 2 1 (Some Sigmoid) 0.5
           (Some (Shared 0)) (Some (Shared 1)) true Lcg.start).
  intros Heq. vm_compute in Heq. discriminate Heq.
Defined.

(** ** Loops of the builder *)

Lemma foldM_invariant {G S A} (f : S -> A -> build G S)
    (I : list A -> S -> builder G -> Prop) (l : list A) :
  (forall done x rest s st s' st',
     l = done ++ x :: rest ->
     I done s st -> f s x st = Ok (s', st') -> I (done ++ [x]) s' st') ->
  forall s st s' st',
    I [] s st -> foldM f s l st = Ok (s', st') -> I l s' st'.
Proof.
  intros Hstep.
  enough (Hgen : forall rest done s st s' st',
             l = done ++ rest -> I done s st ->
             foldM f s rest st = Ok (s', st') -> I l s' st').
  { intros s st s' st' HI Hrun. exact (Hgen l [] s st s' st' eq_refl HI Hrun). }
  induction rest as [|x rest IH]; intros done s st s' st' Hl HI Hrun.
  - apply build_ret_Ok in Hrun as [-> ->]. rewrite app_nil_r in Hl. subst l. exact HI.
  - cbn [foldM] in Hrun. apply build_bind_Ok in Hrun as (s1 & st1 & Hf & Hrun).
    apply (IH (done ++ [x]) s1 st1 s' st').
    + rewrite <- app_assoc. exact Hl.
    + eapply Hstep; eassumption.
    + exact Hrun.
Qed.

Lemma seq_split (n : nat) (done : list nat) (x : nat) (rest : list nat) :
  seq 0 n = done ++ x :: rest -> x = length done /\ (x < n)%nat.
Proof.
  intros Hs.
  assert (Hx : seq 0 n !! length done = Some x).
  { rewrite Hs. rewrite lookup_app_r by lia. rewrite Nat.sub_diag. reflexivity. }
  apply lookup_seq in Hx. lia.
Qed.

Lemma lookup_snoc_Some {A} (l : list A) (x y : A) (j : nat) :
  (l ++ [x]) !! j = Some y ->
  ((j < length l)%nat /\ l !! j = Some y) \/ (j = length l /\ y = x).
Proof.
  intros Hj. destruct (decide (j < length l)%nat) as [Hlt|Hge].
  - left. rewrite lookup_app_l in Hj by exact Hlt. auto.
  - right. rewrite lookup_app_r in Hj by lia.
    destruct (j - length l)%nat as [|k] eqn:Hk; cbn in Hj; [|discriminate].
    split; [lia|congruence].
Qed.

Lemma last_snoc_lookup {A} (l : list A) (x : A) :
  last (l ++ [x]) = Some x /\ (l ++ [x]) !! length l = Some x.
Proof.
  split; [apply last_snoc|]. rewrite lookup_app_r by lia.
  rewrite Nat.sub_diag. reflexivity.
Qed.

(** ** The chains of [__init__] *)

Section Chains.
Context {G : Type} `{RandomState G}.
Variables (act_fun : texpr -> texpr) (use_bias : bool) (K : nat).

Lemma clone_step_Ok n_in n_out c i (st st' : builder G) c' :
  SS_DEV_NET.clone_step act_fun use_bias n_in n_out c i st = Ok (c', st') ->
  exists clone inp raw lay,
    SS_DEV_NET.ch_dev_clones c !! i = Some clone /\
    SS_DEV_NET.next_drop_inputs c !! i = Some inp /\
    last (SS_DEV_NET.ch_mlp_layers c) = Some raw /\
    HiddenLayer.__init__ inp n_in n_out (Some act_fun)
      (if SS_DEV_NET.first_layer c then 0.2 else 0.5)%Q
      (Some (HiddenLayer.W raw)) (Some (HiddenLayer.b raw)) use_bias st =
      Ok (lay, st') /\
    c' = {| SS_DEV_NET.ch_clip_params := SS_DEV_NET.ch_clip_params c;
            SS_DEV_NET.ch_mlp_layers := SS_DEV_NET.ch_mlp_layers c;
            SS_DEV_NET.ch_dev_clones :=
              <[i := clone ++ [lay]]> (SS_DEV_NET.ch_dev_clones c);
            SS_DEV_NET.next_raw_input := SS_DEV_NET.next_raw_input c;
            SS_DEV_NET.next_drop_inputs :=
              <[i := HiddenLayer.output lay]> (SS_DEV_NET.next_drop_inputs c);
            SS_DEV_NET.first_layer := SS_DEV_NET.first_layer c |}.
Proof.
  unfold SS_DEV_NET.clone_step. intros Hrun.
  apply build_bind_Ok in Hrun as (clone & s1 & Hclone & Hrun).
  apply lift_Ok in Hclone as [Hclone%py_index_Ok ->].
  apply build_bind_Ok in Hrun as (inp & s2 & Hinp & Hrun).
  apply lift_Ok in Hinp as [Hinp%py_index_Ok ->].
  apply build_bind_Ok in Hrun as (raw & s3 & Hraw & Hrun).
  apply lift_Ok in Hraw as [Hraw ->].
  apply build_bind_Ok in Hrun as (lay & s4 & Hlay & Hrun).
  apply build_ret_Ok in Hrun as [-> ->].
  exists clone, inp, raw, lay. repeat split; try assumption.
  unfold py_last in Hraw. destruct (last _); cbn in Hraw; congruence.
Qed.

Lemma clone_of_snoc mlp raw clone :
  clone_of act_fun use_bias mlp clone ->
  clone_of act_fun use_bias (mlp ++ [raw]) clone.
Proof.
  intros Hc j lay Hj. destruct (Hc j lay Hj) as (r & Hr & Hcl).
  exists r. split; [|exact Hcl]. apply lookup_app_l_Some, Hr.
Qed.

(** The loop over the clones, entered after the raw layer [raw] was
    appended to [mlp]. *)
Lemma clone_loop_invariant n_in n_out mlp raw c0 c (st st' : builder G) :
  SS_DEV_NET.ch_mlp_layers c0 = mlp ++ [raw] ->
  HiddenLayer.in_dim raw = n_in ->
  HiddenLayer.out_dim raw = n_out ->
  SS_DEV_NET.first_layer c0 = bool_decide (length mlp = 0%nat) ->
  clone_inv act_fun use_bias K c0 (next_id st) [] c0 st ->
  foldM (SS_DEV_NET.clone_step act_fun use_bias n_in n_out) c0 (seq 0 K) st =
    Ok (c, st') ->
  clone_inv act_fun use_bias K c0 (next_id st) (seq 0 K) c st'.
Proof.
  intros Hmlp Hin Hout Hfirst Hinit Hrun.
  refine (foldM_invariant _ (clone_inv act_fun use_bias K c0 (next_id st))
            (seq 0 K) _ c0 st c st' Hinit Hrun).
  clear c st' Hrun Hinit.
  intros done i rest c s c' s' Hseq
    (Hm & Hclip & Hnext & Hf & Hid & HlenC & HlenI & Hcl) Hstep.
  apply seq_split in Hseq as [-> HiK].
  apply clone_step_Ok in Hstep
    as (clone & inp & raw' & lay & Hclone & Hinp & Hraw & Hlay & ->).
  rewrite Hm, Hmlp, last_snoc in Hraw. injection Hraw as <-.
  pose proof (HiddenLayer_init_Ok _ _ _ _ _ _ _ _ _ _ _ Hlay)
    as (_ & _ & Hid' & _).
  unfold clone_inv.
  cbn [SS_DEV_NET.ch_mlp_layers SS_DEV_NET.ch_clip_params
    SS_DEV_NET.next_raw_input SS_DEV_NET.first_layer
    SS_DEV_NET.ch_dev_clones SS_DEV_NET.next_drop_inputs].
  rewrite !length_insert. repeat (split; [congruence|]).
  intros i clone' Hi.
  destruct (Hcl _ _ Hclone) as [Hof Hlen].
  rewrite decide_False in Hlen by lia.
  rewrite Hmlp, length_app in Hlen. cbn [length] in Hlen.
  destruct (decide (i = length done)) as [->|Hne].
  - rewrite list_lookup_insert_eq in Hi by lia. injection Hi as <-.
    rewrite !length_app. cbn [length]. rewrite decide_True by lia.
    rewrite Hmlp, ?length_app. cbn [length]. split; [|lia].
    intros j l Hj. apply lookup_snoc_Some in Hj as [[_ Hj]|[-> ->]].
    + rewrite Hmlp in Hof. exact (Hof j l Hj).
    + exists raw. split.
      * rewrite ?Hmlp. replace (length clone) with (length mlp) by lia.
        apply last_snoc_lookup.
      * exists inp, s, s'. rewrite Hin, Hout.
        replace (drop_rate_at (length clone))
          with (if SS_DEV_NET.first_layer c then 0.2 else 0.5)%Q; [exact Hlay|].
        rewrite Hf, Hfirst. replace (length clone) with (length mlp) by lia.
        destruct mlp; reflexivity.
  - rewrite list_lookup_insert_ne in Hi by congruence.
    destruct (Hcl _ _ Hi) as [Hof' Hlen']. split; [exact Hof'|].
    rewrite Hlen', !length_app. cbn [length].
    destruct (decide (i < length done)%nat), (decide (i < length done + 1)%nat);
      try reflexivity; lia.
Qed.

Lemma layer_step_Ok c n_in n_out (st st' : builder G) c' :
  SS_DEV_NET.layer_step act_fun use_bias K c (n_in, n_out) st = Ok (c', st') ->
  exists raw st1 c2,
    HiddenLayer.__init__ (SS_DEV_NET.next_raw_input c) n_in n_out
      (Some act_fun) 0 None None use_bias st = Ok (raw, st1) /\
    foldM (SS_DEV_NET.clone_step act_fun use_bias n_in n_out)
      {| SS_DEV_NET.ch_clip_params :=
           SS_DEV_NET.clip (HiddenLayer.b raw) 0
             (SS_DEV_NET.clip (HiddenLayer.W raw) 1 (SS_DEV_NET.ch_clip_params c));
         SS_DEV_NET.ch_mlp_layers := SS_DEV_NET.ch_mlp_layers c ++ [raw];
         SS_DEV_NET.ch_dev_clones := SS_DEV_NET.ch_dev_clones c;
         SS_DEV_NET.next_raw_input := HiddenLayer.output raw;
         SS_DEV_NET.next_drop_inputs := SS_DEV_NET.next_drop_inputs c;
         SS_DEV_NET.first_layer := SS_DEV_NET.first_layer c |}
      (seq 0 K) st1 = Ok (c2, st') /\
    c' = {| SS_DEV_NET.ch_clip_params := SS_DEV_NET.ch_clip_params c2;
            SS_DEV_NET.ch_mlp_layers := SS_DEV_NET.ch_mlp_layers c2;
            SS_DEV_NET.ch_dev_clones := SS_DEV_NET.ch_dev_clones c2;
            SS_DEV_NET.next_raw_input := SS_DEV_NET.next_raw_input c2;
            SS_DEV_NET.next_drop_inputs := SS_DEV_NET.next_drop_inputs c2;
            SS_DEV_NET.first_layer := false |}.
Proof.
  unfold SS_DEV_NET.layer_step. intros Hrun.
  apply build_bind_Ok in Hrun as (raw & st1 & Hraw & Hrun).
  apply build_bind_Ok in Hrun as (c2 & st2 & Hloop & Hrun).
  apply build_ret_Ok in Hrun as [-> ->].
  exists raw, st1, c2. auto.
Qed.

(** The loop over the layer sizes keeps [main_inv]. *)
Lemma main_loop_invariant n0 sizes c0 c (st st' : builder G) :
  main_inv act_fun use_bias K n0 [] c0 st ->
  foldM (SS_DEV_NET.layer_step act_fun use_bias K) c0 sizes st = Ok (c, st') ->
  main_inv act_fun use_bias K n0 sizes c st'.
Proof.
  intros Hinit Hrun.
  refine (foldM_invariant _ (main_inv act_fun use_bias K n0) sizes _
            c0 st c st' Hinit Hrun).
  clear c0 c st st' Hinit Hrun.
  intros done [n_in n_out] rest c st c' st' _
    (Hlen & Hid & Hfirst & HlenC & HlenI & Hraws & Hclones) Hstep.
  apply layer_step_Ok in Hstep as (raw & st1 & c2 & Hraw & Hloop & ->).
  pose proof (HiddenLayer_init_Ok _ _ _ _ _ _ _ _ _ _ _ Hraw)
    as (HW & Hb & Hid1 & _ & _ & _ & _ & Hin & Hout & _).
  cbv zeta in HW, Hb, Hid1. injection HW as HW.
  eapply clone_loop_invariant in Hloop;
    [|reflexivity|exact Hin|exact Hout| |].
  2:{ cbn [SS_DEV_NET.first_layer]. rewrite Hfirst, Hlen. reflexivity. }
  2:{ unfold clone_inv.
      cbn [SS_DEV_NET.ch_mlp_layers SS_DEV_NET.ch_clip_params
        SS_DEV_NET.next_raw_input SS_DEV_NET.first_layer
        SS_DEV_NET.ch_dev_clones SS_DEV_NET.next_drop_inputs length].
      repeat (split; [reflexivity || assumption|]).
      intros i clone Hi. destruct (Hclones i clone Hi) as [Hl Hof].
      split; [apply clone_of_snoc, Hof|].
      rewrite decide_False by lia. rewrite length_app. cbn [length]. lia. }
  destruct Hloop as (Hm & _ & _ & _ & Hid2 & HlenC2 & HlenI2 & Hcl2).
  cbn [SS_DEV_NET.ch_mlp_layers] in Hm, Hcl2.
  unfold main_inv.
  cbn [SS_DEV_NET.ch_mlp_layers SS_DEV_NET.first_layer
    SS_DEV_NET.ch_dev_clones SS_DEV_NET.next_drop_inputs].
  rewrite Hm, !length_app. cbn [length].
  split; [lia|]. split; [lia|].
  split; [rewrite bool_decide_eq_false_2 by lia; reflexivity|].
  split; [exact HlenC2|]. split; [exact HlenI2|]. split.
  - intros j r Hj. apply lookup_snoc_Some in Hj as [[_ Hj]|[-> ->]].
    + exact (Hraws j r Hj).
    + rewrite <- HW, Hb, Hid, Hlen. split; f_equal; lia.
  - intros i clone Hi. destruct (Hcl2 i clone Hi) as [Hof Hl].
    split; [|exact Hof]. rewrite Hl, length_seq, length_app. cbn [length].
    apply lookup_lt_Some in Hi. rewrite decide_True by lia. reflexivity.
Qed.
End Chains.

(** ** The denoising autoencoders *)

Section Dae.
Context {G : Type} `{RandomState G}.

Lemma masking_noise_Ok input nz_lvl (st st' : builder G) e :
  SS_DEV_NET._masking_noise input nz_lvl st = Ok (e, st') ->
  e = Mul input
        (Cast (Binomial (randint 100000 (rng st)).1 (1 - nz_lvl) input)) /\
  next_id st' = next_id st.
Proof.
  unfold SS_DEV_NET._masking_noise. intros Hrun.
  apply build_bind_Ok in Hrun as (seed & s1 & Hseed & Hrun).
  apply build_ret_Ok in Hrun as [-> ->].
  apply rng_randint_Ok in Hseed as [-> ->]. split; reflexivity.
Qed.

Lemma dae_layer_step_invariant act_fun mlp nz_lvl n1 range d d'
    (st st' : builder G) :
  (forall i, i ∈ range -> (i < length mlp)%nat) ->
  range = seq 0 (length range) ->
  dae_inv mlp n1 [] d st ->
  foldM (SS_DEV_NET.dae_layer_step act_fun mlp nz_lvl) d range st = Ok (d', st') ->
  dae_inv mlp n1 range d' st'.
Proof.
  intros Hrange Hseq Hinit Hrun.
  refine (foldM_invariant _ (dae_inv mlp n1) range _ d st d' st' Hinit Hrun).
  clear d d' st st' Hinit Hrun.
  intros done i rest d st d' st' Hsplit (Hid & Hl1 & Hl2 & Hl3 & Hpairs) Hstep.
  assert (Hi : i = length done).
  { rewrite Hseq in Hsplit. apply seq_split in Hsplit. tauto. }
  unfold SS_DEV_NET.dae_layer_step in Hstep.
  apply build_bind_Ok in Hstep as (raw & s1 & Hraw & Hstep).
  apply lift_Ok in Hraw as [Hraw%py_index_Ok ->].
  apply build_bind_Ok in Hstep as (input_enc & s2 & Hnoise & Hstep).
  apply masking_noise_Ok in Hnoise as [_ Hid2].
  apply build_bind_Ok in Hstep as (encoder & s3 & Henc & Hstep).
  apply build_bind_Ok in Hstep as (raw_decoder & s4 & Hrd & Hstep).
  apply build_bind_Ok in Hstep as (sde_decoder & s5 & Hsd & Hstep).
  apply build_ret_Ok in Hstep as [-> ->].
  apply HiddenLayer_init_Ok in Henc as (HWe & Hbe & Hid3 & _).
  apply HiddenLayer_init_Ok in Hrd as (HWr & Hbr & Hid4 & _).
  apply HiddenLayer_init_Ok in Hsd as (HWs & Hbs & Hid5 & _).
  cbv zeta in HWe, Hbe, Hid3, HWr, Hbr, Hid4, HWs, Hbs, Hid5.
  injection HWe as HWe. injection HWr as HWr.
  unfold dae_inv.
  cbn [SS_DEV_NET.dae_raw_layers SS_DEV_NET.dae_sde_layers
    SS_DEV_NET.dae_dae_params].
  rewrite !length_app. cbn [length].
  split; [lia|]. split; [lia|]. split; [lia|]. split; [lia|].
  intros j Hj. destruct (decide (j < length done)%nat) as [Hlt|Hge].
  - destruct (Hpairs j Hlt)
      as (r & e & rd & sd & H1 & H2 & H3 & H4 & H5).
    exists r, e, rd, sd.
    cbn [SS_DEV_NET.dae_raw_layers SS_DEV_NET.dae_sde_layers
      SS_DEV_NET.dae_dae_params].
    split; [exact H1|]. split; [apply lookup_app_l_Some, H2|].
    split; [apply lookup_app_l_Some, H3|].
    split; [apply lookup_app_l_Some, H4|]. exact H5.
  - assert (j = length done) as -> by lia. subst i.
    exists raw, encoder, raw_decoder, sde_decoder.
    cbn [SS_DEV_NET.dae_raw_layers SS_DEV_NET.dae_sde_layers
      SS_DEV_NET.dae_dae_params].
    split; [exact Hraw|].
    split; [rewrite <- Hl1; apply last_snoc_lookup|].
    split; [rewrite <- Hl2; apply last_snoc_lookup|].
    split; [rewrite <- Hl3; apply last_snoc_lookup|].
    split; [symmetry; exact HWe|]. split; [exact Hbe|].
    split; [symmetry; exact HWr|]. split; [exact HWs|].
    split; [rewrite Hbr; f_equal; lia|exact Hbs].
Qed.

Lemma dae_loss_loop_keeps using_sigmoid mlp lam_l1 range d d'
    (st st' : builder G) :
  foldM (fun d i => lift (SS_DEV_NET.dae_loss_step using_sigmoid mlp lam_l1 d i))
    d range st = Ok (d', st') ->
  st' = st /\
  SS_DEV_NET.dae_raw_layers d' = SS_DEV_NET.dae_raw_layers d /\
  SS_DEV_NET.dae_sde_layers d' = SS_DEV_NET.dae_sde_layers d /\
  SS_DEV_NET.dae_dae_params d' = SS_DEV_NET.dae_dae_params d /\
  SS_DEV_NET.dae_clip_params d' = SS_DEV_NET.dae_clip_params d.
Proof.
  intros Hrun.
  refine (foldM_invariant _
    (fun _ d1 s1 => s1 = st /\
       SS_DEV_NET.dae_raw_layers d1 = SS_DEV_NET.dae_raw_layers d /\
       SS_DEV_NET.dae_sde_layers d1 = SS_DEV_NET.dae_sde_layers d /\
       SS_DEV_NET.dae_dae_params d1 = SS_DEV_NET.dae_dae_params d /\
       SS_DEV_NET.dae_clip_params d1 = SS_DEV_NET.dae_clip_params d)
    range _ d st d' st' _ Hrun); [|auto].
  intros done i rest d1 s1 d2 s2 _ (-> & E1 & E2 & E3 & E4) Hstep.
  apply lift_Ok in Hstep as [Hstep ->]. split; [reflexivity|].
  unfold SS_DEV_NET.dae_loss_step in Hstep.
  repeat (match type of Hstep with
          | (?m ≫= _) = Ok _ =>
              destruct m; cbn [mbind res_bind] in Hstep; [|discriminate]
          end).
  destruct (Z.eqb using_sigmoid 1); injection Hstep as <-; auto.
Qed.

Lemma construct_dae_layers_Ok act_fun using_sigmoid mlp clip lam_l1 nz_lvl d
    (st st' : builder G) :
  SS_DEV_NET._construct_dae_layers act_fun using_sigmoid mlp clip lam_l1 nz_lvl st =
    Ok (d, st') ->
  dae_inv mlp (next_id st) (seq 0 (length mlp - 1)) d st'.
Proof.
  unfold SS_DEV_NET._construct_dae_layers. intros Hrun.
  apply build_bind_Ok in Hrun as (d1 & s1 & Hlayers & Hlosses).
  apply dae_loss_loop_keeps in Hlosses as (-> & E1 & E2 & E3 & _).
  eapply (dae_layer_step_invariant _ _ _ (next_id st)) in Hlayers.
  - destruct Hlayers as (Hid & Hl1 & Hl2 & Hl3 & Hpairs).
    unfold dae_inv. rewrite E1, E2, E3. do 4 (split; [assumption|]).
    intros i Hi. destruct (Hpairs i Hi) as (r & e & rd & sd & Hp).
    exists r, e, rd, sd. rewrite E1, E2, E3. exact Hp.
  - intros i Hi%elem_of_seq. lia.
  - rewrite length_seq. reflexivity.
  - unfold dae_inv. cbn. repeat split; try lia.
Qed.
End Dae.

(** ** The constructor of the network *)

Section Network.
Context {G : Type} `{RandomState G} `{output_losses}.

Lemma py_last_Ok {A} (l : list A) x : py_last l = Ok x -> last l = Some x.
Proof. unfold py_last. destruct (last l); cbn; congruence. Qed.

(** What a successful call of [SS_DEV_NET.__init__] returns. *)
Lemma SS_DEV_NET_init_Ok input params (st st' : builder G) net :
  SS_DEV_NET.__init__ input params st = Ok (net, st') ->
  exists c d st1 raw_top clone0 sde_top,
    main_inv Sigmoid (Params.use_bias params) (Params.dev_clones params)
      (S (next_id st))
      (zip (Params.layer_sizes params) (tail (Params.layer_sizes params)))
      c st1 /\
    dae_inv (SS_DEV_NET.ch_mlp_layers c) (next_id st1)
      (seq 0 (length (SS_DEV_NET.ch_mlp_layers c) - 1)) d st' /\
    last (SS_DEV_NET.ch_mlp_layers c) = Some raw_top /\
    SS_DEV_NET.ch_dev_clones c !! 0%nat = Some clone0 /\
    last clone0 = Some sde_top /\
    SS_DEV_NET.dev_types net = Params.dev_types params /\
    SS_DEV_NET.dev_lams_sum net = foldr Qplus 0%Q (Params.dev_lams params) /\
    SS_DEV_NET.dev_lams net = Shared (next_id st) /\
    SS_DEV_NET.dev_mix_rate net = default 0%Q (Params.dev_mix_rate params) /\
    SS_DEV_NET.mlp_layers net = SS_DEV_NET.ch_mlp_layers c /\
    SS_DEV_NET.dev_clones net = SS_DEV_NET.ch_dev_clones c /\
    SS_DEV_NET.layer_count net = length (SS_DEV_NET.ch_mlp_layers c) /\
    SS_DEV_NET.raw_dae_layers net = SS_DEV_NET.dae_raw_layers d /\
    SS_DEV_NET.sde_dae_layers net = SS_DEV_NET.dae_sde_layers d /\
    SS_DEV_NET.dae_params net = SS_DEV_NET.dae_dae_params d /\
    SS_DEV_NET.raw_out_func net = MCL2HingeSS raw_top /\
    SS_DEV_NET.raw_class_loss net = loss_func (MCL2HingeSS raw_top) /\
    SS_DEV_NET.raw_reg_loss net =
      Mul (Const (Params.lam_l2a params))
        (Sum (Stack (map HiddenLayer.act_l2_sum (SS_DEV_NET.ch_mlp_layers c)))) /\
    SS_DEV_NET.sde_class_loss net = loss_func (MCL2HingeSS sde_top) /\
    SS_DEV_NET.sde_reg_loss net =
      Mul (Const (Params.lam_l2a params))
        (Sum (Stack (map HiddenLayer.act_l2_sum clone0))).
Proof.
  unfold SS_DEV_NET.__init__. intros Hrun.
  apply build_bind_Ok in Hrun as (lams & s0 & Hlams & Hrun).
  apply theano_shared_Ok in Hlams as [-> ->].
  apply build_bind_Ok in Hrun as (c & st1 & Hmain & Hrun).
  apply build_bind_Ok in Hrun as (d & st2 & Hdae & Hrun).
  apply build_bind_Ok in Hrun as (raw_top & st3 & Hraw & Hrun).
  apply lift_Ok in Hraw as [Hraw%py_last_Ok ->].
  apply build_bind_Ok in Hrun as (clone0 & st4 & Hc0 & Hrun).
  apply lift_Ok in Hc0 as [Hc0%py_index_Ok ->].
  apply build_bind_Ok in Hrun as (sde_top & st5 & Hsde & Hrun).
  apply lift_Ok in Hsde as [Hsde%py_last_Ok ->].
  apply build_ret_Ok in Hrun as [-> ->].
  exists c, d, st1, raw_top, clone0, sde_top.
  split.
  { eapply main_loop_invariant; [|exact Hmain].
    unfold main_inv.
    cbn [SS_DEV_NET.ch_mlp_layers SS_DEV_NET.first_layer
      SS_DEV_NET.ch_dev_clones SS_DEV_NET.next_drop_inputs length next_id].
    rewrite !length_replicate.
    split; [reflexivity|]. split; [lia|]. split; [reflexivity|].
    split; [reflexivity|]. split; [reflexivity|]. split.
    - intros j raw Hj. discriminate Hj.
    - intros i clone [-> _]%lookup_replicate. split; [reflexivity|].
      intros j lay Hj. discriminate Hj. }
  split; [eapply construct_dae_layers_Ok; exact Hdae|].
  repeat (split; [assumption || reflexivity|]). reflexivity.
Qed.
End Network.

Lemma eval_set_shared ρ i v : eval (set_shared ρ i v) (Shared i) = Ok v.
Proof.
  cbn [eval]. unfold lookup_shared, set_shared. cbn [shared].
  rewrite Nat.eqb_refl. reflexivity.
Qed.

Lemma drop_rate_at_ge j : Qltb (drop_rate_at j) 0.01 = false.
Proof. destruct j; reflexivity. Qed.

Lemma drop_rate_at_ne_1 j : ~ (drop_rate_at j == 1)%Q.
Proof. destruct j; intros Heq; vm_compute in Heq; discriminate Heq. Qed.

Section Claims.
Context {G : Type} `{RandomState G} `{output_losses}.

(** A constructed network has the structure [dev_cost] relies on. *)
Lemma init_well_formed input params (st st' : builder G) net :
  SS_DEV_NET.__init__ input params st = Ok (net, st') ->
  exists c0, well_formed net c0.
Proof.
  intros Hrun. apply SS_DEV_NET_init_Ok in Hrun
    as (c & d & st1 & raw_top & clone0 & sde_top & Hmain & _ & _ & Hc0 & _ &
        _ & _ & _ & _ & Hmlp & Hclones & Hcount & _).
  destruct Hmain as (_ & _ & _ & _ & _ & _ & Hcl).
  exists clone0. unfold well_formed. rewrite Hcount, Hmlp, Hclones.
  split; [reflexivity|]. split; [exact Hc0|]. apply (Hcl _ _ Hc0).
Qed.

(** C2.  In a constructed network there is at least one clone and at least
    one layer: the raw chain has one layer for each pair of consecutive
    layer sizes, and every clone is as long as the raw chain.  Every clone
    [i] has at every position [j] a layer built by the constructor of
    layers with the weight and the bias of raw layer [j] supplied, which
    are shared variables, and with drop rate 0.2 at position 0 and 0.5 at
    every later position.  The bias of the clone layer is the very shared
    variable of the raw layer; its weight is the raw layer's shared
    variable, rescaled for the drop rate as in every layer, so that after
    an update of that shared variable both layers compute with the new
    value. *)
Theorem clones_share_parameters input params (st st' : builder G) net :
  SS_DEV_NET.__init__ input params st = Ok (net, st') ->
  (1 <= Params.dev_clones params)%nat /\
  length (SS_DEV_NET.dev_clones net) = Params.dev_clones params /\
  SS_DEV_NET.layer_count net = (length (Params.layer_sizes params) - 1)%nat /\
  (1 <= SS_DEV_NET.layer_count net)%nat /\
  length (SS_DEV_NET.mlp_layers net) = SS_DEV_NET.layer_count net /\
  (forall i clone, SS_DEV_NET.dev_clones net !! i = Some clone ->
     length clone = SS_DEV_NET.layer_count net) /\
  forall i j,
    (i < Params.dev_clones params)%nat ->
    (j < SS_DEV_NET.layer_count net)%nat ->
    exists clone lay raw w bb,
      SS_DEV_NET.dev_clones net !! i = Some clone /\
      clone !! j = Some lay /\
      SS_DEV_NET.mlp_layers net !! j = Some raw /\
      HiddenLayer.W raw = Shared w /\
      HiddenLayer.b raw = Shared bb /\
      clone_layer_of Sigmoid (Params.use_bias params) j raw lay /\
      drop_rate_at j = (if decide (j = 0%nat) then 0.2 else 0.5)%Q /\
      HiddenLayer.b lay = Shared bb /\
      HiddenLayer.W lay = Mul (Const (1 / (1 - drop_rate_at j))) (Shared w) /\
      HiddenLayer.linear_output lay =
        (if Params.use_bias params
         then Add (Dot (HiddenLayer.input lay) (HiddenLayer.W lay))
                (HiddenLayer.b lay)
         else Dot (HiddenLayer.input lay) (HiddenLayer.W lay)) /\
      forall ρ v,
        eval (set_shared ρ w (Matrix v)) (HiddenLayer.W raw) = Ok (Matrix v) /\
        eval (set_shared ρ w (Matrix v)) (HiddenLayer.W lay) =
          Ok (Matrix (map (map (fun x => x / (1 - Q2R (drop_rate_at j)))) v)).
Proof.
  intros Hrun. apply SS_DEV_NET_init_Ok in Hrun
    as (c & d & st1 & raw_top & clone0 & sde_top & Hmain & _ & Htop & Hc0 & _ &
        _ & _ & _ & _ & Hmlp & Hclones & Hcount & _).
  destruct Hmain as (HlenM & _ & _ & HlenC & _ & Hraws & Hcl).
  rewrite Hclones, Hcount, Hmlp.
  split; [apply lookup_lt_Some in Hc0; lia|]. split; [exact HlenC|].
  split; [rewrite HlenM, length_zip_with, length_tl; lia|].
  split; [destruct (SS_DEV_NET.ch_mlp_layers c); [discriminate Htop|cbn; lia]|].
  split; [reflexivity|].
  split; [intros i clone Hi; apply (Hcl i clone Hi)|].
  intros i j Hi Hj.
  destruct (lookup_lt_is_Some_2 (SS_DEV_NET.ch_dev_clones c) i) as [clone Hclone];
    [lia|].
  destruct (Hcl _ _ Hclone) as [Hlen Hof].
  destruct (lookup_lt_is_Some_2 clone j) as [lay Hlay]; [lia|].
  destruct (Hof _ _ Hlay) as (raw & Hraw & Hbuilt).
  destruct (Hraws _ _ Hraw) as [HW Hb].
  pose proof Hbuilt as (inp & s & s' & Hinit).
  apply HiddenLayer_init_Ok in Hinit as (HWl & Hbl & _ & _ & _ & Hlin & _).
  cbv zeta in HWl, Hbl.
  rewrite rescaled_Ok, drop_rate_at_ge in HWl
    by (intros _; apply drop_rate_at_ne_1).
  injection HWl as HWl.
  exists clone, lay, raw, (S (next_id st) + 2 * j)%nat,
    (S (next_id st) + 2 * j + 1)%nat.
  split; [exact Hclone|]. split; [exact Hlay|]. split; [exact Hraw|].
  split; [exact HW|]. split; [exact Hb|]. split; [exact Hbuilt|].
  split; [destruct j; reflexivity|].
  split; [rewrite Hbl; exact Hb|].
  split; [rewrite <- HWl, HW; reflexivity|].
  split; [exact Hlin|].
  intros ρ v. rewrite <- HWl, HW. split; [apply eval_set_shared|].
  apply eval_scaled_weight; [apply drop_rate_at_ne_1|apply eval_set_shared].
Qed.

Lemma dev_lams_sum_zero (lams : list Q) :
  Forall (fun q => (q == 0)%Q) lams -> (foldr Qplus 0%Q lams == 0)%Q.
Proof.
  induction 1 as [|q lams Hq _ IH]; cbn [foldr]; [reflexivity|].
  rewrite Hq, IH. reflexivity.
Qed.

(** C5.  For a network constructed with every DEV weight 0, [dev_cost]
    with [joint_loss] 1 (and so with the default) returns the raw
    classification loss of the top raw layer plus the raw activation
    regularisation, lam_l2a times the sum of the [act_l2_sum] of the raw
    layers: no clone and no DEV term occurs in it. *)
Theorem dev_cost_without_dev_weights input params (st st' : builder G) net y :
  SS_DEV_NET.__init__ input params st = Ok (net, st') ->
  Forall (fun q => (q == 0)%Q) (Params.dev_lams params) ->
  exists raw_top,
    last (SS_DEV_NET.mlp_layers net) = Some raw_top /\
    SS_DEV_NET.raw_class_loss net = loss_func (MCL2HingeSS raw_top) /\
    SS_DEV_NET.raw_reg_loss net =
      Mul (Const (Params.lam_l2a params))
        (Sum (Stack (map HiddenLayer.act_l2_sum (SS_DEV_NET.mlp_layers net)))) /\
    SS_DEV_NET.dev_cost net y (PyInt 1) =
      Ok (Add (SS_DEV_NET.raw_class_loss net y) (SS_DEV_NET.raw_reg_loss net)).
Proof.
  intros Hrun Hzero. apply SS_DEV_NET_init_Ok in Hrun
    as (c & d & st1 & raw_top & clone0 & sde_top & Hmain & _ & Htop & _ & _ &
        _ & Hsum & _ & _ & Hmlp & _ & _ & _ & _ & _ & Hfunc & Hclass & Hreg & _).
  exists raw_top. rewrite Hmlp. split; [exact Htop|]. split; [exact Hclass|].
  split; [exact Hreg|].
  unfold SS_DEV_NET.dev_cost. rewrite Hsum.
  replace (Qltb 1e-5 (foldr Qplus 0%Q (Params.dev_lams params))) with false.
  - cbn [mbind res_bind py_eq_int Z.eqb Pos.eqb]. rewrite Hfunc, Hclass.
    reflexivity.
  - symmetry. apply Qltb_ge. rewrite (dev_lams_sum_zero _ Hzero).
    discriminate.
Qed.

(** C7, as the code has it.  The network has one layer for each pair of
    consecutive layer sizes.  For every layer index [i] but the last, the
    DAE pair has one encoder, on the weight and bias of raw layer [i]; the
    raw decoder computes with the transpose of the encoder's weight; the
    sde decoder, whose drop rate is 0.5, computes with that transpose
    divided by (1 - 0.5), as every layer with dropout does; the bias of
    the raw decoder is a shared variable created for it, other than every
    parameter of the raw layers and than the bias of every other pair; the
    sde decoder has the same bias object.  So both decoder weights are
    functions of the encoder's weight alone, and the decoder bias is the
    only parameter of its own. *)
Theorem dae_tied_weights input params (st st' : builder G) net :
  SS_DEV_NET.__init__ input params st = Ok (net, st') ->
  exists n1,
    SS_DEV_NET.layer_count net = (length (Params.layer_sizes params) - 1)%nat /\
    (forall j raw, SS_DEV_NET.mlp_layers net !! j = Some raw ->
       exists w bb,
         HiddenLayer.W raw = Shared w /\ HiddenLayer.b raw = Shared bb /\
         (w < n1)%nat /\ (bb < n1)%nat) /\
    forall i, (i < SS_DEV_NET.layer_count net - 1)%nat ->
      exists raw encoder raw_decoder sde_decoder,
        SS_DEV_NET.mlp_layers net !! i = Some raw /\
        SS_DEV_NET.raw_dae_layers net !! i = Some [encoder; raw_decoder] /\
        SS_DEV_NET.sde_dae_layers net !! i = Some [encoder; sde_decoder] /\
        SS_DEV_NET.dae_params net !! i =
          Some [HiddenLayer.W encoder; HiddenLayer.b encoder;
                HiddenLayer.b raw_decoder] /\
        HiddenLayer.W encoder = HiddenLayer.W raw /\
        HiddenLayer.b encoder = HiddenLayer.b raw /\
        HiddenLayer.W raw_decoder = Transpose (HiddenLayer.W encoder) /\
        HiddenLayer.W sde_decoder =
          Mul (Const (1 / (1 - 0.5))) (Transpose (HiddenLayer.W encoder)) /\
        HiddenLayer.b raw_decoder = Shared (n1 + i) /\
        HiddenLayer.b sde_decoder = HiddenLayer.b raw_decoder /\
        forall ρ m,
          eval ρ (HiddenLayer.W encoder) = Ok (Matrix m) ->
          eval ρ (HiddenLayer.W raw_decoder) = Ok (Matrix (transpose m)) /\
          eval ρ (HiddenLayer.W sde_decoder) =
            Ok (Matrix (map (map (fun v => v / (1 - Q2R 0.5))) (transpose m))).
Proof.
  intros Hrun. apply SS_DEV_NET_init_Ok in Hrun
    as (c & d & st1 & raw_top & clone0 & sde_top & Hmain & Hdae & _ & _ & _ &
        _ & _ & _ & _ & Hmlp & _ & Hcount & Hraw & Hsde & Hpar & _).
  destruct Hmain as (Hlen & Hid & _ & _ & _ & Hraws & _).
  destruct Hdae as (_ & _ & _ & _ & Hpairs).
  rewrite Hmlp, Hcount, Hraw, Hsde, Hpar. exists (next_id st1).
  split; [rewrite Hlen, length_zip_with, length_tl; lia|]. split.
  - intros j raw Hj. destruct (Hraws _ _ Hj) as [HW Hb].
    exists (S (next_id st) + 2 * j)%nat, (S (next_id st) + 2 * j + 1)%nat.
    split; [exact HW|]. split; [exact Hb|].
    apply lookup_lt_Some in Hj. lia.
  - intros i Hi.
    assert (Hi' : (i < length (seq 0 (length (SS_DEV_NET.ch_mlp_layers c) - 1)))%nat)
      by (rewrite length_seq; exact Hi).
    destruct (Hpairs i Hi')
      as (raw & e & rd & sd & H1 & H2 & H3 & H4 & H5 & H6 & H7 & H8 & H9 & H10).
    exists raw, e, rd, sd.
    rewrite rescaled_Ok in H8 by (intros _ Heq; vm_compute in Heq; discriminate Heq).
    change (Qltb 0.5 0.01) with false in H8. injection H8 as H8.
    rewrite <- H5 in H7, H8.
    do 10 (split; [assumption || (symmetry; assumption)|]).
    intros ρ m Hm. rewrite H7, <- H8. split.
    + cbn [eval]. rewrite Hm. reflexivity.
    + apply eval_scaled_weight.
      * intros Heq. vm_compute in Heq. discriminate Heq.
      * cbn [eval]. rewrite Hm. reflexivity.
Qed.
End Claims.

Lemma clones_share_parameters_witness :
  exists net st' clone lay raw,
    SS_DEV_NET.__init__ (Var "x") example_params Lcg.start = Ok (net, st') /\
    SS_DEV_NET.dev_clones net !! 0%nat = Some clone /\
    clone !! 1%nat = Some lay /\
    SS_DEV_NET.mlp_layers net !! 1%nat = Some raw /\
    HiddenLayer.W raw = Shared 3 /\
    HiddenLayer.b raw = Shared 4 /\
    HiddenLayer.W lay = Mul (Const (1 / (1 - 0.5))) (Shared 3) /\
    HiddenLayer.b lay = Shared 4 /\
    (1 <= Params.dev_clones example_params)%nat /\
    length (SS_DEV_NET.dev_clones net) = Params.dev_clones example_params /\
    SS_DEV_NET.layer_count net =
      (length (Params.layer_sizes example_params) - 1)%nat /\
    (1 <= SS_DEV_NET.layer_count net)%nat /\
    length (SS_DEV_NET.mlp_layers net) = SS_DEV_NET.layer_count net /\
    (forall i clone, SS_DEV_NET.dev_clones net !! i = Some clone ->
       length clone = SS_DEV_NET.layer_count net) /\
    forall i j,
      (i < Params.dev_clones example_params)%nat ->
      (j < SS_DEV_NET.layer_count net)%nat ->
      exists clone lay raw w bb,
        SS_DEV_NET.dev_clones net !! i = Some clone /\
        clone !! j = Some lay /\
        SS_DEV_NET.mlp_layers net !! j = Some raw /\
        HiddenLayer.W raw = Shared w /\
        HiddenLayer.b raw = Shared bb /\
        clone_layer_of Sigmoid (Params.use_bias example_params) j raw lay /\
        drop_rate_at j = (if decide (j = 0%nat) then 0.2 else 0.5)%Q /\
        HiddenLayer.b lay = Shared bb /\
        HiddenLayer.W lay = Mul (Const (1 / (1 - drop_rate_at j))) (Shared w) /\
        HiddenLayer.linear_output lay =
          (if Params.use_bias example_params
           then Add (Dot (HiddenLayer.input lay) (HiddenLayer.W lay))
                  (HiddenLayer.b lay)
           else Dot (HiddenLayer.input lay) (HiddenLayer.W lay)) /\
        forall ρ v,
          eval (set_shared ρ w (Matrix v)) (HiddenLayer.W raw) = Ok (Matrix v) /\
          eval (set_shared ρ w (Matrix v)) (HiddenLayer.W lay) =
            Ok (Matrix (map (map (fun x => x / (1 - Q2R (drop_rate_at j)))) v)).
Proof.
  destruct (SS_DEV_NET.__init__ (Var "x") example_params Lcg.start)
    as [[net st']|e] eqn:Hrun; [|vm_compute in Hrun; discriminate Hrun].
  pose proof (clones_share_parameters (G:=Z) (Var "x") example_params Lcg.start
                st' net Hrun) as Hthm.
  pose proof Hthm as (_ & _ & Hcount & _ & _ & _ & Hlayers).
  destruct (Hlayers 0%nat 1%nat) as (clone & lay & raw & w & bb & H1 & H2 & H3 &
    HW & Hb & _ & _ & Hbl & HWl & _); [cbn; lia|rewrite Hcount; cbn; lia|].
  exists net, st', clone, lay, raw.
  split; [reflexivity|]. split; [exact H1|]. split; [exact H2|].
  split; [exact H3|].
  assert (Hids : w = 3%nat /\ bb = 4%nat).
  { vm_compute in Hrun. injection Hrun as <- <-.
    cbn in H3. injection H3 as <-. cbn in HW, Hb.
    injection HW as <-. injection Hb as <-. auto. }
  destruct Hids as [-> ->].
  split; [exact HW|]. split; [exact Hb|]. split; [exact HWl|].
  split; [exact Hbl|]. exact Hthm.
Defined.

Lemma dev_cost_without_dev_weights_witness :
  exists net st' raw_top,
    SS_DEV_NET.__init__ (Var "x") plain_params Lcg.start = Ok (net, st') /\
    last (SS_DEV_NET.mlp_layers net) = Some raw_top /\
    SS_DEV_NET.raw_class_loss net = loss_func (MCL2HingeSS raw_top) /\
    SS_DEV_NET.raw_reg_loss net =
      Mul (Const (Params.lam_l2a plain_params))
        (Sum (Stack (map HiddenLayer.act_l2_sum (SS_DEV_NET.mlp_layers net)))) /\
    SS_DEV_NET.dev_cost net (Var "y") (PyInt 1) =
      Ok (Add (SS_DEV_NET.raw_class_loss net (Var "y"))
            (SS_DEV_NET.raw_reg_loss net)).
Proof.
  destruct (SS_DEV_NET.__init__ (Var "x") plain_params Lcg.start)
    as [[net st']|e] eqn:Hrun; [|vm_compute in Hrun; discriminate Hrun].
  destruct (dev_cost_without_dev_weights (G:=Z) (Var "x") plain_params
              Lcg.start st' net (Var "y") Hrun) as (raw_top & Hw).
  - repeat constructor.
  - exists net, st', raw_top. split; [reflexivity|exact Hw].
Defined.

Lemma dae_tied_weights_witness :
  exists net st' n1,
    SS_DEV_NET.__init__ (Var "x") example_params Lcg.start = Ok (net, st') /\
    SS_DEV_NET.layer_count net = 2%nat /\
    SS_DEV_NET.layer_count net =
      (length (Params.layer_sizes example_params) - 1)%nat /\
    (forall j raw, SS_DEV_NET.mlp_layers net !! j = Some raw ->
       exists w bb,
         HiddenLayer.W raw = Shared w /\ HiddenLayer.b raw = Shared bb /\
         (w < n1)%nat /\ (bb < n1)%nat) /\
    forall i, (i < SS_DEV_NET.layer_count net - 1)%nat ->
      exists raw encoder raw_decoder sde_decoder,
        SS_DEV_NET.mlp_layers net !! i = Some raw /\
        SS_DEV_NET.raw_dae_layers net !! i = Some [encoder; raw_decoder] /\
        SS_DEV_NET.sde_dae_layers net !! i = Some [encoder; sde_decoder] /\
        SS_DEV_NET.dae_params net !! i =
          Some [HiddenLayer.W encoder; HiddenLayer.b encoder;
                HiddenLayer.b raw_decoder] /\
        HiddenLayer.W encoder = HiddenLayer.W raw /\
        HiddenLayer.b encoder = HiddenLayer.b raw /\
        HiddenLayer.W raw_decoder = Transpose (HiddenLayer.W encoder) /\
        HiddenLayer.W sde_decoder =
          Mul (Const (1 / (1 - 0.5))) (Transpose (HiddenLayer.W encoder)) /\
        HiddenLayer.b raw_decoder = Shared (n1 + i) /\
        HiddenLayer.b sde_decoder = HiddenLayer.b raw_decoder /\
        forall ρ m,
          eval ρ (HiddenLayer.W encoder) = Ok (Matrix m) ->
          eval ρ (HiddenLayer.W raw_decoder) = Ok (Matrix (transpose m)) /\
          eval ρ (HiddenLayer.W sde_decoder) =
            Ok (Matrix (map (map (fun v => v / (1 - Q2R 0.5))) (transpose m))).
Proof.
  destruct (SS_DEV_NET.__init__ (Var "x") example_params Lcg.start)
    as [[net st']|e] eqn:Hrun; [|vm_compute in Hrun; discriminate Hrun].
  destruct (dae_tied_weights (G:=Z) (Var "x") example_params Lcg.start st' net Hrun)
    as (n1 & Hw).
  exists net, st', n1. split; [reflexivity|].
  split; [rewrite (proj1 Hw); reflexivity|exact Hw].
Defined.

(** C7, as the claim words it, fails for the sde decoder.  In the network
    built from [example_params], the weight of the sde decoder of pair 0 is
    not the transpose of the encoder's weight: when the encoder's weight is
    [[1]], the transpose is [[1]] and the sde decoder computes with [[2]]. *)
Lemma sde_decoder_weight_not_transpose :
  exists net st' encoder sde_decoder,
    SS_DEV_NET.__init__ (Var "x") example_params Lcg.start = Ok (net, st') /\
    SS_DEV_NET.sde_dae_layers net !! 0%nat = Some [encoder; sde_decoder] /\
    HiddenLayer.W encoder = Shared 1 /\
    HiddenLayer.W sde_decoder <> Transpose (HiddenLayer.W encoder) /\
    eval unit_weight_env (Transpose (HiddenLayer.W encoder)) = Ok (Matrix [[1]]) /\
    eval unit_weight_env (HiddenLayer.W sde_decoder) = Ok (Matrix [[2]]).
Proof.
  eexists _, _, _, _. split; [vm_compute; reflexivity|].
  split; [reflexivity|]. split; [reflexivity|]. split; [discriminate|].
  split; [reflexivity|].
  etransitivity.
  - apply (eval_scaled_weight unit_weight_env 0.5 (Transpose (Shared 1)) [[1]]).
    + intros Heq. vm_compute in Heq. discriminate Heq.
    + reflexivity.
  - cbn [map transpose]. do 4 f_equal. rewrite Q2R_half. field.
Qed.

(** ** The cross-entropy variant *)

Lemma sigmoid_0 : sigmoid 0 = 1 / 2.
Proof. unfold sigmoid. rewrite Ropp_0, exp_0. lra. Qed.

Lemma ln_half : ln (1 / 2) = - ln 2.
Proof. unfold Rdiv. rewrite Rmult_1_l. apply ln_Rinv. lra. Qed.

Lemma ln_2_pos : 0 < ln 2.
Proof. rewrite <- ln_1. apply ln_increasing; lra. Qed.

Lemma sigmoid_bounds (x : R) : 0 < sigmoid x < 1.
Proof.
  unfold sigmoid. pose proof (exp_pos (- x)) as He.
  split.
  - apply Rdiv_lt_0_compat; lra.
  - apply (Rmult_lt_reg_r (1 + exp (- x))); [lra|].
    unfold Rdiv. rewrite Rmult_assoc, Rinv_l by lra. lra.
Qed.

Lemma sigmoid_1_ne_half : sigmoid 1 <> 1 / 2.
Proof.
  unfold sigmoid. intros Heq.
  assert (He : exp (- (1)) < 1).
  { pose proof (exp_increasing (- (1)) 0) as Hi. rewrite exp_0 in Hi.
    apply Hi. lra. }
  pose proof (exp_pos (- (1))) as Hp.
  apply (f_equal (fun v => v * (1 + exp (- (1))))) in Heq.
  unfold Rdiv in Heq. rewrite Rmult_assoc, Rinv_l in Heq by lra. lra.
Qed.

(** The cross entropy of the target 1/2 against an output [o] other than
    1/2 is above ln 2. *)
Lemma cross_entropy_half (o : R) :
  0 < o < 1 -> o <> 1 / 2 ->
  ln 2 < - (1 / 2 * ln o + (1 - 1 / 2) * ln (1 - o)).
Proof.
  intros Ho Hne.
  assert (Hprod : o * (1 - o) < 1 / 4).
  { assert (0 < (o - 1 / 2) * (o - 1 / 2)); [|lra].
    destruct (Rtotal_order o (1 / 2)) as [Hlt|[Heq|Hgt]]; [|contradiction|]; nra. }
  assert (Hln : ln (o * (1 - o)) < ln (1 / 4)).
  { apply ln_increasing; [|exact Hprod]. apply Rmult_lt_0_compat; lra. }
  rewrite ln_mult in Hln by lra.
  replace (1 / 4) with (/ (2 * 2)) in Hln by lra.
  rewrite ln_Rinv, ln_mult in Hln by lra. lra.
Qed.

(** C4 fails for selector 4.  The cross-entropy variant does not read the
    labels: its expression is the same for every label vector.  On
    [labeled_env], a batch whose only example is labeled, it evaluates to
    ln 2, and on [labeled_env'], which differs in the droppy representation
    of that labeled example only, to a larger value: the labeled example
    contributes.  The masked variance of selector 0 is undefined on the same
    batch, having no entry to average. *)
Theorem dev_loss_cross_entropy_ignores_mask :
  (forall X1 X2 Y Y',
     SS_DEV_NET._dev_loss X1 X2 Y 4 = SS_DEV_NET._dev_loss X1 X2 Y' 4) /\
  eval labeled_env (SS_DEV_NET._dev_loss (Var "x1") (Var "x2") (Var "y") 4) =
    Ok (Scalar (ln 2)) /\
  (exists v,
     eval labeled_env' (SS_DEV_NET._dev_loss (Var "x1") (Var "x2") (Var "y") 4) =
       Ok (Scalar v) /\ ln 2 < v) /\
  0 < ln 2 /\
  eval labeled_env (SS_DEV_NET._dev_loss (Var "x1") (Var "x2") (Var "y") 0) =
    Err Undefined.
Proof.
  split; [reflexivity|]. split; [|split; [|split; [exact ln_2_pos|]]].
  - eval_concrete. rewrite !sigmoid_0.
    decide_reals. do 2 f_equal.
    replace (1 - 1 / 2) with (1 / 2) by lra. rewrite ln_half. lra.
  - pose proof (sigmoid_bounds 1) as Hb.
    pose proof (cross_entropy_half (sigmoid 1) Hb sigmoid_1_ne_half) as Hce.
    eexists. split.
    + eval_concrete. rewrite !sigmoid_0. decide_reals. reflexivity.
    + lra.
  - decide_reals. reflexivity.
Qed.

(** ** Batches without an unlabeled example *)

Lemma eval_Sum_ss_mask_zero ρ Y y :
  eval ρ Y = Ok (Vector y) ->
  Forall (fun l => l <> 0) y ->
  eval ρ (Sum (ss_mask Y)) = Ok (Scalar 0).
Proof.
  intros HY Hy. rewrite eval_Sum, (eval_ss_mask _ _ _ HY). cbn [mbind res_bind].
  unfold sum_all. cbn [elements].
  rewrite rsum_mask_of, (select_unlabeled_empty _ Hy). reflexivity.
Qed.

Lemma rdiv_by_zero (s : R) :
  binop rdiv (Scalar s) (Scalar 0) = Err Undefined.
Proof.
  cbn [binop]. unfold rdiv. destruct (Req_dec_T 0 0); [reflexivity|contradiction].
Qed.

Lemma var_fun_fails ρ Y A B y :
  eval ρ Y = Ok (Vector y) ->
  Forall (fun l => l <> 0) y ->
  is_ok (eval ρ (var_fun Y A B)) = false.
Proof.
  intros HY Hy. unfold var_fun.
  change (eval ρ (Div ?n ?d)) with (x ← eval ρ n; y ← eval ρ d; binop rdiv x y).
  rewrite (eval_Sum_ss_mask_zero _ _ _ HY Hy), eval_Sum.
  destruct (eval ρ (Sqr _)) as [t|e]; [|reflexivity].
  cbn [mbind res_bind]. unfold sum_all. rewrite rdiv_by_zero. reflexivity.
Qed.

Lemma dev_loss_is_var_fun X1 X2 Y dev_type :
  dev_type <> 4%Z ->
  exists A B, SS_DEV_NET._dev_loss X1 X2 Y dev_type = var_fun Y A B.
Proof.
  intros H4. unfold SS_DEV_NET._dev_loss.
  destruct (Z.eqb dev_type 1); [eexists _, _; reflexivity|].
  destruct (Z.eqb dev_type 2); [eexists _, _; reflexivity|].
  destruct (Z.eqb dev_type 3); [eexists _, _; reflexivity|].
  destruct (Z.eqb_spec dev_type 4); [contradiction|].
  eexists _, _; reflexivity.
Qed.

Lemma eval_Mul_fails_r ρ a b :
  is_ok (eval ρ b) = false -> is_ok (eval ρ (Mul a b)) = false.
Proof.
  intros Hb. cbn [eval]. destruct (eval ρ a); [|reflexivity].
  destruct (eval ρ b); [discriminate|reflexivity].
Qed.

Lemma eval_Add_fails_l ρ a b :
  is_ok (eval ρ a) = false -> is_ok (eval ρ (Add a b)) = false.
Proof. intros Ha. cbn [eval]. destruct (eval ρ a); [discriminate|reflexivity]. Qed.

Lemma eval_Add_fails_r ρ a b :
  is_ok (eval ρ b) = false -> is_ok (eval ρ (Add a b)) = false.
Proof.
  intros Hb. cbn [eval]. destruct (eval ρ a); [|reflexivity].
  destruct (eval ρ b); [discriminate|reflexivity].
Qed.

Lemma eval_scalars_fails ρ terms :
  Exists (fun t => is_ok (eval ρ t) = false) terms ->
  is_ok (eval_scalars ρ terms) = false.
Proof.
  unfold eval_scalars. induction 1 as [t terms Ht|t terms _ IH]; cbn [traverse].
  - destruct (eval ρ t); [discriminate|reflexivity].
  - destruct (eval ρ t) as [x|]; [|reflexivity]. cbn [mbind res_bind].
    destruct (as_scalar x); [|reflexivity]. cbn [mbind res_bind].
    destruct (traverse _ terms); [discriminate|reflexivity].
Qed.

Lemma eval_Sum_Stack_fails ρ terms :
  Exists (fun t => is_ok (eval ρ t) = false) terms ->
  is_ok (eval ρ (Sum (Stack terms))) = false.
Proof.
  intros Hex%eval_scalars_fails. rewrite eval_Sum, eval_Stack.
  destruct (eval_scalars ρ terms); [discriminate|reflexivity].
Qed.

(** C9.  When the sum of the DEV weights exceeds 1e-5, some layer [i] has a
    selector other than 4, and no label of the batch is 0, then the divisor
    of the masked variance, the sum of the mask, evaluates to 0; the DEV term
    of layer [i] is undefined (a division by zero) whenever the two
    representations are matrices of matching shape; and the expression
    [dev_cost] returns has no value, so in particular not the value 0. *)
Theorem dev_cost_undefined_without_unlabeled self y joint_loss c0 ρ labels i dev_type :
  (1e-5 < SS_DEV_NET.dev_lams_sum self)%Q ->
  well_formed self c0 ->
  (SS_DEV_NET.layer_count self <= length (SS_DEV_NET.dev_types self))%nat ->
  (i < SS_DEV_NET.layer_count self)%nat ->
  SS_DEV_NET.dev_types self !! i = Some dev_type ->
  dev_type <> 4%Z ->
  eval ρ y = Ok (Vector labels) ->
  Forall (fun l => l <> 0) labels ->
  exists L,
    SS_DEV_NET.dev_cost self y joint_loss = Ok L /\
    eval ρ (Sum (ss_mask y)) = Ok (Scalar 0) /\
    (forall X1 X2 a b,
       eval ρ X1 = Ok (Matrix a) ->
       eval ρ X2 = Ok (Matrix b) ->
       length a = length labels ->
       Forall2 (fun r s => length r = length s) a b ->
       eval ρ (SS_DEV_NET._dev_loss X1 X2 y dev_type) = Err Undefined) /\
    is_ok (eval ρ L) = false /\
    eval ρ L <> Ok (Scalar 0).
Proof.
  intros Hsum Hwf Hty Hi Hdt H4 Hy Hlabels.
  apply Qltb_lt in Hsum.
  destruct (dev_cost_dev_branch self y joint_loss c0 Hsum Hwf Hty)
    as (terms & Hterms & HL).
  assert (Hreg : forall rest,
            is_ok (eval ρ (Add (Sum (Stack terms)) rest)) = false).
  { intros rest. apply eval_Add_fails_l, eval_Sum_Stack_fails.
    destruct (Forall2_lookup_l _ _ _ i i Hterms) as (t & Ht & Hat).
    { apply lookup_seq. lia. }
    apply Exists_exists. exists t. split; [eapply list_elem_of_lookup_2, Ht|].
    destruct Hat as (raw & clone & dt & _ & _ & Hdt' & ->).
    rewrite Hdt in Hdt'. injection Hdt' as <-.
    apply eval_Mul_fails_r.
    destruct (dev_loss_is_var_fun (dev_rep self i raw) (dev_rep self i clone)
                y dev_type H4) as (A & B & ->).
    eapply var_fun_fails; eassumption. }
  assert (HLfail : forall L, SS_DEV_NET.dev_cost self y joint_loss = Ok L ->
                     is_ok (eval ρ L) = false).
  { intros L HL'. rewrite HL in HL'. cbv zeta in HL'. injection HL' as <-.
    destruct (py_eq_int joint_loss 1); [apply eval_Add_fails_r|]; apply Hreg. }
  eexists. split; [exact HL|].
  split; [exact (eval_Sum_ss_mask_zero ρ y labels Hy Hlabels)|]. split.
  - intros X1 X2 a b H1 H2 Hlen Hab.
    destruct (dev_loss_var_fun ρ X1 X2 y dev_type a b H4 H1 H2)
      as (A & B & -> & HA & HB).
    rewrite (eval_var_fun ρ y A B labels _ _ Hy HA HB).
    + rewrite (select_unlabeled_empty _ Hlabels). cbn [length INR].
      destruct (Req_dec_T 0 0); [reflexivity|contradiction].
    + rewrite dev_transform_length. exact Hlen.
    + apply dev_transform_same_shape, Hab.
  - split; [apply HLfail, HL|].
    intros Hval. pose proof (HLfail _ HL) as Hf. rewrite Hval in Hf. discriminate Hf.
Qed.

Lemma dev_cost_undefined_without_unlabeled_witness :
  exists net st' L,
    SS_DEV_NET.__init__ (Var "x") example_params Lcg.start = Ok (net, st') /\
    SS_DEV_NET.dev_cost net (Var "y") (PyInt 1) = Ok L /\
    eval all_labeled_env (Sum (ss_mask (Var "y"))) = Ok (Scalar 0) /\
    (forall X1 X2 a b,
       eval all_labeled_env X1 = Ok (Matrix a) ->
       eval all_labeled_env X2 = Ok (Matrix b) ->
       length a = length [1; 2] ->
       Forall2 (fun r s => length r = length s) a b ->
       eval all_labeled_env (SS_DEV_NET._dev_loss X1 X2 (Var "y") 0) =
         Err Undefined) /\
    is_ok (eval all_labeled_env L) = false /\
    eval all_labeled_env L <> Ok (Scalar 0).
Proof.
  destruct (SS_DEV_NET.__init__ (Var "x") example_params Lcg.start)
    as [[net st']|e] eqn:Hrun; [|vm_compute in Hrun; discriminate Hrun].
  destruct (init_well_formed (G:=Z) _ _ _ _ _ Hrun) as [c0 Hwf].
  vm_compute in Hrun. injection Hrun as <- <-.
  pose proof (fun H1 H3 H4 H5 H6 H7 H8 =>
    dev_cost_undefined_without_unlabeled _ (Var "y") (PyInt 1) c0
      all_labeled_env [1; 2] 0%nat 0%Z H1 Hwf H3 H4 H5 H6 H7 H8) as Hthm.
  destruct Hthm as (L & HL).
  - reflexivity.
  - cbn. lia.
  - cbn. lia.
  - reflexivity.
  - discriminate.
  - reflexivity.
  - repeat constructor; lra.
  - eexists _, _, L. split; [reflexivity|exact HL].
Defined.

Lemma dev_cost_joint_flag_witness :
  exists net st' L class_loss reg_loss,
    SS_DEV_NET.__init__ (Var "x") example_params Lcg.start = Ok (net, st') /\
    SS_DEV_NET.dev_cost net (Var "y") (PyInt 1) = Ok L /\
    Qltb 1e-5 (SS_DEV_NET.dev_lams_sum net) = true /\
    SS_DEV_NET.layer_count net = 2%nat /\
    L = Add class_loss reg_loss /\
    (if Qltb 1e-5 (SS_DEV_NET.dev_lams_sum net) then
       class_loss =
         Add (Mul (Const (SS_DEV_NET.dev_mix_rate net))
                (SS_DEV_NET.raw_class_loss net (Var "y")))
             (Mul (Const (1 - SS_DEV_NET.dev_mix_rate net))
                (SS_DEV_NET.sde_class_loss net (Var "y"))) /\
       exists dev_losses,
         Forall2 (fun i term =>
                    exists c0,
                      SS_DEV_NET.dev_clones net !! 0%nat = Some c0 /\
                      dev_term_at net (Var "y") c0 i term)
           (seq 0 (SS_DEV_NET.layer_count net)) dev_losses /\
         reg_loss =
           Add (Sum (Stack dev_losses))
               (Mul (Const 0.5)
                  (Add (SS_DEV_NET.raw_reg_loss net)
                     (SS_DEV_NET.sde_reg_loss net)))
     else
       class_loss = loss_func (SS_DEV_NET.raw_out_func net) (Var "y") /\
       reg_loss = SS_DEV_NET.raw_reg_loss net) /\
    (forall joint_loss,
       SS_DEV_NET.dev_cost net (Var "y") joint_loss =
         Ok (if py_eq_int joint_loss 1 then Add class_loss reg_loss
             else reg_loss)) /\
    SS_DEV_NET.dev_cost net (Var "y") (PyInt 2) = Ok reg_loss /\
    SS_DEV_NET.dev_reg_loss net (Var "y") = Ok reg_loss /\
    (forall z, py_eq_int (PyInt z) 1 = true <-> z = 1%Z).
Proof.
  destruct (SS_DEV_NET.__init__ (Var "x") example_params Lcg.start)
    as [[net st']|e] eqn:Hrun; [|vm_compute in Hrun; discriminate Hrun].
  destruct (SS_DEV_NET.dev_cost net (Var "y") (PyInt 1)) as [L|e] eqn:HL.
  - destruct (dev_cost_joint_flag net (Var "y") L HL) as (c & r & Hw).
    exists net, st', L, c, r. split; [reflexivity|]. split; [exact HL|].
    split; [vm_compute in Hrun; injection Hrun as <- <-; reflexivity|].
    split; [vm_compute in Hrun; injection Hrun as <- <-; reflexivity|].
    exact Hw.
  - exfalso. vm_compute in Hrun. injection Hrun as <- <-.
    vm_compute in HL. discriminate HL.
Defined.

Lemma dev_cost_regularized_witness :
  exists net st' L craw csde graw gsde lams devs,
    SS_DEV_NET.__init__ (Var "x") example_params Lcg.start = Ok (net, st') /\
    eval example_env (SS_DEV_NET.raw_class_loss net (Var "y")) = Ok (Scalar craw) /\
    eval example_env (SS_DEV_NET.sde_class_loss net (Var "y")) = Ok (Scalar csde) /\
    eval example_env (SS_DEV_NET.raw_reg_loss net) = Ok (Scalar graw) /\
    eval example_env (SS_DEV_NET.sde_reg_loss net) = Ok (Scalar gsde) /\
    length lams = SS_DEV_NET.layer_count net /\
    length devs = SS_DEV_NET.layer_count net /\
    SS_DEV_NET.dev_cost net (Var "y") (PyInt 1) = Ok L /\
    eval example_env L =
      Ok (Scalar
            ((Q2R (SS_DEV_NET.dev_mix_rate net) * craw +
              (1 - Q2R (SS_DEV_NET.dev_mix_rate net)) * csde) +
             (rsum (zip_with Rmult lams devs) + 0.5 * graw + 0.5 * gsde))).
Proof.
  destruct (SS_DEV_NET.__init__ (Var "x") example_params Lcg.start)
    as [[net0 st']|e] eqn:Hrun; [|vm_compute in Hrun; discriminate Hrun].
  destruct (init_well_formed (G:=Z) _ _ _ _ _ Hrun) as [c0 Hwf].
  vm_compute in Hrun. injection Hrun as <- <-.
  pose proof Hwf as (_ & Hc0 & _). injection Hc0 as <-.
  match type of Hwf with well_formed ?n _ => set (net := n) in * end.
  assert (Hcraw : exists v, eval example_env
     (SS_DEV_NET.raw_class_loss net (Var "y")) = Ok (Scalar v))
    by (eexists; decide_reals; reflexivity).
  assert (Hcsde : exists v, eval example_env
     (SS_DEV_NET.sde_class_loss net (Var "y")) = Ok (Scalar v))
    by (eexists; decide_reals; reflexivity).
  assert (Hgraw : exists v, eval example_env
     (SS_DEV_NET.raw_reg_loss net) = Ok (Scalar v))
    by (eexists; decide_reals; reflexivity).
  assert (Hgsde : exists v, eval example_env
     (SS_DEV_NET.sde_reg_loss net) = Ok (Scalar v))
    by (eexists; decide_reals; reflexivity).
  match type of Hwf with well_formed _ ?c => set (c0 := c) in * end.
  assert (Hlams : exists lams, Forall2 (fun i lam =>
     eval example_env (Subtensor (SS_DEV_NET.dev_lams net) i) = Ok (Scalar lam))
     (seq 0 (SS_DEV_NET.layer_count net)) lams)
    by (eexists [_; _]; repeat constructor).
  assert (Hdevs : exists devs, Forall2 (fun i d => forall raw clone dev_type,
     SS_DEV_NET.mlp_layers net !! i = Some raw ->
     c0 !! i = Some clone ->
     SS_DEV_NET.dev_types net !! i = Some dev_type ->
     eval example_env (SS_DEV_NET._dev_loss
       (if Nat.ltb i (SS_DEV_NET.layer_count net - 1)
        then HiddenLayer.output raw else HiddenLayer.linear_output raw)
       (if Nat.ltb i (SS_DEV_NET.layer_count net - 1)
        then HiddenLayer.output clone else HiddenLayer.linear_output clone)
       (Var "y") dev_type) = Ok (Scalar d))
     (seq 0 (SS_DEV_NET.layer_count net)) devs).
  { eexists [_; _].
    constructor; [|constructor; [|constructor]];
      intros raw clone dev_type [= <-] [= <-] [= <-];
      decide_reals; reflexivity. }
  destruct Hcraw as [craw Hcraw], Hcsde as [csde Hcsde],
    Hgraw as [graw Hgraw], Hgsde as [gsde Hgsde],
    Hlams as [lams Hlams], Hdevs as [devs Hdevs].
  destruct (dev_cost_regularized net (Var "y") (PyInt 1) c0 example_env
              craw csde graw gsde lams devs) as (L & HL & Hval);
    [reflexivity|exact Hwf|cbn; lia|assumption..|].
  eexists net, _, L, craw, csde, graw, gsde, lams, devs.
  split; [reflexivity|]. split; [exact Hcraw|]. split; [exact Hcsde|].
  split; [exact Hgraw|]. split; [exact Hgsde|].
  split; [apply Forall2_length in Hlams; rewrite <- Hlams; apply length_seq|].
  split; [apply Forall2_length in Hdevs; rewrite <- Hdevs; apply length_seq|].
  split; [exact HL|exact Hval].
Defined.

(** ** The constructor of the network succeeds *)

Lemma foldM_total {G S A} (f : S -> A -> build G S)
    (I : list A -> S -> builder G -> Prop) (l : list A) :
  (forall done x rest s st,
     l = done ++ x :: rest -> I done s st ->
     exists s' st', f s x st = Ok (s', st') /\ I (done ++ [x]) s' st') ->
  forall s st, I [] s st ->
    exists s' st', foldM f s l st = Ok (s', st') /\ I l s' st'.
Proof.
  intros Hstep.
  enough (Hgen : forall rest done s st,
             l = done ++ rest -> I done s st ->
             exists s' st', foldM f s rest st = Ok (s', st') /\ I l s' st').
  { intros s st HI. exact (Hgen l [] s st eq_refl HI). }
  induction rest as [|x rest IH]; intros done s st Hl HI.
  - exists s, st. rewrite app_nil_r in Hl. subst l. split; [reflexivity|exact HI].
  - destruct (Hstep done x rest s st Hl HI) as (s1 & st1 & Hf & HI1).
    destruct (IH (done ++ [x]) s1 st1) as (s' & st' & Hrun & HI');
      [rewrite <- app_assoc; exact Hl|exact HI1|].
    exists s', st'. split; [|exact HI'].
    cbn [foldM]. unfold mbind, build_bind. rewrite Hf. exact Hrun.
Qed.

Section Total.
Context {G : Type} `{RandomState G} `{output_losses}.

Lemma clone_loop_total act_fun use_bias K n_in n_out c0 (st : builder G) :
  length (SS_DEV_NET.ch_dev_clones c0) = K ->
  length (SS_DEV_NET.next_drop_inputs c0) = K ->
  SS_DEV_NET.ch_mlp_layers c0 <> [] ->
  exists c st',
    foldM (SS_DEV_NET.clone_step act_fun use_bias n_in n_out) c0 (seq 0 K) st =
      Ok (c, st').
Proof.
  intros HlenC HlenI Hmlp.
  destruct (foldM_total (SS_DEV_NET.clone_step act_fun use_bias n_in n_out)
              (fun _ c _ =>
                 length (SS_DEV_NET.ch_dev_clones c) = K /\
                 length (SS_DEV_NET.next_drop_inputs c) = K /\
                 SS_DEV_NET.ch_mlp_layers c <> []) (seq 0 K)) with (s := c0) (st := st)
    as (c & st' & Hrun & _); [|auto|eauto].
  intros done i rest c s Hseq (HC & HI & Hne).
  apply seq_split in Hseq as [-> HiK].
  destruct (lookup_lt_is_Some_2 (SS_DEV_NET.ch_dev_clones c) (length done))
    as [clone Hclone]; [lia|].
  destruct (lookup_lt_is_Some_2 (SS_DEV_NET.next_drop_inputs c) (length done))
    as [inp Hinp]; [lia|].
  destruct (last (SS_DEV_NET.ch_mlp_layers c)) as [raw|] eqn:Hlast;
    [|apply last_None in Hlast; contradiction].
  destruct (HiddenLayer_init_total inp n_in n_out (Some act_fun)
              (if SS_DEV_NET.first_layer c then 0.2 else 0.5)%Q
              (Some (HiddenLayer.W raw)) (Some (HiddenLayer.b raw)) use_bias s)
    as (lay & s' & Hlay).
  { intros _ Heq. destruct (SS_DEV_NET.first_layer c);
      vm_compute in Heq; discriminate Heq. }
  eexists _, s'. split.
  - unfold SS_DEV_NET.clone_step, mbind, build_bind, lift, py_index, py_last.
    rewrite Hclone, Hinp, Hlast. cbn [from_option]. rewrite Hlay. reflexivity.
  - cbn [SS_DEV_NET.ch_dev_clones SS_DEV_NET.next_drop_inputs
      SS_DEV_NET.ch_mlp_layers]. rewrite !length_insert. auto.
Qed.

Lemma layer_loop_total act_fun use_bias K sizes c0 (st : builder G) :
  length (SS_DEV_NET.ch_dev_clones c0) = K ->
  length (SS_DEV_NET.next_drop_inputs c0) = K ->
  exists c st',
    foldM (SS_DEV_NET.layer_step act_fun use_bias K) c0 sizes st = Ok (c, st').
Proof.
  intros HlenC HlenI.
  destruct (foldM_total (SS_DEV_NET.layer_step act_fun use_bias K)
              (fun _ c _ =>
                 length (SS_DEV_NET.ch_dev_clones c) = K /\
                 length (SS_DEV_NET.next_drop_inputs c) = K) sizes)
    with (s := c0) (st := st) as (c & st' & Hrun & _); [|auto|eauto].
  intros done [n_in n_out] rest c s _ (HC & HI).
  destruct (HiddenLayer_init_total (SS_DEV_NET.next_raw_input c) n_in n_out
              (Some act_fun) 0%Q None None use_bias s) as (raw & s1 & Hraw).
  { intros Hf. discriminate Hf. }
  destruct (clone_loop_total act_fun use_bias K n_in n_out
              {| SS_DEV_NET.ch_clip_params :=
                   SS_DEV_NET.clip (HiddenLayer.b raw) 0
                     (SS_DEV_NET.clip (HiddenLayer.W raw) 1
                        (SS_DEV_NET.ch_clip_params c));
                 SS_DEV_NET.ch_mlp_layers := SS_DEV_NET.ch_mlp_layers c ++ [raw];
                 SS_DEV_NET.ch_dev_clones := SS_DEV_NET.ch_dev_clones c;
                 SS_DEV_NET.next_raw_input := HiddenLayer.output raw;
                 SS_DEV_NET.next_drop_inputs := SS_DEV_NET.next_drop_inputs c;
                 SS_DEV_NET.first_layer := SS_DEV_NET.first_layer c |} s1)
    as (c2 & s2 & Hloop); [exact HC|exact HI| |].
  { cbn [SS_DEV_NET.ch_mlp_layers]. intros Hnil.
    apply app_eq_nil in Hnil as [_ [=]]. }
  assert (Hinv : length (SS_DEV_NET.ch_dev_clones c2) = K /\
                 length (SS_DEV_NET.next_drop_inputs c2) = K).
  { refine (foldM_invariant _
      (fun _ c (_ : builder G) =>
         length (SS_DEV_NET.ch_dev_clones c) = K /\
         length (SS_DEV_NET.next_drop_inputs c) = K) _ _ _ _ _ _ _ Hloop).
    - intros d i r c1 t1 c1' t1' _ [H1 H2] Hstep.
      apply clone_step_Ok in Hstep as (? & ? & ? & ? & _ & _ & _ & _ & ->).
      cbn [SS_DEV_NET.ch_dev_clones SS_DEV_NET.next_drop_inputs].
      rewrite !length_insert. auto.
    - cbn [SS_DEV_NET.ch_dev_clones SS_DEV_NET.next_drop_inputs]. auto. }
  eexists _, s2. split.
  - unfold SS_DEV_NET.layer_step, mbind, build_bind. rewrite Hraw, Hloop.
    reflexivity.
  - exact Hinv.
Qed.

Lemma masking_noise_total input nz_lvl (st : builder G) :
  exists e st', SS_DEV_NET._masking_noise input nz_lvl st = Ok (e, st').
Proof.
  unfold SS_DEV_NET._masking_noise, mbind, build_bind, rng_randint.
  destruct (randint 100000 (rng st)). eauto.
Qed.

Lemma dae_layer_loop_total act_fun mlp nz_lvl n d0 (st : builder G) :
  (n <= length mlp)%nat ->
  exists d st',
    foldM (SS_DEV_NET.dae_layer_step act_fun mlp nz_lvl) d0 (seq 0 n) st =
      Ok (d, st').
Proof.
  intros Hn.
  destruct (foldM_total (SS_DEV_NET.dae_layer_step act_fun mlp nz_lvl)
              (fun _ _ _ => True) (seq 0 n)) with (s := d0) (st := st)
    as (d & st' & Hrun & _); [|exact I|eauto].
  intros done i rest d s Hseq _. apply seq_split in Hseq as [-> Hi].
  destruct (lookup_lt_is_Some_2 mlp (length done)) as [l Hl]; [lia|].
  destruct (masking_noise_total (HiddenLayer.input l) nz_lvl s)
    as (input_enc & s1 & Hnoise).
  destruct (HiddenLayer_init_total input_enc (HiddenLayer.in_dim l)
              (HiddenLayer.out_dim l) (Some act_fun) 0%Q
              (Some (HiddenLayer.W l)) (Some (HiddenLayer.b l)) true s1)
    as (encoder & s2 & Henc); [intros Hf; discriminate Hf|].
  destruct (HiddenLayer_init_total (HiddenLayer.output encoder)
              (HiddenLayer.out_dim l) (HiddenLayer.in_dim l) (Some act_fun) 0%Q
              (Some (Transpose (HiddenLayer.W l))) None true s2)
    as (raw_decoder & s3 & Hrd); [intros Hf; discriminate Hf|].
  destruct (HiddenLayer_init_total (HiddenLayer.output encoder)
              (HiddenLayer.out_dim l) (HiddenLayer.in_dim l) (Some act_fun) 0.5%Q
              (Some (Transpose (HiddenLayer.W l)))
              (Some (HiddenLayer.b raw_decoder)) true s3)
    as (sde_decoder & s4 & Hsd);
    [intros _ Heq; vm_compute in Heq; discriminate Heq|].
  eexists _, s4. split; [|exact I].
  unfold SS_DEV_NET.dae_layer_step, mbind, build_bind, lift, py_index.
  rewrite Hl. cbn [from_option]. rewrite Hnoise, Henc, Hrd, Hsd. reflexivity.
Qed.

Lemma dae_loss_loop_total using_sigmoid mlp lam_l1 n1 n d0 (st : builder G) :
  (n <= length mlp)%nat ->
  (forall i, (i < n)%nat -> dae_pair_at mlp n1 d0 i) ->
  exists d st',
    foldM (fun d i => lift (SS_DEV_NET.dae_loss_step using_sigmoid mlp lam_l1 d i))
      d0 (seq 0 n) st = Ok (d, st').
Proof.
  intros Hn Hpairs.
  destruct (foldM_total
              (fun d i => lift (SS_DEV_NET.dae_loss_step using_sigmoid mlp lam_l1 d i))
              (fun _ d (_ : builder G) =>
                 SS_DEV_NET.dae_raw_layers d = SS_DEV_NET.dae_raw_layers d0 /\
                 SS_DEV_NET.dae_sde_layers d = SS_DEV_NET.dae_sde_layers d0)
              (seq 0 n)) with (s := d0) (st := st)
    as (d & st' & Hrun & _); [|auto|eauto].
  intros done i rest d s Hseq [E1 E2]. apply seq_split in Hseq as [-> Hi].
  destruct (Hpairs _ Hi) as (raw & e & rd & sd & Hraw & Hr & Hs & _).
  assert (Hstep : exists d',
            SS_DEV_NET.dae_loss_step using_sigmoid mlp lam_l1 d (length done) = Ok d' /\
            SS_DEV_NET.dae_raw_layers d' = SS_DEV_NET.dae_raw_layers d0 /\
            SS_DEV_NET.dae_sde_layers d' = SS_DEV_NET.dae_sde_layers d0).
  { unfold SS_DEV_NET.dae_loss_step, py_index.
    rewrite Hraw, E1, E2, Hr, Hs.
    cbn [from_option mbind res_bind lookup list_lookup].
    destruct (Z.eqb using_sigmoid 1); eexists; (split; [reflexivity|auto]). }
  destruct Hstep as (d' & Hd' & Hkeep).
  exists d', s. unfold lift. rewrite Hd'. split; [reflexivity|exact Hkeep].
Qed.

Lemma construct_dae_layers_total act_fun using_sigmoid mlp clip lam_l1 nz_lvl
    (st : builder G) :
  exists d st',
    SS_DEV_NET._construct_dae_layers act_fun using_sigmoid mlp clip lam_l1 nz_lvl st =
      Ok (d, st').
Proof.
  unfold SS_DEV_NET._construct_dae_layers.
  destruct (dae_layer_loop_total act_fun mlp nz_lvl (length mlp - 1)
              (SS_DEV_NET.Dae clip [] [] [] [] []) st) as (d1 & s1 & Hlayers);
    [lia|].
  pose proof Hlayers as Hinv.
  eapply (dae_layer_step_invariant _ _ _ (next_id st)) in Hinv.
  - destruct Hinv as (_ & _ & _ & _ & Hpairs). rewrite length_seq in Hpairs.
    destruct (dae_loss_loop_total using_sigmoid mlp lam_l1 (next_id st)
                (length mlp - 1) d1 s1) as (d & s2 & Hlosses); [lia|exact Hpairs|].
    exists d, s2. unfold mbind, build_bind. rewrite Hlayers. exact Hlosses.
  - intros i Hi%elem_of_seq. lia.
  - rewrite length_seq. reflexivity.
  - unfold dae_inv. cbn. repeat split; try lia.
Qed.

(** With at least one clone and at least two layer sizes, that is at least
    one layer, [SS_DEV_NET.__init__] returns a network. *)
Theorem SS_DEV_NET_init_total input params (st : builder G) :
  (1 <= Params.dev_clones params)%nat ->
  (2 <= length (Params.layer_sizes params))%nat ->
  exists net st', SS_DEV_NET.__init__ input params st = Ok (net, st').
Proof.
  intros HK Hsizes. unfold SS_DEV_NET.__init__.
  set (start := {| SS_DEV_NET.ch_clip_params := ∅;
                   SS_DEV_NET.ch_mlp_layers := [];
                   SS_DEV_NET.ch_dev_clones := replicate (Params.dev_clones params) [];
                   SS_DEV_NET.next_raw_input := input;
                   SS_DEV_NET.next_drop_inputs :=
                     replicate (Params.dev_clones params) input;
                   SS_DEV_NET.first_layer := true |}).
  set (sizes := zip (Params.layer_sizes params) (tail (Params.layer_sizes params))).
  set (st0 := Builder (rng st) (S (next_id st))
                (<[next_id st := Array1 (Params.dev_lams params)]> (initial st))).
  destruct (layer_loop_total (fun x => Sigmoid x) (Params.use_bias params)
              (Params.dev_clones params) sizes start st0) as (c & st1 & Hmain);
    [apply length_replicate..|].
  pose proof Hmain as Hinv.
  eapply (main_loop_invariant _ _ _ (S (next_id st))) in Hinv.
  2:{ unfold main_inv. subst start.
      cbn [SS_DEV_NET.ch_mlp_layers SS_DEV_NET.first_layer
        SS_DEV_NET.ch_dev_clones SS_DEV_NET.next_drop_inputs length next_id].
      rewrite !length_replicate.
      split; [reflexivity|]. split; [subst st0; cbn; lia|]. split; [reflexivity|].
      split; [reflexivity|]. split; [reflexivity|]. split.
      - intros j raw Hj. discriminate Hj.
      - intros i clone [-> _]%lookup_replicate. split; [reflexivity|].
        intros j lay Hj. discriminate Hj. }
  destruct Hinv as (Hlen & _ & _ & HlenC & _ & _ & Hcl).
  assert (Hpos : (1 <= length (SS_DEV_NET.ch_mlp_layers c))%nat).
  { rewrite Hlen. subst sizes. rewrite length_zip_with.
    destruct (Params.layer_sizes params) as [|a [|b l]]; cbn in *; lia. }
  destruct (construct_dae_layers_total (fun x => Sigmoid x) 1%Z
              (SS_DEV_NET.ch_mlp_layers c) (SS_DEV_NET.ch_clip_params c)
              0.01%Q 0.25%Q st1) as (d & st2 & Hdae).
  destruct (last (SS_DEV_NET.ch_mlp_layers c)) as [raw_top|] eqn:Hraw.
  2:{ apply last_None in Hraw. rewrite Hraw in Hpos. cbn in Hpos. lia. }
  destruct (lookup_lt_is_Some_2 (SS_DEV_NET.ch_dev_clones c) 0) as [clone0 Hc0];
    [lia|].
  destruct (Hcl _ _ Hc0) as [Hlen0 _].
  destruct (last clone0) as [sde_top|] eqn:Hsde.
  2:{ apply last_None in Hsde. rewrite Hsde in Hlen0. cbn in Hlen0. lia. }
  eexists _, st2.
  unfold mbind, build_bind, theano_shared, lift, py_last, py_index.
  fold st0. fold start. fold sizes. rewrite Hmain, Hdae, Hraw. cbn [from_option].
  rewrite Hc0. cbn [from_option]. rewrite Hsde. reflexivity.
Qed.
End Total.

(** * Further properties of the module *)

(** ** When the constructors fail *)

Lemma Qltb_one_false (drop_rate : Q) :
  (drop_rate == 1)%Q -> Qltb drop_rate 0.01 = false.
Proof. intros Heq. apply Qltb_ge. rewrite Heq. discriminate. Qed.

Lemma rescaled_one (drop_rate : Q) (W : texpr) :
  (drop_rate == 1)%Q -> HiddenLayer.rescaled drop_rate W = Err ZeroDivisionError.
Proof.
  intros Heq. unfold HiddenLayer.rescaled, py_div.
  rewrite (Qltb_one_false _ Heq).
  replace (Qeq_bool (1 - drop_rate) 0) with true; [reflexivity|].
  symmetry. apply Qeq_bool_iff. rewrite Heq. reflexivity.
Qed.

Section LayerOutcome.
Context {G : Type} `{RandomState G}.

(** X1.  The constructor of a layer returns a layer for every drop rate but 1,
    and for a drop rate of 1 it raises ZeroDivisionError, whatever the other
    arguments are: the rescaling 1 / (1 - drop_rate) is computed even when
    the weight is supplied. *)
Theorem HiddenLayer_init_outcome input n_in n_out act drop_rate Wo bo use_bias
    (st : builder G) :
  (is_ok (HiddenLayer.__init__ input n_in n_out act drop_rate Wo bo use_bias st) = true
   <-> ~ (drop_rate == 1)%Q) /\
  ((drop_rate == 1)%Q ->
   HiddenLayer.__init__ input n_in n_out act drop_rate Wo bo use_bias st =
     Err ZeroDivisionError).
Proof.
  assert (Hfail : (drop_rate == 1)%Q ->
    HiddenLayer.__init__ input n_in n_out act drop_rate Wo bo use_bias st =
      Err ZeroDivisionError).
  { intros Heq. pose proof (fun W => rescaled_one drop_rate W Heq) as HR.
    pose proof (Qltb_one_false _ Heq) as Hlt.
    unfold HiddenLayer.__init__, HiddenLayer._drop_from_input.
    unfold mbind, build_bind, mret, build_ret, lift, rng_randint,
      rng_standard_normal, theano_shared.
    rewrite Hlt. destruct (randint 100000 (rng st)) as [seed g]. cbn.
    destruct Wo, bo; cbn;
      repeat (match goal with
              | |- context [standard_normal ?n ?m ?g] =>
                  destruct (standard_normal n m g)
              end; cbn);
      rewrite HR; reflexivity. }
  split; [|exact Hfail]. split.
  - intros Hok Heq. rewrite (Hfail Heq) in Hok. discriminate Hok.
  - intros Hne.
    destruct (HiddenLayer_init_total input n_in n_out act drop_rate Wo bo
                use_bias st (fun _ => Hne)) as (layer & st' & ->).
    reflexivity.
Qed.
End LayerOutcome.

Lemma HiddenLayer_init_outcome_witness :
  HiddenLayer.__init__ (Var "x") 2 1 (Some Sigmoid) 1
    (Some (Shared 0)) (Some (Shared 1)) true Lcg.start = Err ZeroDivisionError.
Proof.
  apply (proj2 (HiddenLayer_init_outcome (G:=Z) (Var "x") 2 1 (Some Sigmoid) 1
                  (Some (Shared 0)) (Some (Shared 1)) true Lcg.start)).
  reflexivity.
Defined.

Section NetworkOutcome.
Context {G : Type} `{RandomState G} `{output_losses}.

(** X2.  [SS_DEV_NET.__init__] returns a network exactly when it is asked for at
    least one clone and given at least two layer sizes (one layer); in every
    other case it raises IndexError: with fewer than two sizes at
    [self.mlp_layers[-1]], without a clone at [self.dev_clones[0]]. *)
Theorem SS_DEV_NET_init_outcome input params (st : builder G) :
  (is_ok (SS_DEV_NET.__init__ input params st) = true <->
   (1 <= Params.dev_clones params)%nat /\
   (2 <= length (Params.layer_sizes params))%nat) /\
  ((Params.dev_clones params = 0%nat \/
    (length (Params.layer_sizes params) < 2)%nat) ->
   SS_DEV_NET.__init__ input params st = Err IndexError).
Proof.
  assert (Hfail : (Params.dev_clones params = 0%nat \/
                   (length (Params.layer_sizes params) < 2)%nat) ->
                  SS_DEV_NET.__init__ input params st = Err IndexError).
  { intros Hbad. unfold SS_DEV_NET.__init__.
    set (start := {| SS_DEV_NET.ch_clip_params := ∅;
                     SS_DEV_NET.ch_mlp_layers := [];
                     SS_DEV_NET.ch_dev_clones :=
                       replicate (Params.dev_clones params) [];
                     SS_DEV_NET.next_raw_input := input;
                     SS_DEV_NET.next_drop_inputs :=
                       replicate (Params.dev_clones params) input;
                     SS_DEV_NET.first_layer := true |}).
    set (sizes := zip (Params.layer_sizes params) (tail (Params.layer_sizes params))).
    set (st0 := Builder (rng st) (S (next_id st))
                  (<[next_id st := Array1 (Params.dev_lams params)]> (initial st))).
    destruct (layer_loop_total (fun x => Sigmoid x) (Params.use_bias params)
                (Params.dev_clones params) sizes start st0) as (c & st1 & Hmain);
      [apply length_replicate..|].
    pose proof Hmain as Hinv.
    eapply (main_loop_invariant _ _ _ (S (next_id st))) in Hinv.
    2:{ unfold main_inv. subst start.
        cbn [SS_DEV_NET.ch_mlp_layers SS_DEV_NET.first_layer
          SS_DEV_NET.ch_dev_clones SS_DEV_NET.next_drop_inputs length next_id].
        rewrite !length_replicate.
        split; [reflexivity|]. split; [subst st0; cbn; lia|]. split; [reflexivity|].
        split; [reflexivity|]. split; [reflexivity|]. split.
        - intros j raw Hj. discriminate Hj.
        - intros i clone [-> _]%lookup_replicate. split; [reflexivity|].
          intros j lay Hj. discriminate Hj. }
    destruct Hinv as (Hlen & _ & _ & HlenC & _ & _ & _).
    destruct (construct_dae_layers_total (fun x => Sigmoid x) 1%Z
                (SS_DEV_NET.ch_mlp_layers c) (SS_DEV_NET.ch_clip_params c)
                0.01%Q 0.25%Q st1) as (d & st2 & Hdae).
    unfold mbind, build_bind, theano_shared, lift, py_last, py_index.
    fold st0. fold start. fold sizes. rewrite Hmain, Hdae.
    destruct (last (SS_DEV_NET.ch_mlp_layers c)) as [raw_top|] eqn:Hraw;
      [|reflexivity].
    cbn [from_option].
    destruct (SS_DEV_NET.ch_dev_clones c !! 0%nat) as [clone0|] eqn:Hc0;
      [|reflexivity].
    exfalso. apply lookup_lt_Some in Hc0.
    destruct Hbad as [HK|Hsizes]; [lia|].
    assert (Hnil : sizes = []).
    { subst sizes. destruct (Params.layer_sizes params) as [|a [|b l]];
        [reflexivity..|cbn in Hsizes; lia]. }
    rewrite Hnil in Hlen. destruct (SS_DEV_NET.ch_mlp_layers c); [|discriminate Hlen].
    discriminate Hraw. }
  split; [|exact Hfail]. split.
  - intros Hok.
    destruct (decide (Params.dev_clones params = 0%nat)) as [HK|HK];
      [rewrite Hfail in Hok by auto; discriminate Hok|].
    destruct (decide (length (Params.layer_sizes params) < 2)%nat) as [Hs|Hs];
      [rewrite Hfail in Hok by auto; discriminate Hok|].
    lia.
  - intros [HK Hs].
    destruct (SS_DEV_NET_init_total input params st HK Hs) as (net & st' & ->).
    reflexivity.
Qed.
End NetworkOutcome.

Lemma SS_DEV_NET_init_outcome_witness :
  SS_DEV_NET.__init__ (Var "x") no_clone_params Lcg.start = Err IndexError.
Proof.
  apply (proj2 (SS_DEV_NET_init_outcome (G:=Z) (Var "x") no_clone_params Lcg.start)).
  left. reflexivity.
Defined.

(** ** When [dev_cost] fails *)

Lemma dev_cost_step_types self y acc i acc' :
  SS_DEV_NET.dev_cost_step self y acc i = Ok acc' ->
  is_Some (SS_DEV_NET.dev_types self !! i).
Proof.
  unfold SS_DEV_NET.dev_cost_step. intros Hstep.
  destruct (if Nat.ltb i (SS_DEV_NET.layer_count self - 1) then _ else _)
    as [[x1 x2]|e]; cbn [mbind res_bind] in Hstep; [|discriminate Hstep].
  unfold py_index in Hstep.
  destruct (SS_DEV_NET.dev_types self !! i) as [t|]; [eauto|discriminate Hstep].
Qed.

Lemma dev_cost_loop_short self y range :
  Exists (fun i => SS_DEV_NET.dev_types self !! i = None) range ->
  forall acc, is_ok (SS_DEV_NET.dev_cost_loop self y acc range) = false.
Proof.
  induction 1 as [i range Hi|i range _ IH]; intros acc;
    cbn [SS_DEV_NET.dev_cost_loop];
    destruct (SS_DEV_NET.dev_cost_step self y acc i) as [acc'|e] eqn:Hstep;
    cbn [mbind res_bind]; try reflexivity.
  - apply dev_cost_step_types in Hstep as [t Ht]. congruence.
  - apply IH.
Qed.

Lemma py_index_error {A} (l : list A) (i : nat) (e : py_exn) :
  py_index l i = Err e -> e = IndexError.
Proof. unfold py_index. destruct (l !! i); cbn; congruence. Qed.

Lemma dev_cost_step_error self y acc i e :
  SS_DEV_NET.dev_cost_step self y acc i = Err e -> e = IndexError.
Proof.
  unfold SS_DEV_NET.dev_cost_step. intros Hstep.
  repeat (match type of Hstep with
          | context [py_index ?l ?k] =>
              let Hk := fresh "Hk" in
              destruct (py_index l k) eqn:Hk; cbn [mbind res_bind] in Hstep;
              [|apply py_index_error in Hk; congruence]
          | context [Nat.ltb ?a ?b] => destruct (Nat.ltb a b)
          end);
    discriminate Hstep.
Qed.

Lemma dev_cost_loop_error self y range :
  forall acc e, SS_DEV_NET.dev_cost_loop self y acc range = Err e -> e = IndexError.
Proof.
  induction range as [|i range IH]; intros acc e Hloop;
    cbn [SS_DEV_NET.dev_cost_loop] in Hloop; [discriminate Hloop|].
  destruct (SS_DEV_NET.dev_cost_step self y acc i) as [acc'|e'] eqn:Hstep;
    cbn [mbind res_bind] in Hloop.
  - eapply IH, Hloop.
  - apply dev_cost_step_error in Hstep. congruence.
Qed.

(** X3.  For a network with the structure [__init__] gives it, [dev_cost]
    returns an expression exactly when the DEV weights sum to at most 1e-5
    (no selector is read then) or there is a selector for every layer; in
    the other case, selectors missing on the DEV branch, the call raises
    IndexError at [self.dev_types[i]].  A list of selectors longer than the
    network is accepted. *)
Theorem dev_cost_outcome self y joint_loss c0 :
  well_formed self c0 ->
  (is_ok (SS_DEV_NET.dev_cost self y joint_loss) = true <->
   (SS_DEV_NET.dev_lams_sum self <= 1e-5)%Q \/
   (SS_DEV_NET.layer_count self <= length (SS_DEV_NET.dev_types self))%nat) /\
  (is_ok (SS_DEV_NET.dev_cost self y joint_loss) = false ->
   SS_DEV_NET.dev_cost self y joint_loss = Err IndexError).
Proof.
  intros Hwf. split; [split|].
  - intros Hok.
    destruct (Qltb 1e-5 (SS_DEV_NET.dev_lams_sum self)) eqn:Hsum;
      [|left; apply Qltb_ge, Hsum].
    right. apply Nat.le_ngt. intros Hshort.
    unfold SS_DEV_NET.dev_cost in Hok. rewrite Hsum in Hok.
    pose proof (dev_cost_loop_short self y (seq 0 (SS_DEV_NET.layer_count self)))
      as Hloop.
    specialize (Hloop ltac:(apply Exists_exists;
      exists (length (SS_DEV_NET.dev_types self));
      split; [apply elem_of_seq; lia|apply lookup_ge_None; lia]) []).
    destruct (SS_DEV_NET.dev_cost_loop self y [] _) as [terms|e];
      [discriminate Hloop|discriminate Hok].
  - intros [Hsum|Hty].
    + apply Qltb_ge in Hsum. unfold SS_DEV_NET.dev_cost. rewrite Hsum. reflexivity.
    + destruct (Qltb 1e-5 (SS_DEV_NET.dev_lams_sum self)) eqn:Hsum.
      * destruct (dev_cost_dev_branch self y joint_loss c0 Hsum Hwf Hty)
          as (terms & _ & ->). reflexivity.
      * unfold SS_DEV_NET.dev_cost. rewrite Hsum. reflexivity.
  - unfold SS_DEV_NET.dev_cost.
    destruct (Qltb 1e-5 (SS_DEV_NET.dev_lams_sum self)); [|discriminate].
    destruct (SS_DEV_NET.dev_cost_loop self y [] _) as [terms|e] eqn:Hloop;
      [discriminate|].
    apply dev_cost_loop_error in Hloop. subst e. reflexivity.
Qed.

Lemma dev_cost_outcome_witness :
  exists net st',
    SS_DEV_NET.__init__ (Var "x") short_types_params Lcg.start = Ok (net, st') /\
    SS_DEV_NET.dev_cost net (Var "y") (PyInt 1) = Err IndexError.
Proof.
  destruct (SS_DEV_NET.__init__ (Var "x") short_types_params Lcg.start)
    as [[net st']|e] eqn:Hrun; [|vm_compute in Hrun; discriminate Hrun].
  destruct (init_well_formed (G:=Z) _ _ _ _ _ Hrun) as [c0 Hwf].
  exists net, st'. split; [reflexivity|].
  apply (proj2 (dev_cost_outcome net (Var "y") (PyInt 1) c0 Hwf)).
  vm_compute in Hrun. injection Hrun as <- <-. reflexivity.
Defined.

(** ** The masked variance as a distance *)

Lemma sq_dist_sym (r s : list R) : sq_dist r s = sq_dist s r.
Proof.
  unfold sq_dist, rsum. revert s.
  induction r as [|p r IH]; intros [|q s]; cbn; try reflexivity.
  rewrite IH. ring.
Qed.

Lemma sq_dist_nonneg (r s : list R) : 0 <= sq_dist r s.
Proof.
  unfold sq_dist, rsum. revert s.
  induction r as [|p r IH]; intros [|q s]; cbn; try lra.
  specialize (IH s). pose proof (Rle_0_sqr (p - q)) as Hsq.
  unfold Rsqr in Hsq. lra.
Qed.

Lemma sq_dist_diag (r : list R) : sq_dist r r = 0.
Proof.
  unfold sq_dist, rsum. induction r as [|p r IH]; cbn; [reflexivity|].
  rewrite IH. ring.
Qed.

Lemma zip_sq_dist_sym (a b : list (list R)) :
  zip_with sq_dist a b = zip_with sq_dist b a.
Proof.
  revert b. induction a as [|r a IH]; intros [|s b]; cbn; try reflexivity.
  rewrite IH, sq_dist_sym. reflexivity.
Qed.

Lemma zip_sq_dist_nonneg (a b : list (list R)) :
  0 <= rsum (zip_with sq_dist a b).
Proof.
  unfold rsum. revert b.
  induction a as [|r a IH]; intros [|s b]; cbn; try lra.
  specialize (IH b). pose proof (sq_dist_nonneg r s). lra.
Qed.

Lemma zip_sq_dist_diag (a : list (list R)) : rsum (zip_with sq_dist a a) = 0.
Proof.
  unfold rsum. induction a as [|r a IH]; cbn; [reflexivity|].
  rewrite IH, sq_dist_diag. lra.
Qed.

Lemma masked_variance_sym (y : list R) (a b : list (list R)) :
  masked_variance y a b = masked_variance y b a.
Proof. unfold masked_variance. rewrite zip_sq_dist_sym. reflexivity. Qed.

Lemma masked_variance_nonneg (y : list R) (a b : list (list R)) :
  0 <= masked_variance y a b.
Proof.
  unfold masked_variance.
  pose proof (zip_sq_dist_nonneg (select_unlabeled y a) (select_unlabeled y b)) as Hs.
  destruct (length (select_unlabeled y y)) as [|n].
  - cbn [INR]. unfold Rdiv. rewrite Rinv_0. lra.
  - apply Rmult_le_pos; [exact Hs|]. apply Rlt_le, Rinv_0_lt_compat.
    apply lt_0_INR. lia.
Qed.

Lemma masked_variance_diag (y : list R) (a : list (list R)) :
  masked_variance y a a = 0.
Proof. unfold masked_variance. rewrite zip_sq_dist_diag. lra. Qed.

Lemma same_shape_sym (a b : list (list R)) : same_shape a b -> same_shape b a.
Proof.
  unfold same_shape. intros Hab. apply Forall2_flip.
  eapply Forall2_impl; [exact Hab|]. intros r s Hrs. symmetry. exact Hrs.
Qed.

Lemma same_shape_refl (a : list (list R)) : same_shape a a.
Proof. apply Forall_Forall2_diag, Forall_forall. reflexivity. Qed.

(** X4.  For a selector other than 4 the DEV term is a symmetric, non-negative
    function of the two representations: exchanging the raw and the droppy
    representation does not change what it evaluates to (a value or the
    failure of an empty mask), and every value it takes is at least 0. *)
Theorem dev_loss_symmetric ρ X1 X2 Y dev_type y a b :
  dev_type <> 4%Z ->
  eval ρ Y = Ok (Vector y) ->
  eval ρ X1 = Ok (Matrix a) ->
  eval ρ X2 = Ok (Matrix b) ->
  length a = length y ->
  same_shape a b ->
  eval ρ (SS_DEV_NET._dev_loss X1 X2 Y dev_type) =
    eval ρ (SS_DEV_NET._dev_loss X2 X1 Y dev_type) /\
  forall v, eval ρ (SS_DEV_NET._dev_loss X1 X2 Y dev_type) = Ok (Scalar v) ->
    0 <= v.
Proof.
  intros H4 HY H1 H2 Hlen Hab.
  pose proof (Forall2_length _ _ _ Hab) as Hlen'.
  destruct (dev_loss_var_fun ρ X1 X2 Y dev_type a b H4 H1 H2)
    as (A & B & -> & HA & HB).
  destruct (dev_loss_var_fun ρ X2 X1 Y dev_type b a H4 H2 H1)
    as (B' & A' & -> & HB' & HA').
  rewrite (eval_var_fun ρ Y A B y _ _ HY HA HB);
    [|rewrite dev_transform_length; exact Hlen
     |apply dev_transform_same_shape, Hab].
  rewrite (eval_var_fun ρ Y B' A' y _ _ HY HB' HA');
    [|rewrite dev_transform_length; congruence
     |apply dev_transform_same_shape, same_shape_sym, Hab].
  rewrite masked_variance_sym. split; [reflexivity|].
  intros v Hv. destruct (Req_dec_T _ 0); [discriminate Hv|].
  injection Hv as <-. apply masked_variance_nonneg.
Qed.

Lemma dev_loss_symmetric_witness :
  eval batch_env (SS_DEV_NET._dev_loss (Var "x1") (Var "x2") (Var "y") 2) =
    eval batch_env (SS_DEV_NET._dev_loss (Var "x2") (Var "x1") (Var "y") 2) /\
  forall v,
    eval batch_env (SS_DEV_NET._dev_loss (Var "x1") (Var "x2") (Var "y") 2) =
      Ok (Scalar v) -> 0 <= v.
Proof.
  apply (dev_loss_symmetric batch_env (Var "x1") (Var "x2") (Var "y") 2
           [0; 1] [[1; 2]; [3; 4]] [[0; 0]; [0; 0]]).
  - discriminate.
  - reflexivity.
  - reflexivity.
  - reflexivity.
  - reflexivity.
  - repeat constructor.
Defined.

(** X5.  For a selector other than 4, two representations with the same value
    on a batch with an unlabeled example have the DEV term 0: a clone that
    reproduces the raw net is not penalised. *)
Theorem dev_loss_zero_on_equal ρ X1 X2 Y dev_type y a :
  dev_type <> 4%Z ->
  eval ρ Y = Ok (Vector y) ->
  eval ρ X1 = Ok (Matrix a) ->
  eval ρ X2 = Ok (Matrix a) ->
  length a = length y ->
  Exists (fun yi => yi = 0) y ->
  eval ρ (SS_DEV_NET._dev_loss X1 X2 Y dev_type) = Ok (Scalar 0).
Proof.
  intros H4 HY H1 H2 Hlen Hy.
  destruct (dev_loss_var_fun ρ X1 X2 Y dev_type a a H4 H1 H2)
    as (A & B & -> & HA & HB).
  rewrite (eval_var_fun ρ Y A B y _ _ HY HA HB);
    [|rewrite dev_transform_length; exact Hlen|apply same_shape_refl].
  destruct (Req_dec_T _ 0) as [Hz|].
  - exfalso. exact (select_unlabeled_nonempty y Hy Hz).
  - rewrite masked_variance_diag. reflexivity.
Qed.

Lemma dev_loss_zero_on_equal_witness :
  eval batch_env (SS_DEV_NET._dev_loss (Var "x1") (Var "x1") (Var "y") 1) =
    Ok (Scalar 0).
Proof.
  apply (dev_loss_zero_on_equal batch_env (Var "x1") (Var "x1") (Var "y") 1
           [0; 1] [[1; 2]; [3; 4]]).
  - discriminate.
  - reflexivity.
  - reflexivity.
  - reflexivity.
  - reflexivity.
  - constructor. reflexivity.
Defined.

(** ** The cross entropy *)

Lemma same_shape_map_r (f : R -> R) (a b : list (list R)) :
  same_shape a b -> same_shape a (map (map f) b).
Proof.
  intros Hab. apply Forall2_fmap_r. eapply Forall2_impl; [exact Hab|].
  intros r s Hrs. unfold compose. rewrite length_map. exact Hrs.
Qed.

Lemma same_shape_map_l (f : R -> R) (a b : list (list R)) :
  same_shape a b -> same_shape (map (map f) a) b.
Proof. intros Hab. apply same_shape_sym, same_shape_map_r, same_shape_sym, Hab. Qed.

Lemma same_shape_zip (f g : R -> R -> R) (a b c d : list (list R)) :
  same_shape a b -> same_shape a c -> same_shape a d ->
  same_shape (zip_with (zip_with f) a b) (zip_with (zip_with g) c d).
Proof.
  unfold same_shape. intros Hab. revert c d.
  induction Hab as [|r s a b Hrs _ IH]; intros c d Hc Hd.
  - inversion Hc; subst. constructor.
  - inversion Hc as [|? r' ? c' Hr' Hc']; subst.
    inversion Hd as [|? s' ? d' Hs' Hd']; subst.
    cbn [zip_with]. constructor; [|apply IH; assumption].
    rewrite !length_zip_with. lia.
Qed.

Lemma ln_neg (x : R) : 0 < x < 1 -> ln x < 0.
Proof. intros Hx. rewrite <- ln_1. apply ln_increasing; lra. Qed.

Lemma cross_entropy_pos (o t : R) :
  0 < o < 1 -> 0 < t < 1 -> 0 < cross_entropy o t.
Proof.
  intros Ho Ht. unfold cross_entropy.
  pose proof (ln_neg o Ho) as H1.
  pose proof (ln_neg (1 - o) ltac:(lra)) as H2.
  assert (t * ln o < 0) by nra.
  assert ((1 - t) * ln (1 - o) < 0) by nra.
  lra.
Qed.

(** What [T.nnet.binary_crossentropy] evaluates to on an output with
    entries strictly between 0 and 1. *)
Lemma eval_binary_crossentropy ρ O T o t :
  eval ρ O = Ok (Matrix o) ->
  eval ρ T = Ok (Matrix t) ->
  same_shape o t ->
  Forall (Forall (fun v => 0 < v < 1)) o ->
  eval ρ (binary_crossentropy O T) =
    Ok (Matrix (zip_with (zip_with cross_entropy) o t)).
Proof.
  intros HO HT Hot Ho. unfold binary_crossentropy.
  pose proof (same_shape_sym _ _ Hot) as Hto.
  ev. rewrite HT, HO. ev.
  rewrite (unop_Matrix_Forall _ ln).
  2:{ eapply Forall_impl; [exact Ho|]. intros row Hrow. cbv beta.
      eapply Forall_impl; [exact Hrow|]. intros v Hv. cbv beta. unfold rlog.
      destruct (Rlt_dec 0 v); [reflexivity|lra]. }
  ev. unfold rmul. rewrite binop_Matrix_Matrix_total
    by (apply same_shape_map_r, Hto).
  ev. unfold rsub. rewrite !binop_Scalar_Matrix_total. ev.
  rewrite (unop_Matrix_Forall _ ln).
  2:{ rewrite Forall_map. eapply Forall_impl; [exact Ho|].
      intros row Hrow. cbv beta. rewrite Forall_map.
      eapply Forall_impl; [exact Hrow|]. intros v Hv. cbv beta. unfold rlog.
      rewrite RMicromega.Q2R_1.
      destruct (Rlt_dec 0 (1 - v)); [reflexivity|lra]. }
  ev. rewrite binop_Matrix_Matrix_total
    by (apply same_shape_map_l, same_shape_map_r, same_shape_map_r, Hto).
  ev. unfold radd. rewrite binop_Matrix_Matrix_total.
  2:{ apply same_shape_zip.
      - apply same_shape_map_r, Hto.
      - apply same_shape_map_r, same_shape_refl.
      - apply same_shape_map_r, same_shape_map_r, Hto. }
  ev. unfold rneg. rewrite unop_Matrix_total. do 2 f_equal.
  rewrite RMicromega.Q2R_1. clear HO HT Ho Hto.
  induction Hot as [|r s o t Hrs _ IH]; [reflexivity|].
  cbn [map zip_with]. rewrite IH. f_equal. clear IH.
  revert s Hrs. induction r as [|p r IHr]; intros [|q s] Hrs;
    simplify_eq/=; [reflexivity|].
  rewrite IHr by assumption. reflexivity.
Qed.

Lemma eval_Sigmoid_matrix ρ X x :
  eval ρ X = Ok (Matrix x) ->
  eval ρ (Sigmoid X) = Ok (Matrix (map (map sigmoid) x)).
Proof. intros HX. ev. rewrite HX. ev. unfold rsigmoid. apply unop_Matrix_total. Qed.

Lemma sigmoid_matrix_bounds (x : list (list R)) :
  Forall (Forall (fun v => 0 < v < 1)) (map (map sigmoid) x).
Proof.
  rewrite Forall_map. apply Forall_forall. intros row _.
  rewrite Forall_map. apply Forall_forall. intros v _. apply sigmoid_bounds.
Qed.

Lemma cross_entropy_matrix_pos (o t : list (list R)) :
  Forall (Forall (fun v => 0 < v < 1)) o ->
  Forall (Forall (fun v => 0 < v < 1)) t ->
  Forall (Forall (fun v => 0 < v)) (zip_with (zip_with cross_entropy) o t).
Proof.
  intros Ho. revert t. induction Ho as [|r o Hr _ IH]; intros t Ht.
  - constructor.
  - destruct Ht as [|s t Hs Ht]; cbn [zip_with]; constructor; [|apply IH, Ht].
    clear IH. revert s Hs. induction Hr as [|p r Hp _ IHr]; intros s Hs.
    + constructor.
    + destruct Hs as [|q s Hq Hs]; cbn [zip_with]; constructor;
        [apply cross_entropy_pos; assumption|apply IHr, Hs].
Qed.

Lemma rsum_pos (l : list R) :
  Forall (fun v => 0 < v) l -> 0 <= rsum l /\ (l <> [] -> 0 < rsum l).
Proof.
  unfold rsum. induction 1 as [|v l Hv _ [IH _]]; cbn [foldr].
  - split; [lra|]. intros Hne. contradiction.
  - split; [lra|]. intros _. lra.
Qed.

(** X6.  The cross-entropy variant (selector 4) is the sum, over all entries of
    the batch, of the cross entropy of the sigmoid of the droppy
    representation against the sigmoid of the raw one as the target, divided
    by the number of examples.  It reads neither the labels nor the mask, so
    it is defined on every non-empty batch and undefined (0/0) on the empty
    one, and the sum is never negative. *)
Theorem dev_loss_cross_entropy_value ρ X1 X2 Y a b :
  eval ρ X1 = Ok (Matrix a) ->
  eval ρ X2 = Ok (Matrix b) ->
  same_shape a b ->
  let total :=
    rsum (concat (zip_with (zip_with cross_entropy)
                    (map (map sigmoid) b) (map (map sigmoid) a))) in
  eval ρ (SS_DEV_NET._dev_loss X1 X2 Y 4) =
    match a with
    | [] => Err Undefined
    | _ :: _ => Ok (Scalar (total / INR (length a)))
    end /\
  0 <= total.
Proof.
  intros H1 H2 Hab total.
  assert (Hshape : same_shape (map (map sigmoid) b) (map (map sigmoid) a))
    by (apply same_shape_map_l, same_shape_map_r, same_shape_sym, Hab).
  pose proof (cross_entropy_matrix_pos _ _ (sigmoid_matrix_bounds b)
                (sigmoid_matrix_bounds a)) as Hpos.
  assert (Hall : Forall (fun v => 0 < v)
            (concat (zip_with (zip_with cross_entropy)
                       (map (map sigmoid) b) (map (map sigmoid) a))))
    by (apply Forall_concat, Hpos).
  apply rsum_pos in Hall as [Hge _]. split; [|exact Hge].
  - change (SS_DEV_NET._dev_loss X1 X2 Y 4)
      with (Div (Sum (binary_crossentropy (Sigmoid X2) (Sigmoid X1))) (Shape0 X1)).
    change (eval ρ (Div ?n ?d)) with (x ← eval ρ n; y ← eval ρ d; binop rdiv x y).
    rewrite eval_Sum.
    rewrite (eval_binary_crossentropy ρ _ _ _ _ (eval_Sigmoid_matrix _ _ _ H2)
               (eval_Sigmoid_matrix _ _ _ H1) Hshape (sigmoid_matrix_bounds b)).
    ev. rewrite H1. ev. cbn [shape0]. ev.
    unfold sum_all. cbn [elements binop fmap res_fmap]. unfold rdiv.
    destruct a as [|r a'].
    + cbn [length INR]. destruct (Req_dec_T 0 0); [reflexivity|contradiction].
    + destruct (Req_dec_T (INR (length (r :: a'))) 0) as [Hz|]; [|reflexivity].
      exfalso. revert Hz. apply not_0_INR. discriminate.
Qed.

Lemma dev_loss_cross_entropy_value_witness :
  let total :=
    rsum (concat (zip_with (zip_with cross_entropy)
                    (map (map sigmoid) [[0; 0]; [0; 0]])
                    (map (map sigmoid) [[1; 2]; [3; 4]]))) in
  eval batch_env (SS_DEV_NET._dev_loss (Var "x1") (Var "x2") (Var "y") 4) =
    Ok (Scalar (total / INR (length [[1; 2]; [3; 4]]))) /\
  0 <= total.
Proof.
  apply (dev_loss_cross_entropy_value batch_env (Var "x1") (Var "x2") (Var "y")
           [[1; 2]; [3; 4]] [[0; 0]; [0; 0]]).
  - reflexivity.
  - reflexivity.
  - repeat constructor.
Defined.

(** ** The activation sums of a layer *)

Lemma eval_mean_square ρ X m :
  eval ρ X = Ok (Matrix m) ->
  eval ρ (Div (Sum (Sqr X)) (Size X)) =
    match concat m with
    | [] => Err Undefined
    | _ :: _ => Ok (Scalar (mean_square m))
    end.
Proof.
  intros HX.
  change (eval ρ (Div ?n ?d)) with (x ← eval ρ n; y ← eval ρ d; binop rdiv x y).
  rewrite eval_Sum. ev. rewrite HX. ev. unfold rsqr. rewrite unop_Matrix_total.
  ev. unfold sum_all, size, mean_square, sumsq.
  cbn [elements binop fmap res_fmap]. rewrite <- concat_map. unfold rdiv.
  destruct (concat m) as [|v l].
  - cbn [length INR]. destruct (Req_dec_T 0 0); [reflexivity|contradiction].
  - destruct (Req_dec_T (INR (length (v :: l))) 0) as [Hz|]; [|reflexivity].
    exfalso. revert Hz. apply not_0_INR. discriminate.
Qed.

Lemma eval_Sigmoid_inv ρ X m :
  eval ρ (Sigmoid X) = Ok (Matrix m) ->
  exists x, eval ρ X = Ok (Matrix x) /\ m = map (map sigmoid) x.
Proof.
  cbn [eval]. destruct (eval ρ X) as [[r|v|x|c]|e]; cbn [mbind res_bind unop];
    unfold rsigmoid; rewrite ?traverse_total; cbn [fmap res_fmap]; try discriminate.
  rewrite (traverse_Forall _ (map sigmoid))
    by (apply Forall_forall; intros row _; apply traverse_total).
  intros [= <-]. eauto.
Qed.

Lemma mean_square_unit (l : list R) :
  Forall (fun v => 0 < v < 1) l -> l <> [] ->
  0 < rsum (map (fun a => a * a) l) < INR (length l).
Proof.
  unfold rsum. induction 1 as [|v l Hv Hl IH]; [contradiction|]. intros _.
  cbn [map foldr length]. rewrite S_INR.
  assert (Hsq : 0 < v * v < 1) by nra.
  destruct l as [|w l]; [cbn; lra|].
  destruct IH as [IH1 IH2]; [discriminate|]. lra.
Qed.

Lemma mean_square_sigmoid ρ X m :
  eval ρ (Sigmoid X) = Ok (Matrix m) -> concat m <> [] ->
  0 <= sumsq (concat m) / INR (length (concat m)) <= 1.
Proof.
  intros Hout Hne. apply eval_Sigmoid_inv in Hout as (x & _ & ->).
  assert (Hall : Forall (fun v => 0 < v < 1) (concat (map (map sigmoid) x)))
    by apply Forall_concat, sigmoid_matrix_bounds.
  destruct (mean_square_unit _ Hall Hne) as [Hlo Hhi].
  fold (sumsq (concat (map (map sigmoid) x))) in Hlo, Hhi.
  assert (Hn : 0 < INR (length (concat (map (map sigmoid) x)))) by lra.
  split.
  - apply Rlt_le, Rdiv_lt_0_compat; assumption.
  - apply (Rmult_le_reg_r (INR (length (concat (map (map sigmoid) x)))));
      [exact Hn|].
    unfold Rdiv. rewrite Rmult_assoc, Rinv_l by lra. lra.
Qed.

Section LayerSums.
Context {G : Type} `{RandomState G}.

(** X7.  [act_l2_sum] of a layer is the mean of the squares of the entries of
    its output: the sum of the squares divided by the number of entries.  On
    an output without an entry (an empty batch) it is undefined, 0/0; with
    the sigmoid as the activation it is at least 0 and at most 1. *)
Theorem act_l2_sum_mean_square input n_in n_out act drop_rate Wo bo use_bias
    (st st' : builder G) layer ρ m :
  HiddenLayer.__init__ input n_in n_out act drop_rate Wo bo use_bias st =
    Ok (layer, st') ->
  eval ρ (HiddenLayer.output layer) = Ok (Matrix m) ->
  eval ρ (HiddenLayer.act_l2_sum layer) =
    match concat m with
    | [] => Err Undefined
    | _ :: _ => Ok (Scalar (sumsq (concat m) / INR (length (concat m))))
    end /\
  (act = Some Sigmoid -> concat m <> [] ->
   0 <= sumsq (concat m) / INR (length (concat m)) <= 1).
Proof.
  intros Hrun Hout.
  apply HiddenLayer_init_Ok in Hrun
    as (_ & _ & _ & _ & _ & _ & Hact & _ & _ & _ & Hl2 & _).
  split.
  - rewrite Hl2. apply (eval_mean_square ρ _ m Hout).
  - intros -> Hne. rewrite Hact in Hout.
    exact (mean_square_sigmoid ρ _ m Hout Hne).
Qed.
End LayerSums.

Lemma act_l2_sum_mean_square_witness :
  exists layer st',
    HiddenLayer.__init__ (Var "x") 1 1 (Some Sigmoid) 0
      (Some (Shared 1)) (Some (Shared 2)) false Lcg.start = Ok (layer, st') /\
    eval layer_env (HiddenLayer.act_l2_sum layer) =
      Ok (Scalar (sumsq (concat [[sigmoid 0]])
                  / INR (length (concat [[sigmoid 0]])))) /\
    (Some Sigmoid = Some Sigmoid -> concat [[sigmoid 0]] <> [] ->
     0 <= sumsq (concat [[sigmoid 0]]) / INR (length (concat [[sigmoid 0]])) <= 1).
Proof.
  destruct (HiddenLayer.__init__ (Var "x") 1 1 (Some Sigmoid) 0
              (Some (Shared 1)) (Some (Shared 2)) false Lcg.start)
    as [[layer st']|e] eqn:Hrun; [|vm_compute in Hrun; discriminate Hrun].
  exists layer, st'. split; [reflexivity|].
  apply (act_l2_sum_mean_square (G:=Z) _ _ _ _ _ _ _ _ _ _ _ layer_env
           [[sigmoid 0]] Hrun).
  vm_compute in Hrun. injection Hrun as <- <-.
  eval_concrete. replace (0 * 1 + 0) with 0 by lra. reflexivity.
Defined.

Lemma sumsq_ge_entry (row : list R) (v : R) : In v row -> v * v <= sumsq row.
Proof.
  unfold sumsq, rsum. induction row as [|a row IH]; intros Hin; [contradiction|].
  cbn [map foldr]. fold (rsum (map (fun a => a * a) row)).
  pose proof (rsum_squares_nonneg row) as Hrest. unfold sumsq in Hrest.
  destruct Hin as [->|Hin].
  - lra.
  - specialize (IH Hin). unfold rsum in *. pose proof (Rle_0_sqr a) as Ha.
    unfold Rsqr in Ha. lra.
Qed.

Lemma normalize_row_entries (row : list R) :
  Forall (fun w => 0 <= Rabs w < 1) (normalize_row row).
Proof.
  unfold normalize_row. rewrite Forall_map. apply Forall_forall.
  intros v Hv%list_elem_of_In. cbv beta.
  pose proof (row_divisor_pos row) as Hd.
  pose proof (sumsq_ge_entry row v Hv) as Hle.
  split; [apply Rabs_pos|].
  unfold Rdiv. rewrite Rabs_mult, Rabs_inv, (Rabs_pos_eq (sqrt _)) by lra.
  apply (Rmult_lt_reg_r (sqrt (sumsq row + 1 / 1000000))); [exact Hd|].
  rewrite Rmult_assoc, Rinv_l, Rmult_1_r, Rmult_1_l by lra.
  rewrite <- sqrt_Rsqr_abs. apply sqrt_lt_1_alt. unfold Rsqr.
  pose proof (Rle_0_sqr v) as Hsq. unfold Rsqr in Hsq. lra.
Qed.

Lemma rsum_unit_entries (l : list R) :
  Forall (fun u => 0 <= u < 1) l -> 0 <= rsum l <= INR (length l).
Proof.
  unfold rsum. induction 1 as [|u l Hu _ IH]; cbn [foldr length].
  - cbn. lra.
  - rewrite S_INR. lra.
Qed.

(** The L1 sum of [row_normalize x]: defined for every matrix, at least 0
    and at most the number of entries. *)
Lemma eval_l1_sum ρ X x :
  eval ρ X = Ok (Matrix x) ->
  eval ρ (Sum (Abs (row_normalize X))) =
    Ok (Scalar (rsum (concat (map (fun row => map Rabs (normalize_row row)) x)))) /\
  0 <= rsum (concat (map (fun row => map Rabs (normalize_row row)) x))
    <= INR (length (concat x)).
Proof.
  intros HX. split.
  - rewrite eval_Sum. ev. rewrite (eval_row_normalize ρ X x HX). ev.
    unfold rabs. rewrite unop_Matrix_total. ev. unfold sum_all.
    cbn [elements]. rewrite map_map. reflexivity.
  - replace (length (concat x))
      with (length (concat (map (fun row => map Rabs (normalize_row row)) x))).
    + apply rsum_unit_entries, Forall_concat. rewrite Forall_map.
      apply Forall_forall. intros row _. cbv beta. rewrite Forall_map.
      apply normalize_row_entries.
    + clear. induction x as [|row x IH]; [reflexivity|].
      cbn [map concat]. rewrite !length_app, IH. unfold normalize_row.
      rewrite !length_map. reflexivity.
Qed.

Section LayerL1.
Context {G : Type} `{RandomState G}.

Lemma HiddenLayer_init_l1 input n_in n_out act drop_rate Wo bo use_bias
    (st st' : builder G) layer :
  HiddenLayer.__init__ input n_in n_out act drop_rate Wo bo use_bias st =
    Ok (layer, st') ->
  HiddenLayer.act_l1_sum layer =
    Sum (Abs (row_normalize (HiddenLayer.output layer))) /\
  HiddenLayer.inp_l1_sum layer =
    Sum (Abs (row_normalize (HiddenLayer.input layer))).
Proof.
  unfold HiddenLayer.__init__. intros Hrun.
  apply build_bind_Ok in Hrun as (inp & s1 & _ & Hrun).
  apply build_bind_Ok in Hrun as (Ws & s2 & _ & Hrun).
  apply build_bind_Ok in Hrun as (bs & s3 & _ & Hrun).
  apply build_bind_Ok in Hrun as (We & s4 & _ & Hrun).
  apply build_ret_Ok in Hrun as [-> ->]. split; reflexivity.
Qed.

(** X8.  [act_l1_sum] and [inp_l1_sum] of a layer are the sums of the absolute
    values of the row-normalised output and of the row-normalised input the
    layer computes with (the masked one, for a layer with dropout).  They are
    defined for every matrix, also an empty or an all-zero one, and lie
    between 0 and the number of entries. *)
Theorem l1_sums_of_normalized_rows input n_in n_out act drop_rate Wo bo use_bias
    (st st' : builder G) layer ρ :
  HiddenLayer.__init__ input n_in n_out act drop_rate Wo bo use_bias st =
    Ok (layer, st') ->
  (forall x, eval ρ (HiddenLayer.input layer) = Ok (Matrix x) ->
     eval ρ (HiddenLayer.inp_l1_sum layer) =
       Ok (Scalar (rsum (concat
             (map (fun row =>
                map (fun v => Rabs (v / sqrt (sumsq row + 1 / 1000000))) row) x)))) /\
     0 <= rsum (concat
             (map (fun row =>
                map (fun v => Rabs (v / sqrt (sumsq row + 1 / 1000000))) row) x))
       <= INR (length (concat x))) /\
  (forall m, eval ρ (HiddenLayer.output layer) = Ok (Matrix m) ->
     eval ρ (HiddenLayer.act_l1_sum layer) =
       Ok (Scalar (rsum (concat
             (map (fun row =>
                map (fun v => Rabs (v / sqrt (sumsq row + 1 / 1000000))) row) m)))) /\
     0 <= rsum (concat
             (map (fun row =>
                map (fun v => Rabs (v / sqrt (sumsq row + 1 / 1000000))) row) m))
       <= INR (length (concat m))).
Proof.
  intros Hrun. apply HiddenLayer_init_l1 in Hrun as [-> ->].
  assert (Hrows : forall x : list (list R),
            map (fun row =>
              map (fun v => Rabs (v / sqrt (sumsq row + 1 / 1000000))) row) x =
            map (fun row => map Rabs (normalize_row row)) x).
  { intros x. apply map_ext. intros row. unfold normalize_row.
    rewrite map_map. reflexivity. }
  split; intros x Hx; rewrite Hrows; apply eval_l1_sum, Hx.
Qed.
End LayerL1.

Lemma l1_sums_of_normalized_rows_witness :
  exists layer st',
    HiddenLayer.__init__ (Var "x") 1 1 (Some Sigmoid) 0
      (Some (Shared 1)) (Some (Shared 2)) false Lcg.start = Ok (layer, st') /\
    eval layer_env (HiddenLayer.inp_l1_sum layer) =
      Ok (Scalar (rsum (concat
            (map (fun row =>
               map (fun v => Rabs (v / sqrt (sumsq row + 1 / 1000000))) row)
               [[0]])))) /\
    0 <= rsum (concat
            (map (fun row =>
               map (fun v => Rabs (v / sqrt (sumsq row + 1 / 1000000))) row)
               [[0]]))
      <= INR (length (concat [[0]])).
Proof.
  destruct (HiddenLayer.__init__ (Var "x") 1 1 (Some Sigmoid) 0
              (Some (Shared 1)) (Some (Shared 2)) false Lcg.start)
    as [[layer st']|e] eqn:Hrun; [|vm_compute in Hrun; discriminate Hrun].
  exists layer, st'. split; [reflexivity|].
  apply (proj1 (l1_sums_of_normalized_rows (G:=Z) _ _ _ _ _ _ _ _ _ _ _
                  layer_env Hrun)).
  vm_compute in Hrun. injection Hrun as <- <-. reflexivity.
Defined.

(** ** The state of the builder *)

Section BuilderState.
Context {G : Type} `{RandomState G}.

(** The generator, the next identity and the initial values after a
    successful call of the constructor of a layer. *)
Lemma HiddenLayer_init_state input n_in n_out act drop_rate Wo bo use_bias
    (st st' : builder G) layer :
  HiddenLayer.__init__ input n_in n_out act drop_rate Wo bo use_bias st =
    Ok (layer, st') ->
  let g1 := if Qltb drop_rate 0.01 then rng st
            else (randint 100000 (rng st)).2 in
  let s2 :=
    match Wo with
    | Some _ => Builder g1 (next_id st) (initial st)
    | None =>
        Builder (standard_normal n_in n_out g1).2 (S (next_id st))
          (<[next_id st :=
               Array2 (map (map (Qmult 0.01)) (standard_normal n_in n_out g1).1)]>
             (initial st))
    end in
  st' =
    match bo with
    | Some _ => s2
    | None =>
        Builder (rng s2) (S (next_id s2))
          (<[next_id s2 := Array1 (replicate n_out 0%Q)]> (initial s2))
    end.
Proof.
  unfold HiddenLayer.__init__. intros Hrun.
  apply build_bind_Ok in Hrun as (inp & s1 & Hinp & Hrun).
  apply build_bind_Ok in Hrun as (Ws & s2 & HWs & Hrun).
  apply build_bind_Ok in Hrun as (bs & s3 & Hbs & Hrun).
  apply build_bind_Ok in Hrun as (We & s4 & HWe & Hrun).
  apply lift_Ok in HWe as [_ ->].
  apply build_ret_Ok in Hrun as [_ ->].
  assert (Hs1 : s1 = Builder (if Qltb drop_rate 0.01 then rng st
                              else (randint 100000 (rng st)).2)
                       (next_id st) (initial st)).
  { destruct (Qltb drop_rate 0.01).
    - apply build_ret_Ok in Hinp as [_ ->]. destruct st; reflexivity.
    - unfold HiddenLayer._drop_from_input in Hinp.
      apply build_bind_Ok in Hinp as (seed & s0 & Hseed & Hinp).
      apply build_ret_Ok in Hinp as [_ ->].
      apply rng_randint_Ok in Hseed as [_ ->]. reflexivity. }
  cbv zeta. destruct Wo as [W0|].
  - apply build_ret_Ok in HWs as [_ ->]. destruct bo as [b0|].
    + apply build_ret_Ok in Hbs as [_ ->]. exact Hs1.
    + apply theano_shared_Ok in Hbs as [_ ->]. rewrite Hs1. reflexivity.
  - apply build_bind_Ok in HWs as (Wi & s0 & HWi & HWs).
    apply rng_standard_normal_Ok in HWi as [-> ->].
    apply theano_shared_Ok in HWs as [_ ->]. destruct bo as [b0|].
    + apply build_ret_Ok in Hbs as [_ ->]. rewrite Hs1. reflexivity.
    + apply theano_shared_Ok in Hbs as [_ ->]. rewrite Hs1. reflexivity.
Qed.

(** The loop over the clones creates no shared variable and leaves the raw
    chain and the dictionary as they are. *)
Lemma clone_loop_frame act_fun use_bias n_in n_out range c0 c (st st' : builder G) :
  foldM (SS_DEV_NET.clone_step act_fun use_bias n_in n_out) c0 range st =
    Ok (c, st') ->
  SS_DEV_NET.ch_mlp_layers c = SS_DEV_NET.ch_mlp_layers c0 /\
  SS_DEV_NET.ch_clip_params c = SS_DEV_NET.ch_clip_params c0 /\
  SS_DEV_NET.next_raw_input c = SS_DEV_NET.next_raw_input c0 /\
  SS_DEV_NET.first_layer c = SS_DEV_NET.first_layer c0 /\
  next_id st' = next_id st /\
  initial st' = initial st.
Proof.
  intros Hrun.
  refine (foldM_invariant _
    (fun _ c1 s1 =>
       SS_DEV_NET.ch_mlp_layers c1 = SS_DEV_NET.ch_mlp_layers c0 /\
       SS_DEV_NET.ch_clip_params c1 = SS_DEV_NET.ch_clip_params c0 /\
       SS_DEV_NET.next_raw_input c1 = SS_DEV_NET.next_raw_input c0 /\
       SS_DEV_NET.first_layer c1 = SS_DEV_NET.first_layer c0 /\
       next_id s1 = next_id st /\
       initial s1 = initial st)
    range _ c0 st c st' _ Hrun); [|auto 10].
  intros done i rest c1 s1 c2 s2 _ (E1 & E2 & E3 & E4 & E5 & E6) Hstep.
  apply clone_step_Ok in Hstep as (clone & inp & raw & lay & _ & _ & _ & Hlay & ->).
  apply HiddenLayer_init_state in Hlay. cbv zeta in Hlay. subst s2.
  cbn [SS_DEV_NET.ch_mlp_layers SS_DEV_NET.ch_clip_params
    SS_DEV_NET.next_raw_input SS_DEV_NET.first_layer next_id initial].
  auto 10.
Qed.
End BuilderState.

(** ** The raw chain *)

Lemma chain_input_app input (chain rest : list HiddenLayer.t) (j : nat) :
  (j <= length chain)%nat ->
  chain_input input (chain ++ rest) j = chain_input input chain j.
Proof.
  intros Hj. destruct j as [|j]; [reflexivity|].
  cbn [chain_input]. rewrite lookup_app_l by lia. reflexivity.
Qed.

Lemma chain_input_snoc input (chain : list HiddenLayer.t) (lay : HiddenLayer.t) :
  chain_input input (chain ++ [lay]) (S (length chain)) = HiddenLayer.output lay.
Proof.
  cbn [chain_input]. rewrite lookup_app_r by lia.
  rewrite Nat.sub_diag. reflexivity.
Qed.

Lemma even_double (L : nat) : Nat.even (2 * L) = true.
Proof. rewrite Nat.even_mul. reflexivity. Qed.

Lemma even_double_succ (L : nat) : Nat.even (2 * L + 1) = false.
Proof. rewrite Nat.even_add, even_double. reflexivity. Qed.

Section RawLoop.
Context {G : Type} `{RandomState G}.
Variables (act_fun : texpr -> texpr) (input : texpr) (use_bias : bool) (K : nat).
Variables (n0 : nat) (σ0 : gmap nat ndarray).

Lemma raw_loop_invariant sizes c0 c (st st' : builder G) :
  raw_inv act_fun input use_bias n0 σ0 [] c0 st ->
  foldM (SS_DEV_NET.layer_step act_fun use_bias K) c0 sizes st = Ok (c, st') ->
  raw_inv act_fun input use_bias n0 σ0 sizes c st'.
Proof.
  intros Hinit Hrun.
  refine (foldM_invariant _ (raw_inv act_fun input use_bias n0 σ0) sizes _
            c0 st c st' Hinit Hrun).
  clear c0 c st st' Hinit Hrun.
  intros done [n_in n_out] rest c st c' st' _
    (Hlen & Hid & Hnext & Hlayers & Hclip & Hbase) Hstep.
  apply layer_step_Ok in Hstep as (raw & st1 & c2 & Hraw & Hloop & ->).
  pose proof (HiddenLayer_init_state _ _ _ _ _ _ _ _ _ _ _ Hraw) as Hst1.
  cbv zeta in Hst1. change (Qltb 0 0.01) with true in Hst1.
  apply HiddenLayer_init_Ok in Hraw
    as (HW & Hb & _ & Hin & _ & Hlin & Hout & Hdi & Hdo & _ & Hl2 & Hpar).
  cbv zeta in HW, Hb. change (Qltb 0 0.01) with true in Hin.
  injection HW as HW.
  apply clone_loop_frame in Hloop as (E1 & E2 & E3 & _ & E5 & E6).
  cbn [SS_DEV_NET.ch_mlp_layers SS_DEV_NET.ch_clip_params
    SS_DEV_NET.next_raw_input] in E1, E2, E3.
  unfold raw_inv.
  cbn [SS_DEV_NET.ch_mlp_layers SS_DEV_NET.ch_clip_params
    SS_DEV_NET.next_raw_input].
  rewrite E1, E2, E3, E5, E6, Hst1, !length_app. cbn [length next_id initial].
  split; [lia|]. split; [lia|]. split.
  { rewrite <- Hlen. replace (length (SS_DEV_NET.ch_mlp_layers c) + 1)%nat
      with (S (length (SS_DEV_NET.ch_mlp_layers c))) by lia.
    symmetry. apply chain_input_snoc. }
  split; [|split].
  - intros j r Hj. apply lookup_snoc_Some in Hj as [[Hlt Hj]|[-> ->]].
    + destruct (Hlayers j r Hj) as [(H1 & H2 & H3) [[g Hg] Hz]]. split.
      * unfold raw_layer_at. split; [apply lookup_app_l_Some, H1|].
        split; [|exact H3]. rewrite chain_input_app by lia. exact H2.
      * split; [exists g|]; rewrite !lookup_insert_ne by lia; assumption.
    + split.
      * unfold raw_layer_at. rewrite Hdi, Hdo.
        split; [rewrite Hlen; apply last_snoc_lookup|].
        split; [rewrite Hin, Hnext, Hlen, chain_input_app by lia; reflexivity|].
        split; [rewrite <- HW, Hid, Hlen; f_equal; lia|].
        split; [rewrite Hb, Hid, Hlen; f_equal; lia|].
        split; [exact Hlin|]. split; [exact Hout|]. split; [exact Hl2|exact Hpar].
      * unfold raw_initial. rewrite Hdi, Hdo. split.
        -- exists (rng st). rewrite lookup_insert_ne by lia.
           rewrite Hid, Hlen. apply lookup_insert_eq.
        -- replace (n0 + 2 * length (SS_DEV_NET.ch_mlp_layers c) + 1)%nat
             with (S (next_id st)) by lia.
           apply lookup_insert_eq.
  - intros k. rewrite <- HW, Hb. cbn [SS_DEV_NET.clip].
    unfold raw_clip. rewrite Hid.
    destruct (decide (k = S (n0 + 2 * length done))) as [->|Hk1].
    { rewrite lookup_insert_eq. rewrite decide_True by lia.
      replace (S (n0 + 2 * length done) - n0)%nat with (2 * length done + 1)%nat
        by lia.
      rewrite even_double_succ. reflexivity. }
    rewrite lookup_insert_ne by lia.
    destruct (decide (k = (n0 + 2 * length done)%nat)) as [->|Hk2].
    { rewrite lookup_insert_eq. rewrite decide_True by lia.
      replace (n0 + 2 * length done - n0)%nat with (2 * length done)%nat by lia.
      rewrite even_double. reflexivity. }
    rewrite lookup_insert_ne by lia. rewrite Hclip. unfold raw_clip.
    destruct (decide (n0 <= k < n0 + 2 * length done)%nat),
      (decide (n0 <= k < n0 + 2 * (length done + 1))%nat);
      try reflexivity; lia.
  - intros k Hk. rewrite !lookup_insert_ne by lia. apply Hbase, Hk.
Qed.
End RawLoop.

(** ** The chains of the clones *)

Section DropLoop.
Context {G : Type} `{RandomState G}.
Variables (act_fun : texpr -> texpr) (input : texpr) (use_bias : bool) (K : nat).

Lemma drop_layer_at_app clone rest j lay :
  (j <= length clone)%nat ->
  drop_layer_at act_fun input clone j lay ->
  drop_layer_at act_fun input (clone ++ rest) j lay.
Proof.
  intros Hj (seed & Hin & Hout). exists seed.
  rewrite chain_input_app by exact Hj. auto.
Qed.

Lemma drop_step_invariant n_in n_out L c0 c (st st' : builder G) :
  drop_step_inv act_fun input K L [] c0 st ->
  foldM (SS_DEV_NET.clone_step act_fun use_bias n_in n_out) c0 (seq 0 K) st =
    Ok (c, st') ->
  drop_step_inv act_fun input K L (seq 0 K) c st'.
Proof.
  intros Hinit Hrun.
  refine (foldM_invariant _ (drop_step_inv act_fun input K L) (seq 0 K) _
            c0 st c st' Hinit Hrun).
  clear c0 c st st' Hinit Hrun.
  intros done i rest c st c' st' Hseq (Hfirst & HlenC & HlenI & Hclones) Hstep.
  apply seq_split in Hseq as [-> HiK].
  apply clone_step_Ok in Hstep
    as (clone & inp & raw & lay & Hclone & Hinp & _ & Hlay & ->).
  apply HiddenLayer_init_Ok in Hlay as (_ & _ & _ & Hin & _ & _ & Hout & _).
  destruct (Hclones _ _ Hclone) as (Hlen & Hnext & Hlays).
  cbv zeta in Hlen, Hnext. rewrite decide_False in Hlen, Hnext by lia.
  rewrite Hinp in Hnext. injection Hnext as ->.
  unfold drop_step_inv.
  cbn [SS_DEV_NET.first_layer SS_DEV_NET.ch_dev_clones
    SS_DEV_NET.next_drop_inputs].
  rewrite !length_insert, length_app. cbn [length].
  split; [exact Hfirst|]. split; [exact HlenC|]. split; [exact HlenI|].
  intros i clone' Hi. cbv zeta.
  destruct (decide (i = length done)) as [->|Hne].
  - rewrite list_lookup_insert_eq in Hi by lia. injection Hi as <-.
    rewrite decide_True by lia. rewrite length_app. cbn [length].
    split; [lia|]. split.
    + rewrite list_lookup_insert_eq by lia. f_equal.
      rewrite <- Hlen. symmetry. apply chain_input_snoc.
    + intros j l Hj. apply lookup_snoc_Some in Hj as [[Hlt Hj]|[-> ->]].
      * apply drop_layer_at_app; [lia|]. apply Hlays, Hj.
      * exists (randint 100000 (rng st)).1.
        rewrite chain_input_app by lia. split; [|exact Hout].
        rewrite Hin, Hfirst, Hlen.
        destruct L; reflexivity.
  - rewrite list_lookup_insert_ne in Hi by congruence.
    rewrite list_lookup_insert_ne by congruence.
    destruct (Hclones _ _ Hi) as (Hlen' & Hnext' & Hlays'). cbv zeta in Hlen', Hnext'.
    destruct (decide (i < length done)%nat), (decide (i < length done + 1)%nat);
      try lia; auto.
Qed.

Lemma drop_loop_invariant sizes c0 c (st st' : builder G) :
  drop_inv act_fun input K [] c0 st ->
  foldM (SS_DEV_NET.layer_step act_fun use_bias K) c0 sizes st = Ok (c, st') ->
  drop_inv act_fun input K sizes c st'.
Proof.
  intros Hinit Hrun.
  refine (foldM_invariant _ (drop_inv act_fun input K) sizes _
            c0 st c st' Hinit Hrun).
  clear c0 c st st' Hinit Hrun.
  intros done [n_in n_out] rest c st c' st' _
    (Hfirst & HlenC & HlenI & Hclones) Hstep.
  apply layer_step_Ok in Hstep as (raw & st1 & c2 & _ & Hloop & ->).
  apply (drop_step_invariant _ _ (length done)) in Hloop.
  - destruct Hloop as (_ & HlenC2 & HlenI2 & Hclones2).
    unfold drop_inv.
    cbn [SS_DEV_NET.first_layer SS_DEV_NET.ch_dev_clones
      SS_DEV_NET.next_drop_inputs].
    rewrite length_app. cbn [length].
    split; [rewrite bool_decide_eq_false_2 by lia; reflexivity|].
    split; [exact HlenC2|]. split; [exact HlenI2|].
    intros i clone Hi. destruct (Hclones2 _ _ Hi) as (Hlen & Hnext & Hlays).
    cbv zeta in Hlen, Hnext. apply lookup_lt_Some in Hi.
    rewrite length_seq, decide_True in Hlen, Hnext by lia.
    replace (length done + 1)%nat with (S (length done)) by lia. auto.
  - unfold drop_step_inv.
    cbn [SS_DEV_NET.first_layer SS_DEV_NET.ch_dev_clones
      SS_DEV_NET.next_drop_inputs length].
    split; [exact Hfirst|]. split; [exact HlenC|]. split; [exact HlenI|].
    intros i clone Hi. cbv zeta. rewrite decide_False by lia.
    apply Hclones, Hi.
Qed.
End DropLoop.

(** ** The wiring of the autoencoders *)

Section DaeWiring.
Context {G : Type} `{RandomState G}.

Lemma dae_wiring_invariant act_fun mlp n1 clip1 σ1 range d d' (st st' : builder G) :
  range = seq 0 (length range) ->
  dae_wiring_inv act_fun mlp n1 clip1 σ1 [] d st ->
  foldM (SS_DEV_NET.dae_layer_step act_fun mlp 0.25) d range st = Ok (d', st') ->
  dae_wiring_inv act_fun mlp n1 clip1 σ1 range d' st'.
Proof.
  intros Hseq Hinit Hrun.
  refine (foldM_invariant _ (dae_wiring_inv act_fun mlp n1 clip1 σ1) range _
            d st d' st' Hinit Hrun).
  clear d d' st st' Hinit Hrun.
  intros done i rest d st d' st' Hsplit
    (Hid & Hrl & Hsl & Hl1 & Hl2 & Hwired & Hlow & Hhigh) Hstep.
  assert (Hi : i = length done).
  { rewrite Hseq in Hsplit. apply seq_split in Hsplit. tauto. }
  unfold SS_DEV_NET.dae_layer_step in Hstep.
  apply build_bind_Ok in Hstep as (raw & s1 & Hraw & Hstep).
  apply lift_Ok in Hraw as [Hraw%py_index_Ok ->].
  apply build_bind_Ok in Hstep as (input_enc & s2 & Hnoise & Hstep).
  assert (Hs2 : s2 = Builder (randint 100000 (rng st)).2 (next_id st) (initial st)).
  { unfold SS_DEV_NET._masking_noise in Hnoise.
    apply build_bind_Ok in Hnoise as (seed & s0 & Hseed & Hnoise).
    apply build_ret_Ok in Hnoise as [_ ->].
    apply rng_randint_Ok in Hseed as [_ ->]. reflexivity. }
  apply masking_noise_Ok in Hnoise as [-> _].
  apply build_bind_Ok in Hstep as (encoder & s3 & Henc & Hstep).
  apply build_bind_Ok in Hstep as (raw_decoder & s4 & Hrd & Hstep).
  apply build_bind_Ok in Hstep as (sde_decoder & s5 & Hsd & Hstep).
  apply build_ret_Ok in Hstep as [-> ->].
  pose proof (HiddenLayer_init_state _ _ _ _ _ _ _ _ _ _ _ Henc) as Hs3.
  pose proof (HiddenLayer_init_state _ _ _ _ _ _ _ _ _ _ _ Hrd) as Hs4.
  pose proof (HiddenLayer_init_state _ _ _ _ _ _ _ _ _ _ _ Hsd) as Hs5.
  pose proof (HiddenLayer_init_l1 _ _ _ _ _ _ _ _ _ _ _ Hrd) as [_ Hl1r].
  pose proof (HiddenLayer_init_l1 _ _ _ _ _ _ _ _ _ _ _ Hsd) as [_ Hl1s].
  cbv zeta in Hs3, Hs4, Hs5.
  change (Qltb 0 0.01) with true in Hs3, Hs4.
  change (Qltb 0.5 0.01) with false in Hs5.
  apply HiddenLayer_init_Ok in Henc
    as (HWe & Hbe & _ & Hine & _ & Hline & Houte & Hdie & Hdoe & _).
  apply HiddenLayer_init_Ok in Hrd
    as (HWr & Hbr & _ & Hinr & _ & Hlinr & Houtr & Hdir & Hdor & _).
  apply HiddenLayer_init_Ok in Hsd
    as (HWs & Hbs & _ & Hins & _ & Hlins & Houts & Hdis & Hdos & _).
  cbv zeta in HWe, Hbe, HWr, Hbr, HWs, Hbs.
  change (Qltb 0 0.01) with true in Hine, Hinr.
  change (Qltb 0.5 0.01) with false in Hins.
  injection HWe as HWe. injection HWr as HWr.
  rewrite rescaled_Ok in HWs by (intros _ Heq; vm_compute in Heq; discriminate Heq).
  change (Qltb 0.5 0.01) with false in HWs. injection HWs as HWs.
  subst s2 s3 s4 s5. cbn [next_id initial rng] in *.
  unfold dae_wiring_inv.
  cbn [SS_DEV_NET.dae_raw_losses SS_DEV_NET.dae_sde_losses
    SS_DEV_NET.dae_raw_layers SS_DEV_NET.dae_sde_layers
    SS_DEV_NET.dae_clip_params next_id initial].
  rewrite !length_app. cbn [length].
  split; [lia|]. split; [exact Hrl|]. split; [exact Hsl|].
  split; [lia|]. split; [lia|].
  assert (Hbias : HiddenLayer.b raw_decoder = Shared (n1 + length done)).
  { rewrite Hbr. f_equal. lia. }
  rewrite Hbias. cbn [SS_DEV_NET.clip]. split; [|split].
  - intros j Hj. destruct (decide (j < length done)%nat) as [Hlt|Hge].
    + destruct (Hwired j Hlt)
        as (r & e & rd & sd & seed & seed' & H1 & H2 & H3 & Hrest).
      exists r, e, rd, sd, seed, seed'.
      cbn [SS_DEV_NET.dae_raw_layers SS_DEV_NET.dae_sde_layers
        SS_DEV_NET.dae_clip_params].
      split; [exact H1|]. split; [apply lookup_app_l_Some, H2|].
      split; [apply lookup_app_l_Some, H3|].
      rewrite !lookup_insert_ne by lia. exact Hrest.
    + assert (j = length done) as -> by lia. subst i.
      exists raw, encoder, raw_decoder, sde_decoder,
        (randint 100000 (rng st)).1,
        (randint 100000 (randint 100000 (rng st)).2).1.
      cbn [SS_DEV_NET.dae_raw_layers SS_DEV_NET.dae_sde_layers
        SS_DEV_NET.dae_clip_params].
      split; [exact Hraw|].
      split; [rewrite <- Hl1; apply last_snoc_lookup|].
      split; [rewrite <- Hl2; apply last_snoc_lookup|].
      split; [exact Hine|].
      split; [rewrite Hline, <- HWe, Hbe; reflexivity|].
      split; [exact Houte|]. split; [exact Hdie|]. split; [exact Hdoe|].
      split; [exact Hinr|]. split; [exact Hdir|]. split; [exact Hdor|].
      split; [rewrite Hlinr, Hinr, <- HWr, Hbias; reflexivity|].
      split; [exact Houtr|].
      split; [exact Hins|]. split; [exact Hdis|]. split; [exact Hdos|].
      split; [rewrite Hlins, <- HWs, Hbs, Hbias; reflexivity|].
      split; [exact Houts|]. split; [exact Hl1r|]. split; [exact Hl1s|].
      split; [replace (n1 + length done)%nat with (next_id st) by lia;
              apply lookup_insert_eq|].
      split; [apply lookup_insert_eq|].
      split; [exact Hbias|]. rewrite Hbs. exact Hbias.
  - intros k Hk. rewrite !lookup_insert_ne by lia. apply Hlow, Hk.
  - intros k Hk. rewrite lookup_insert_ne by lia. apply Hhigh. lia.
Qed.
Lemma dae_loss_invariant mlp lam_l1 range d0 d (st0 st : builder G) :
  range = seq 0 (length range) ->
  SS_DEV_NET.dae_raw_losses d0 = [] ->
  SS_DEV_NET.dae_sde_losses d0 = [] ->
  (forall i, (i < length range)%nat ->
     exists e rd sd,
       SS_DEV_NET.dae_raw_layers d0 !! i = Some [e; rd] /\
       SS_DEV_NET.dae_sde_layers d0 !! i = Some [e; sd]) ->
  foldM (fun d i => lift (SS_DEV_NET.dae_loss_step 1 mlp lam_l1 d i))
    d0 range st0 = Ok (d, st) ->
  dae_loss_inv mlp lam_l1 d0 st0 range d st.
Proof.
  intros Hseq Hr0 Hs0 Hpairs Hrun.
  refine (foldM_invariant _ (dae_loss_inv mlp lam_l1 d0 st0) range _
            d0 st0 d st _ Hrun).
  2:{ unfold dae_loss_inv. rewrite Hr0, Hs0. cbn [length].
      do 7 (split; [reflexivity|]). intros i Hi. lia. }
  clear d st Hrun.
  intros done i rest d st d' st' Hsplit
    (-> & E1 & E2 & E3 & E4 & Hl1 & Hl2 & Hlosses) Hstep.
  assert (Hi : i = length done).
  { rewrite Hseq in Hsplit. apply seq_split in Hsplit. tauto. }
  apply lift_Ok in Hstep as [Hstep ->].
  unfold SS_DEV_NET.dae_loss_step in Hstep.
  destruct (py_index mlp i) as [raw|] eqn:Hraw;
    cbn [mbind res_bind] in Hstep; [|discriminate Hstep].
  destruct (py_index (SS_DEV_NET.dae_raw_layers d) i) as [raw_pair|] eqn:Hrp;
    cbn [mbind res_bind] in Hstep; [|discriminate Hstep].
  destruct (py_index raw_pair 1) as [raw_decoder|] eqn:Hrd;
    cbn [mbind res_bind] in Hstep; [|discriminate Hstep].
  destruct (py_index (SS_DEV_NET.dae_sde_layers d) i) as [sde_pair|] eqn:Hsp;
    cbn [mbind res_bind] in Hstep; [|discriminate Hstep].
  destruct (py_index sde_pair 1) as [sde_decoder|] eqn:Hsd;
    cbn [mbind res_bind] in Hstep; [|discriminate Hstep].
  change (Z.eqb 1 1) with true in Hstep. cbv iota beta in Hstep.
  injection Hstep as <-.
  apply py_index_Ok in Hraw, Hrp, Hrd, Hsp, Hsd.
  rewrite E1 in Hrp. rewrite E2 in Hsp.
  unfold dae_loss_inv.
  cbn [SS_DEV_NET.dae_raw_layers SS_DEV_NET.dae_sde_layers
    SS_DEV_NET.dae_dae_params SS_DEV_NET.dae_clip_params
    SS_DEV_NET.dae_raw_losses SS_DEV_NET.dae_sde_losses].
  rewrite !length_app. cbn [length].
  split; [reflexivity|]. do 4 (split; [assumption|]).
  split; [lia|]. split; [lia|].
  intros j Hj. destruct (decide (j < length done)%nat) as [Hlt|Hge].
  - destruct (Hlosses j Hlt) as [(r & e & dd & H1 & H2 & H3)
                                  (r' & e' & dd' & H1' & H2' & H3')].
    split; [exists r, e, dd|exists r', e', dd'];
      (split; [assumption|]); (split; [assumption|]);
      apply lookup_app_l_Some; assumption.
  - assert (j = length done) as -> by lia. subst i.
    destruct (Hpairs (length done)) as (e & rd & sd & Hr & Hs).
    { rewrite Hsplit, length_app. cbn [length]. lia. }
    rewrite Hr in Hrp. rewrite Hs in Hsp. injection Hrp as <-. injection Hsp as <-.
    injection Hrd as <-. injection Hsd as <-.
    split; [exists raw, e, rd|exists raw, e, sd];
      (split; [assumption|]); (split; [assumption|]).
    + rewrite <- Hl1. apply last_snoc_lookup.
    + rewrite <- Hl2. apply last_snoc_lookup.
Qed.

(** What a successful call of [_construct_dae_layers], as [__init__] makes
    it, returns. *)
Lemma construct_dae_layers_wired act_fun mlp clip1 d (st st' : builder G) :
  SS_DEV_NET._construct_dae_layers act_fun 1 mlp clip1 0.01 0.25 st = Ok (d, st') ->
  let n := (length mlp - 1)%nat in
  next_id st' = (next_id st + n)%nat /\
  length (SS_DEV_NET.dae_raw_layers d) = n /\
  length (SS_DEV_NET.dae_sde_layers d) = n /\
  length (SS_DEV_NET.dae_raw_losses d) = n /\
  length (SS_DEV_NET.dae_sde_losses d) = n /\
  (forall i, (i < n)%nat ->
     dae_wired act_fun mlp (next_id st) d (initial st') i /\
     dae_loss_at mlp (SS_DEV_NET.dae_raw_layers d) (SS_DEV_NET.dae_raw_losses d)
       0.01 i /\
     dae_loss_at mlp (SS_DEV_NET.dae_sde_layers d) (SS_DEV_NET.dae_sde_losses d)
       0.01 i) /\
  (forall k, (k < next_id st)%nat ->
     initial st' !! k = initial st !! k /\
     SS_DEV_NET.dae_clip_params d !! k = clip1 !! k) /\
  (forall k, (next_id st + n <= k)%nat ->
     SS_DEV_NET.dae_clip_params d !! k = clip1 !! k).
Proof.
  unfold SS_DEV_NET._construct_dae_layers. intros Hrun. cbv zeta.
  apply build_bind_Ok in Hrun as (d1 & s1 & Hlayers & Hlosses).
  apply (dae_wiring_invariant _ _ (next_id st) clip1 (initial st)) in Hlayers.
  2:{ rewrite length_seq. reflexivity. }
  2:{ unfold dae_wiring_inv.
      cbn [SS_DEV_NET.dae_raw_losses SS_DEV_NET.dae_sde_losses
        SS_DEV_NET.dae_raw_layers SS_DEV_NET.dae_sde_layers
        SS_DEV_NET.dae_clip_params length].
      split; [lia|]. do 4 (split; [reflexivity|]).
      split; [intros i Hi; lia|]. split; auto. }
  destruct Hlayers as (Hid & Hr0 & Hs0 & Hl1 & Hl2 & Hwired & Hlow & Hhigh).
  rewrite length_seq in Hid, Hl1, Hl2, Hwired, Hhigh.
  apply dae_loss_invariant in Hlosses;
    [|rewrite length_seq; reflexivity|assumption..|].
  2:{ rewrite length_seq. intros i Hi.
      destruct (Hwired i Hi) as (r & e & rd & sd & _ & _ & _ & H2 & H3 & _).
      exists e, rd, sd. auto. }
  destruct Hlosses as (-> & E1 & E2 & _ & E4 & Hn1 & Hn2 & Hlosses).
  rewrite length_seq in Hn1, Hn2, Hlosses. rewrite E1, E2.
  do 5 (split; [assumption|]). split; [|split].
  - intros i Hi. destruct (Hlosses i Hi) as [Hraw Hsde].
    split; [|split; assumption].
    destruct (Hwired i Hi) as (r & e & rd & sd & seed & seed' & Hw).
    exists r, e, rd, sd, seed, seed'. rewrite E1, E2, E4. exact Hw.
  - intros k Hk. rewrite E4. apply Hlow, Hk.
  - intros k Hk. rewrite E4. apply Hhigh, Hk.
Qed.
End DaeWiring.

(** ** The structure of a constructed network *)

Lemma length_sizes (ls : list nat) : length (zip ls (tail ls)) = (length ls - 1)%nat.
Proof. rewrite length_zip_with, length_tl. lia. Qed.

Lemma lookup_sizes (ls : list nat) (j a b : nat) :
  zip ls (tail ls) !! j = Some (a, b) -> ls !! j = Some a /\ ls !! S j = Some b.
Proof.
  intros [Hx Hy]%lookup_zip_Some. rewrite lookup_tail in Hy. auto.
Qed.

Section Structure.
Context {G : Type} `{RandomState G} `{output_losses}.

(** The two loops of a successful call of [SS_DEV_NET.__init__], and the
    attributes it sets from them. *)
Lemma SS_DEV_NET_init_runs input params (st st' : builder G) net :
  SS_DEV_NET.__init__ input params st = Ok (net, st') ->
  exists c st1 d,
    foldM (SS_DEV_NET.layer_step Sigmoid (Params.use_bias params)
             (Params.dev_clones params))
      {| SS_DEV_NET.ch_clip_params := ∅;
         SS_DEV_NET.ch_mlp_layers := [];
         SS_DEV_NET.ch_dev_clones := replicate (Params.dev_clones params) [];
         SS_DEV_NET.next_raw_input := input;
         SS_DEV_NET.next_drop_inputs := replicate (Params.dev_clones params) input;
         SS_DEV_NET.first_layer := true |}
      (zip (Params.layer_sizes params) (tail (Params.layer_sizes params)))
      (Builder (rng st) (S (next_id st))
         (<[next_id st := Array1 (Params.dev_lams params)]> (initial st))) =
      Ok (c, st1) /\
    SS_DEV_NET._construct_dae_layers Sigmoid 1 (SS_DEV_NET.ch_mlp_layers c)
      (SS_DEV_NET.ch_clip_params c) 0.01 0.25 st1 = Ok (d, st') /\
    SS_DEV_NET.ch_mlp_layers c <> [] /\
    SS_DEV_NET.input net = input /\
    SS_DEV_NET.dev_lams net = Shared (next_id st) /\
    SS_DEV_NET.mlp_layers net = SS_DEV_NET.ch_mlp_layers c /\
    SS_DEV_NET.layers net = SS_DEV_NET.ch_mlp_layers c /\
    SS_DEV_NET.layer_count net = length (SS_DEV_NET.ch_mlp_layers c) /\
    SS_DEV_NET.mlp_params net =
      concat (map HiddenLayer.params (SS_DEV_NET.ch_mlp_layers c)) /\
    SS_DEV_NET.dev_clones net = SS_DEV_NET.ch_dev_clones c /\
    SS_DEV_NET.clip_params net = SS_DEV_NET.dae_clip_params d /\
    SS_DEV_NET.raw_dae_layers net = SS_DEV_NET.dae_raw_layers d /\
    SS_DEV_NET.sde_dae_layers net = SS_DEV_NET.dae_sde_layers d /\
    SS_DEV_NET.raw_dae_losses net = SS_DEV_NET.dae_raw_losses d /\
    SS_DEV_NET.sde_dae_losses net = SS_DEV_NET.dae_sde_losses d /\
    SS_DEV_NET.raw_reg_loss net =
      Mul (Const (Params.lam_l2a params))
        (Sum (Stack (map HiddenLayer.act_l2_sum (SS_DEV_NET.ch_mlp_layers c)))).
Proof.
  unfold SS_DEV_NET.__init__. intros Hrun.
  apply build_bind_Ok in Hrun as (lams & s0 & Hlams & Hrun).
  apply theano_shared_Ok in Hlams as [-> ->].
  apply build_bind_Ok in Hrun as (c & st1 & Hmain & Hrun).
  apply build_bind_Ok in Hrun as (d & st2 & Hdae & Hrun).
  apply build_bind_Ok in Hrun as (raw_top & st3 & Hraw & Hrun).
  apply lift_Ok in Hraw as [Hraw%py_last_Ok ->].
  apply build_bind_Ok in Hrun as (clone0 & st4 & Hc0 & Hrun).
  apply lift_Ok in Hc0 as [_ ->].
  apply build_bind_Ok in Hrun as (sde_top & st5 & Hsde & Hrun).
  apply lift_Ok in Hsde as [_ ->].
  apply build_ret_Ok in Hrun as [-> ->].
  exists c, st1, d. split; [exact Hmain|]. split; [exact Hdae|].
  split; [intros Hnil; rewrite Hnil in Hraw; discriminate Hraw|].
  repeat (split; [reflexivity|]). reflexivity.
Qed.

(** The chains and the autoencoders of a constructed network. *)
Lemma SS_DEV_NET_init_structure input params (st st' : builder G) net :
  SS_DEV_NET.__init__ input params st = Ok (net, st') ->
  let sizes := zip (Params.layer_sizes params) (tail (Params.layer_sizes params)) in
  let L := (length (Params.layer_sizes params) - 1)%nat in
  exists c st1 d,
    raw_inv Sigmoid input (Params.use_bias params) (S (next_id st))
      (<[next_id st := Array1 (Params.dev_lams params)]> (initial st))
      sizes c st1 /\
    drop_inv Sigmoid input (Params.dev_clones params) sizes c st1 /\
    SS_DEV_NET._construct_dae_layers Sigmoid 1 (SS_DEV_NET.ch_mlp_layers c)
      (SS_DEV_NET.ch_clip_params c) 0.01 0.25 st1 = Ok (d, st') /\
    length (SS_DEV_NET.ch_mlp_layers c) = L /\
    (1 <= L)%nat /\
    next_id st1 = (S (next_id st) + 2 * L)%nat /\
    SS_DEV_NET.input net = input /\
    SS_DEV_NET.dev_lams net = Shared (next_id st) /\
    SS_DEV_NET.mlp_layers net = SS_DEV_NET.ch_mlp_layers c /\
    SS_DEV_NET.layers net = SS_DEV_NET.ch_mlp_layers c /\
    SS_DEV_NET.layer_count net = L /\
    SS_DEV_NET.mlp_params net =
      concat (map HiddenLayer.params (SS_DEV_NET.ch_mlp_layers c)) /\
    SS_DEV_NET.dev_clones net = SS_DEV_NET.ch_dev_clones c /\
    SS_DEV_NET.clip_params net = SS_DEV_NET.dae_clip_params d /\
    SS_DEV_NET.raw_dae_layers net = SS_DEV_NET.dae_raw_layers d /\
    SS_DEV_NET.sde_dae_layers net = SS_DEV_NET.dae_sde_layers d /\
    SS_DEV_NET.raw_dae_losses net = SS_DEV_NET.dae_raw_losses d /\
    SS_DEV_NET.sde_dae_losses net = SS_DEV_NET.dae_sde_losses d /\
    SS_DEV_NET.raw_reg_loss net =
      Mul (Const (Params.lam_l2a params))
        (Sum (Stack (map HiddenLayer.act_l2_sum (SS_DEV_NET.ch_mlp_layers c)))).
Proof.
  intros Hrun. cbv zeta.
  apply SS_DEV_NET_init_runs in Hrun
    as (c & st1 & d & Hmain & Hdae & Hne & Hfields).
  pose proof Hmain as Hraw.
  apply (raw_loop_invariant _ input _ _ (S (next_id st))
           (<[next_id st := Array1 (Params.dev_lams params)]> (initial st)))
    in Hraw.
  2:{ unfold raw_inv.
      cbn [SS_DEV_NET.ch_mlp_layers SS_DEV_NET.ch_clip_params
        SS_DEV_NET.next_raw_input length next_id initial chain_input].
      split; [reflexivity|]. split; [lia|]. split; [reflexivity|].
      split; [intros j raw Hj; discriminate Hj|]. split; [|reflexivity].
      intros k. unfold raw_clip. rewrite decide_False by lia.
      apply lookup_empty. }
  pose proof Hmain as Hdrop.
  apply (drop_loop_invariant _ input) in Hdrop.
  2:{ unfold drop_inv.
      cbn [SS_DEV_NET.first_layer SS_DEV_NET.ch_dev_clones
        SS_DEV_NET.next_drop_inputs length].
      rewrite !length_replicate. do 3 (split; [reflexivity|]).
      intros i clone [-> Hi]%lookup_replicate. split; [reflexivity|].
      split; [apply lookup_replicate; auto|].
      intros j lay Hj. discriminate Hj. }
  exists c, st1, d. split; [exact Hraw|]. split; [exact Hdrop|].
  split; [exact Hdae|].
  destruct Hraw as (Hlen & Hid & _). rewrite length_sizes in Hlen, Hid.
  split; [exact Hlen|].
  split; [destruct (SS_DEV_NET.ch_mlp_layers c); [contradiction|cbn in Hlen; lia]|].
  split; [exact Hid|].
  destruct Hfields as (F1 & F2 & F3 & F4 & F5 & Frest).
  rewrite Hlen in F5. auto 20.
Qed.
End Structure.

Section ChainTheorems.
Context {G : Type} `{RandomState G} `{output_losses}.

(** X9.  The raw net of a constructed network is a chain: one layer for each
    pair of consecutive layer sizes, with those dimensions; the first layer
    reads the input of the network and every later layer the output of the
    layer before it; each computes the sigmoid of (input . W + b), or of
    (input . W) when the network was asked for without bias. *)
Theorem raw_chain_structure input params (st st' : builder G) net :
  SS_DEV_NET.__init__ input params st = Ok (net, st') ->
  let ls := Params.layer_sizes params in
  SS_DEV_NET.input net = input /\
  SS_DEV_NET.layer_count net = (length ls - 1)%nat /\
  length (SS_DEV_NET.mlp_layers net) = (length ls - 1)%nat /\
  SS_DEV_NET.layers net = SS_DEV_NET.mlp_layers net /\
  forall j raw, SS_DEV_NET.mlp_layers net !! j = Some raw ->
    ls !! j = Some (HiddenLayer.in_dim raw) /\
    ls !! S j = Some (HiddenLayer.out_dim raw) /\
    HiddenLayer.input raw =
      match j with
      | O => input
      | S j' => from_option HiddenLayer.output input (SS_DEV_NET.mlp_layers net !! j')
      end /\
    (forall j' prev, j = S j' -> SS_DEV_NET.mlp_layers net !! j' = Some prev ->
       HiddenLayer.input raw = HiddenLayer.output prev) /\
    HiddenLayer.linear_output raw =
      (if Params.use_bias params
       then Add (Dot (HiddenLayer.input raw) (HiddenLayer.W raw)) (HiddenLayer.b raw)
       else Dot (HiddenLayer.input raw) (HiddenLayer.W raw)) /\
    HiddenLayer.output raw = Sigmoid (HiddenLayer.linear_output raw).
Proof.
  intros Hrun. cbv zeta.
  apply SS_DEV_NET_init_structure in Hrun
    as (c & st1 & d & Hraw & _ & _ & Hlen & _ & _ & Hinp & _ & Hmlp & Hlay & Hcount & _).
  cbv zeta in Hraw. rewrite Hmlp, Hlay.
  split; [exact Hinp|]. split; [exact Hcount|]. split; [exact Hlen|].
  split; [reflexivity|].
  intros j raw Hj. destruct Hraw as (_ & _ & _ & Hlayers & _).
  destruct (Hlayers j raw Hj) as [(Hs & Hi & _ & _ & Hlin & Hout & _) _].
  apply lookup_sizes in Hs as [Hs1 Hs2].
  split; [exact Hs1|]. split; [exact Hs2|]. split; [exact Hi|].
  split; [|split; [exact Hlin|exact Hout]].
  intros j' prev -> Hprev. rewrite Hi. cbn [chain_input]. rewrite Hprev. reflexivity.
Qed.

(** X10.  Every clone of a constructed network is a chain of its own, as long
    as the raw net: layer 0 reads the input of the network and every later
    layer the output of the layer before it in the same clone, each through
    a 0/1 mask of a random stream with its own seed, with keep probability
    1 - 0.2 at layer 0 and 1 - 0.5 after; the masked input has the entry of
    the input where the mask is 1 and 0 elsewhere. *)
Theorem clone_chain_structure input params (st st' : builder G) net :
  SS_DEV_NET.__init__ input params st = Ok (net, st') ->
  length (SS_DEV_NET.dev_clones net) = Params.dev_clones params /\
  forall i clone, SS_DEV_NET.dev_clones net !! i = Some clone ->
    length clone = SS_DEV_NET.layer_count net /\
    forall j lay, clone !! j = Some lay ->
      let prev :=
        match j with
        | O => input
        | S j' => from_option HiddenLayer.output input (clone !! j')
        end in
      exists seed,
        HiddenLayer.input lay =
          Mul prev (Cast (Binomial seed (1 - drop_rate_at j) prev)) /\
        HiddenLayer.output lay = Sigmoid (HiddenLayer.linear_output lay) /\
        forall ρ x, eval ρ prev = Ok (Matrix x) ->
          eval ρ (HiddenLayer.input lay) =
            Ok (Matrix
                  (zip_with (zip_with Rmult) x
                     (imap (fun r row =>
                        imap (fun k _ =>
                          of_bit (binomial_draw ρ seed (1 - drop_rate_at j) r k))
                          row) x))).
Proof.
  intros Hrun.
  apply SS_DEV_NET_init_structure in Hrun
    as (c & st1 & d & _ & Hdrop & _ & _ & _ & _ & _ & _ & _ & _ & Hcount & _ &
        Hclones & _).
  cbv zeta in Hdrop. rewrite Hclones, Hcount.
  destruct Hdrop as (_ & HlenC & _ & Hcl). split; [exact HlenC|].
  intros i clone Hi. destruct (Hcl i clone Hi) as (Hlen & _ & Hlays).
  rewrite length_sizes in Hlen. split; [exact Hlen|].
  intros j lay Hj. cbv zeta. destruct (Hlays j lay Hj) as (seed & Hin & Hout).
  exists seed. split; [exact Hin|]. split; [exact Hout|].
  intros ρ x Hx. rewrite Hin. apply eval_dropped_input, Hx.
Qed.
End ChainTheorems.

Lemma raw_chain_structure_witness :
  exists net st',
    SS_DEV_NET.__init__ (Var "x") example_params Lcg.start = Ok (net, st') /\
    let ls := Params.layer_sizes example_params in
    SS_DEV_NET.input net = Var "x" /\
    SS_DEV_NET.layer_count net = (length ls - 1)%nat /\
    length (SS_DEV_NET.mlp_layers net) = (length ls - 1)%nat /\
    SS_DEV_NET.layers net = SS_DEV_NET.mlp_layers net /\
    forall j raw, SS_DEV_NET.mlp_layers net !! j = Some raw ->
      ls !! j = Some (HiddenLayer.in_dim raw) /\
      ls !! S j = Some (HiddenLayer.out_dim raw) /\
      HiddenLayer.input raw =
        match j with
        | O => Var "x"
        | S j' =>
            from_option HiddenLayer.output (Var "x") (SS_DEV_NET.mlp_layers net !! j')
        end /\
      (forall j' prev, j = S j' -> SS_DEV_NET.mlp_layers net !! j' = Some prev ->
         HiddenLayer.input raw = HiddenLayer.output prev) /\
      HiddenLayer.linear_output raw =
        (if Params.use_bias example_params
         then Add (Dot (HiddenLayer.input raw) (HiddenLayer.W raw)) (HiddenLayer.b raw)
         else Dot (HiddenLayer.input raw) (HiddenLayer.W raw)) /\
      HiddenLayer.output raw = Sigmoid (HiddenLayer.linear_output raw).
Proof.
  destruct (SS_DEV_NET.__init__ (Var "x") example_params Lcg.start)
    as [[net st']|e] eqn:Hrun; [|vm_compute in Hrun; discriminate Hrun].
  exists net, st'. split; [reflexivity|].
  exact (raw_chain_structure (G:=Z) _ _ _ _ _ Hrun).
Defined.

Lemma clone_chain_structure_witness :
  exists net st',
    SS_DEV_NET.__init__ (Var "x") example_params Lcg.start = Ok (net, st') /\
    length (SS_DEV_NET.dev_clones net) = Params.dev_clones example_params /\
    forall i clone, SS_DEV_NET.dev_clones net !! i = Some clone ->
      length clone = SS_DEV_NET.layer_count net /\
      forall j lay, clone !! j = Some lay ->
        let prev :=
          match j with
          | O => Var "x"
          | S j' => from_option HiddenLayer.output (Var "x") (clone !! j')
          end in
        exists seed,
          HiddenLayer.input lay =
            Mul prev (Cast (Binomial seed (1 - drop_rate_at j) prev)) /\
          HiddenLayer.output lay = Sigmoid (HiddenLayer.linear_output lay) /\
          forall ρ x, eval ρ prev = Ok (Matrix x) ->
            eval ρ (HiddenLayer.input lay) =
              Ok (Matrix
                    (zip_with (zip_with Rmult) x
                       (imap (fun r row =>
                          imap (fun k _ =>
                            of_bit (binomial_draw ρ seed (1 - drop_rate_at j) r k))
                            row) x))).
Proof.
  destruct (SS_DEV_NET.__init__ (Var "x") example_params Lcg.start)
    as [[net st']|e] eqn:Hrun; [|vm_compute in Hrun; discriminate Hrun].
  exists net, st'. split; [reflexivity|].
  exact (clone_chain_structure (G:=Z) _ _ _ _ _ Hrun).
Defined.

(** ** The parameters of a constructed network *)

Lemma concat_map_indexed {A B} (g : A -> list B) (f : nat -> list B) (l : list A) :
  (forall j x, l !! j = Some x -> g x = f j) ->
  concat (map g l) = flat_map f (seq 0 (length l)).
Proof.
  induction l as [|x l IH] using rev_ind; intros Hg; [reflexivity|].
  rewrite map_app, concat_app, length_app. cbn [length map concat].
  rewrite Nat.add_1_r, seq_S, flat_map_app. cbn [flat_map].
  rewrite !app_nil_r, IH.
  - f_equal. apply Hg. apply last_snoc_lookup.
  - intros j y Hj. apply Hg, lookup_app_l_Some, Hj.
Qed.

(** The parameters of the raw layers, as [mlp_params] lists them. *)
Lemma raw_params_NoDup (use_bias : bool) (n0 L : nat) :
  NoDup (flat_map (fun j => if use_bias
                            then [Shared (n0 + 2 * j); Shared (n0 + 2 * j + 1)]
                            else [Shared (n0 + 2 * j)]) (seq 0 L)) /\
  forall e, e ∈ flat_map (fun j => if use_bias
                            then [Shared (n0 + 2 * j); Shared (n0 + 2 * j + 1)]
                            else [Shared (n0 + 2 * j)]) (seq 0 L) ->
    exists k, e = Shared k /\ (n0 <= k < n0 + 2 * L)%nat.
Proof.
  induction L as [|L [IH1 IH2]].
  - split; [constructor|]. intros e He. cbn in He. inversion He.
  - rewrite seq_S, flat_map_app. cbn [flat_map]. rewrite app_nil_r. split.
    + apply NoDup_app. split; [exact IH1|]. split.
      * intros e He Hnew. apply IH2 in He as (k & -> & Hk).
        destruct use_bias;
          repeat (apply elem_of_cons in Hnew as [[= Hnew]|Hnew]; [lia|]);
          inversion Hnew.
      * destruct use_bias; repeat constructor;
          rewrite ?elem_of_cons, ?elem_of_nil; intros Hin;
          repeat (destruct Hin as [Hin|Hin]); try injection Hin as Hin;
          try lia; try contradiction.
    + intros e [He|He]%elem_of_app.
      * apply IH2 in He as (k & -> & Hk). exists k. split; [reflexivity|lia].
      * destruct use_bias;
          repeat (apply elem_of_cons in He as [->|He];
                  [eexists; split; [reflexivity|lia]|]);
          inversion He.
Qed.

Section ParameterTheorems.
Context {G : Type} `{RandomState G} `{output_losses}.

(** X11.  [mlp_params] of a constructed network lists, layer by layer, the
    weight and then the bias of every raw layer, or the weight alone when
    the network was asked for without bias.  Every entry is a shared
    variable created by the constructor, and no variable occurs twice; the
    DEV weights and the biases of the decoders are not among them. *)
Theorem mlp_params_shared input params (st st' : builder G) net :
  SS_DEV_NET.__init__ input params st = Ok (net, st') ->
  let L := (length (Params.layer_sizes params) - 1)%nat in
  let n0 := S (next_id st) in
  SS_DEV_NET.mlp_params net =
    flat_map (fun j => if Params.use_bias params
                       then [Shared (n0 + 2 * j); Shared (n0 + 2 * j + 1)]
                       else [Shared (n0 + 2 * j)]) (seq 0 L) /\
  (forall j raw, SS_DEV_NET.mlp_layers net !! j = Some raw ->
     HiddenLayer.W raw = Shared (n0 + 2 * j) /\
     HiddenLayer.b raw = Shared (n0 + 2 * j + 1) /\
     HiddenLayer.params raw =
       (if Params.use_bias params then [HiddenLayer.W raw; HiddenLayer.b raw]
        else [HiddenLayer.W raw])) /\
  NoDup (SS_DEV_NET.mlp_params net) /\
  length (SS_DEV_NET.mlp_params net) =
    (if Params.use_bias params then 2 * L else L)%nat /\
  (SS_DEV_NET.dev_lams net ∉ SS_DEV_NET.mlp_params net) /\
  forall i pair dec, SS_DEV_NET.raw_dae_layers net !! i = Some pair ->
    pair !! 1%nat = Some dec ->
    HiddenLayer.b dec ∉ SS_DEV_NET.mlp_params net.
Proof.
  intros Hrun. cbv zeta.
  apply SS_DEV_NET_init_structure in Hrun
    as (c & st1 & d & Hraw & _ & Hdae & Hlen & HL & Hid & _ & Hlams & Hmlp & _ & _ &
        Hpar & _ & _ & Hrl & _).
  cbv zeta in Hraw. destruct Hraw as (_ & _ & _ & Hlayers & _).
  assert (Heq : SS_DEV_NET.mlp_params net =
    flat_map (fun j => if Params.use_bias params
                       then [Shared (S (next_id st) + 2 * j);
                             Shared (S (next_id st) + 2 * j + 1)]
                       else [Shared (S (next_id st) + 2 * j)])
      (seq 0 (length (Params.layer_sizes params) - 1))).
  { rewrite Hpar, <- Hlen. apply concat_map_indexed. intros j raw Hj.
    destruct (Hlayers j raw Hj) as [(_ & _ & HW & Hb & _ & _ & _ & Hp) _].
    rewrite Hp, HW, Hb. reflexivity. }
  destruct (raw_params_NoDup (Params.use_bias params) (S (next_id st))
              (length (Params.layer_sizes params) - 1)) as [Hnd Hin].
  rewrite <- Heq in Hnd, Hin.
  split; [exact Heq|]. split; [|split; [exact Hnd|split; [|split]]].
  - rewrite Hmlp. intros j raw Hj.
    destruct (Hlayers j raw Hj) as [(_ & _ & HW & Hb & _ & _ & _ & Hp) _]. auto.
  - rewrite Heq. clear.
    induction (length (Params.layer_sizes params) - 1)%nat as [|L IH];
      [destruct (Params.use_bias params); reflexivity|].
    rewrite seq_S, flat_map_app, length_app, IH. cbn [flat_map].
    destruct (Params.use_bias params); cbn [length app]; lia.
  - intros Hlam. apply Hin in Hlam as (k & Hk & Hrange).
    rewrite Hlams in Hk. injection Hk as <-. lia.
  - intros i pair dec Hpair Hdec Hb. apply Hin in Hb as (k & Hk & Hrange).
    apply construct_dae_layers_wired in Hdae
      as (_ & Hl1 & _ & _ & _ & Hwired & _).
    cbv zeta in Hl1, Hwired. rewrite Hrl in Hpair.
    pose proof (lookup_lt_Some _ _ _ Hpair) as Hi. rewrite Hl1 in Hi.
    destruct (Hwired i Hi) as [(r & e & rd & sd & s1' & s2' & _ & Hp & Hrest) _].
    rewrite Hp in Hpair. injection Hpair as <-. injection Hdec as <-.
    do 20 (destruct Hrest as [_ Hrest]). destruct Hrest as [Hbd _].
    rewrite Hbd in Hk. injection Hk as <-. lia.
Qed.
End ParameterTheorems.

Lemma mlp_params_shared_witness :
  exists net st',
    SS_DEV_NET.__init__ (Var "x") example_params Lcg.start = Ok (net, st') /\
    let L := (length (Params.layer_sizes example_params) - 1)%nat in
    let n0 := S (next_id Lcg.start) in
    SS_DEV_NET.mlp_params net =
      flat_map (fun j => if Params.use_bias example_params
                         then [Shared (n0 + 2 * j); Shared (n0 + 2 * j + 1)]
                         else [Shared (n0 + 2 * j)]) (seq 0 L) /\
    (forall j raw, SS_DEV_NET.mlp_layers net !! j = Some raw ->
       HiddenLayer.W raw = Shared (n0 + 2 * j) /\
       HiddenLayer.b raw = Shared (n0 + 2 * j + 1) /\
       HiddenLayer.params raw =
         (if Params.use_bias example_params
          then [HiddenLayer.W raw; HiddenLayer.b raw]
          else [HiddenLayer.W raw])) /\
    NoDup (SS_DEV_NET.mlp_params net) /\
    length (SS_DEV_NET.mlp_params net) =
      (if Params.use_bias example_params then 2 * L else L)%nat /\
    (SS_DEV_NET.dev_lams net ∉ SS_DEV_NET.mlp_params net) /\
    forall i pair dec, SS_DEV_NET.raw_dae_layers net !! i = Some pair ->
      pair !! 1%nat = Some dec ->
      HiddenLayer.b dec ∉ SS_DEV_NET.mlp_params net.
Proof.
  destruct (SS_DEV_NET.__init__ (Var "x") example_params Lcg.start)
    as [[net st']|e] eqn:Hrun; [|vm_compute in Hrun; discriminate Hrun].
  exists net, st'. split; [reflexivity|].
  exact (mlp_params_shared (G:=Z) _ _ _ _ _ Hrun).
Defined.

Section DictionaryTheorems.
Context {G : Type} `{RandomState G} `{output_losses}.

(** X12.  [clip_params] of a constructed network flags the weight of every raw
    layer with 1 and the bias of every raw layer and of every decoder with
    0.  Its keys are exactly these 3 L - 1 shared variables, for L layers:
    the variable of the DEV weights is not a key. *)
Theorem clip_params_flags input params (st st' : builder G) net :
  SS_DEV_NET.__init__ input params st = Ok (net, st') ->
  let L := (length (Params.layer_sizes params) - 1)%nat in
  let n0 := S (next_id st) in
  (forall j raw, SS_DEV_NET.mlp_layers net !! j = Some raw ->
     exists w bb,
       HiddenLayer.W raw = Shared w /\ HiddenLayer.b raw = Shared bb /\
       SS_DEV_NET.clip_params net !! w = Some 1%Z /\
       SS_DEV_NET.clip_params net !! bb = Some 0%Z) /\
  (forall i enc dec, SS_DEV_NET.raw_dae_layers net !! i = Some [enc; dec] ->
     exists k,
       HiddenLayer.b dec = Shared k /\
       SS_DEV_NET.clip_params net !! k = Some 0%Z) /\
  (forall l, SS_DEV_NET.dev_lams net = Shared l ->
     SS_DEV_NET.clip_params net !! l = None) /\
  (forall k, is_Some (SS_DEV_NET.clip_params net !! k) <->
             (n0 <= k < n0 + 3 * L - 1)%nat).
Proof.
  intros Hrun. cbv zeta.
  apply SS_DEV_NET_init_structure in Hrun
    as (c & st1 & d & Hraw & _ & Hdae & Hlen & HL & Hid & _ & Hlams & Hmlp & _ & _ &
        _ & _ & Hclip & Hrl & _).
  cbv zeta in Hraw. destruct Hraw as (_ & _ & _ & Hlayers & Hrawclip & _).
  rewrite length_sizes in Hrawclip.
  apply construct_dae_layers_wired in Hdae
    as (_ & Hl1 & _ & _ & _ & Hwired & Hlow & Hhigh).
  cbv zeta in Hl1, Hwired, Hhigh. rewrite Hlen in Hl1, Hwired, Hhigh.
  rewrite Hclip, Hmlp, Hrl. clear Hclip Hmlp Hrl.
  set (L := (length (Params.layer_sizes params) - 1)%nat) in *.
  assert (Hkey : forall k,
    SS_DEV_NET.dae_clip_params d !! k =
      if decide (S (next_id st) <= k < S (next_id st) + 2 * L)%nat
      then Some (if Nat.even (k - S (next_id st)) then 1 else 0)%Z
      else if decide (S (next_id st) + 2 * L <= k < S (next_id st) + 3 * L - 1)%nat
           then Some 0%Z
           else None).
  { intros k. destruct (decide (k < next_id st1)%nat) as [Hk|Hk].
    - destruct (Hlow k Hk) as [_ ->]. rewrite Hrawclip. unfold raw_clip.
      destruct (decide (S (next_id st) <= k < S (next_id st) + 2 * L)%nat);
        [reflexivity|].
      rewrite decide_False by lia. reflexivity.
    - rewrite decide_False by lia.
      destruct (decide (S (next_id st) + 2 * L <= k
                        < S (next_id st) + 3 * L - 1)%nat) as [Hk'|Hk'].
      + destruct (Hwired (k - next_id st1)%nat) as [Hw _]; [lia|].
        destruct Hw as (r & e & rd & sd & s1' & s2' & Hw).
        do 21 (destruct Hw as [_ Hw]). destruct Hw as [Hc _].
        replace (next_id st1 + (k - next_id st1))%nat with k in Hc by lia.
        exact Hc.
      + rewrite Hhigh by lia. rewrite Hrawclip. unfold raw_clip.
        rewrite decide_False by lia. reflexivity. }
  split; [|split; [|split]].
  - intros j raw Hj. pose proof (lookup_lt_Some _ _ _ Hj) as Hjl.
    destruct (Hlayers j raw Hj) as [(_ & _ & HW & Hb & _) _].
    eexists _, _. split; [exact HW|]. split; [exact Hb|].
    rewrite !Hkey, !decide_True by lia.
    replace (S (next_id st) + 2 * j - S (next_id st))%nat with (2 * j)%nat by lia.
    replace (S (next_id st) + 2 * j + 1 - S (next_id st))%nat
      with (2 * j + 1)%nat by lia.
    rewrite even_double, even_double_succ. auto.
  - intros i enc dec Hpair.
    pose proof (lookup_lt_Some _ _ _ Hpair) as Hi. rewrite Hl1 in Hi.
    destruct (Hwired i Hi) as [(r & e & rd & sd & s1' & s2' & _ & Hp & Hw) _].
    rewrite Hp in Hpair. injection Hpair as <- <-.
    do 19 (destruct Hw as [_ Hw]). destruct Hw as (Hc & Hbd & _).
    exists (next_id st1 + i)%nat. auto.
  - intros l Hl. rewrite Hlams in Hl. injection Hl as <-.
    rewrite Hkey, !decide_False by lia. reflexivity.
  - intros k. rewrite Hkey.
    destruct (decide (S (next_id st) <= k < S (next_id st) + 2 * L)%nat).
    + split; [lia|eauto].
    + destruct (decide (S (next_id st) + 2 * L <= k
                        < S (next_id st) + 3 * L - 1)%nat).
      * split; [lia|eauto].
      * split; [intros [? [=]]|lia].
Qed.
End DictionaryTheorems.

Lemma clip_params_flags_witness :
  exists net st',
    SS_DEV_NET.__init__ (Var "x") example_params Lcg.start = Ok (net, st') /\
    let L := (length (Params.layer_sizes example_params) - 1)%nat in
    let n0 := S (next_id Lcg.start) in
    (forall j raw, SS_DEV_NET.mlp_layers net !! j = Some raw ->
       exists w bb,
         HiddenLayer.W raw = Shared w /\ HiddenLayer.b raw = Shared bb /\
         SS_DEV_NET.clip_params net !! w = Some 1%Z /\
         SS_DEV_NET.clip_params net !! bb = Some 0%Z) /\
    (forall i enc dec, SS_DEV_NET.raw_dae_layers net !! i = Some [enc; dec] ->
       exists k,
         HiddenLayer.b dec = Shared k /\
         SS_DEV_NET.clip_params net !! k = Some 0%Z) /\
    (forall l, SS_DEV_NET.dev_lams net = Shared l ->
       SS_DEV_NET.clip_params net !! l = None) /\
    (forall k, is_Some (SS_DEV_NET.clip_params net !! k) <->
               (n0 <= k < n0 + 3 * L - 1)%nat).
Proof.
  destruct (SS_DEV_NET.__init__ (Var "x") example_params Lcg.start)
    as [[net st']|e] eqn:Hrun; [|vm_compute in Hrun; discriminate Hrun].
  exists net, st'. split; [reflexivity|].
  exact (clip_params_flags (G:=Z) _ _ _ _ _ Hrun).
Defined.

Section InitialValues.
Context {G : Type} `{RandomState G} `{output_losses}.

(** X13.  For a network of L layers the constructor creates exactly 3 L shared
    variables, however many clones it builds: the DEV weights, starting
    from [params['dev_lams']]; the weight of each raw layer, starting from
    0.01 times a draw of [rng.standard_normal] of the layer's dimensions;
    the bias of each raw layer, starting from n_out zeros; and the bias of
    each decoder, starting from as many zeros as the encoder has inputs.
    The variables that existed before keep their initial values. *)
Theorem parameters_initial_values input params (st st' : builder G) net :
  SS_DEV_NET.__init__ input params st = Ok (net, st') ->
  let L := (length (Params.layer_sizes params) - 1)%nat in
  let n := next_id st in
  next_id st' = (n + 3 * L)%nat /\
  SS_DEV_NET.dev_lams net = Shared n /\
  initial st' !! n = Some (Array1 (Params.dev_lams params)) /\
  (forall j raw, SS_DEV_NET.mlp_layers net !! j = Some raw ->
     exists w bb (g : G),
       HiddenLayer.W raw = Shared w /\
       initial st' !! w =
         Some (Array2 (map (map (Qmult 0.01))
                         (standard_normal (HiddenLayer.in_dim raw)
                            (HiddenLayer.out_dim raw) g).1)) /\
       HiddenLayer.b raw = Shared bb /\
       initial st' !! bb = Some (Array1 (replicate (HiddenLayer.out_dim raw) 0%Q))) /\
  (forall i enc dec, SS_DEV_NET.raw_dae_layers net !! i = Some [enc; dec] ->
     exists k,
       HiddenLayer.b dec = Shared k /\
       initial st' !! k = Some (Array1 (replicate (HiddenLayer.in_dim enc) 0%Q)) /\
       HiddenLayer.out_dim dec = HiddenLayer.in_dim enc) /\
  (forall k, (k < n)%nat -> initial st' !! k = initial st !! k).
Proof.
  intros Hrun. cbv zeta.
  apply SS_DEV_NET_init_structure in Hrun
    as (c & st1 & d & Hraw & _ & Hdae & Hlen & HL & Hid & _ & Hlams & Hmlp & _ & _ &
        _ & _ & _ & Hrl & _).
  cbv zeta in Hraw. destruct Hraw as (_ & _ & _ & Hlayers & _ & Hbase).
  apply construct_dae_layers_wired in Hdae
    as (Hid' & Hl1 & _ & _ & _ & Hwired & Hlow & _).
  cbv zeta in Hid', Hl1, Hwired. rewrite Hlen in Hid', Hl1, Hwired.
  rewrite Hmlp, Hrl. clear Hmlp Hrl.
  set (L := (length (Params.layer_sizes params) - 1)%nat) in *.
  split; [lia|]. split; [exact Hlams|]. split; [|split; [|split]].
  - destruct (Hlow (next_id st)) as [-> _]; [lia|].
    rewrite Hbase by lia. apply lookup_insert_eq.
  - intros j raw Hj. pose proof (lookup_lt_Some _ _ _ Hj) as Hjl.
    destruct (Hlayers j raw Hj) as [(_ & _ & HW & Hb & _) [[g Hg] Hz]].
    exists (S (next_id st) + 2 * j)%nat, (S (next_id st) + 2 * j + 1)%nat, g.
    split; [exact HW|]. split.
    { destruct (Hlow (S (next_id st) + 2 * j)%nat) as [-> _]; [lia|]. exact Hg. }
    split; [exact Hb|].
    destruct (Hlow (S (next_id st) + 2 * j + 1)%nat) as [-> _]; [lia|]. exact Hz.
  - intros i enc dec Hpair.
    pose proof (lookup_lt_Some _ _ _ Hpair) as Hi. rewrite Hl1 in Hi.
    destruct (Hwired i Hi) as [(r & e & rd & sd & s1' & s2' & _ & Hp & Hw) _].
    rewrite Hp in Hpair. injection Hpair as <- <-.
    destruct Hw as (_ & _ & _ & _ & Hdie & _ & _ & _ & Hdor & Hw).
    do 9 (destruct Hw as [_ Hw]). destruct Hw as (Hσ & _ & Hbd & _).
    exists (next_id st1 + i)%nat. rewrite Hdie, Hdor. auto.
  - intros k Hk. destruct (Hlow k) as [-> _]; [lia|].
    rewrite Hbase by lia. apply lookup_insert_ne. lia.
Qed.
End InitialValues.

Lemma parameters_initial_values_witness :
  exists net st',
    SS_DEV_NET.__init__ (Var "x") example_params Lcg.start = Ok (net, st') /\
    let L := (length (Params.layer_sizes example_params) - 1)%nat in
    let n := next_id Lcg.start in
    next_id st' = (n + 3 * L)%nat /\
    SS_DEV_NET.dev_lams net = Shared n /\
    initial st' !! n = Some (Array1 (Params.dev_lams example_params)) /\
    (forall j raw, SS_DEV_NET.mlp_layers net !! j = Some raw ->
       exists w bb (g : Z),
         HiddenLayer.W raw = Shared w /\
         initial st' !! w =
           Some (Array2 (map (map (Qmult 0.01))
                           (standard_normal (HiddenLayer.in_dim raw)
                              (HiddenLayer.out_dim raw) g).1)) /\
         HiddenLayer.b raw = Shared bb /\
         initial st' !! bb =
           Some (Array1 (replicate (HiddenLayer.out_dim raw) 0%Q))) /\
    (forall i enc dec, SS_DEV_NET.raw_dae_layers net !! i = Some [enc; dec] ->
       exists k,
         HiddenLayer.b dec = Shared k /\
         initial st' !! k = Some (Array1 (replicate (HiddenLayer.in_dim enc) 0%Q)) /\
         HiddenLayer.out_dim dec = HiddenLayer.in_dim enc) /\
    (forall k, (k < n)%nat -> initial st' !! k = initial Lcg.start !! k).
Proof.
  destruct (SS_DEV_NET.__init__ (Var "x") example_params Lcg.start)
    as [[net st']|e] eqn:Hrun; [|vm_compute in Hrun; discriminate Hrun].
  exists net, st'. split; [reflexivity|].
  exact (parameters_initial_values (G:=Z) _ _ _ _ _ Hrun).
Defined.

(** ** The autoencoders *)

Lemma eval_recon_loss ρ O T N z x :
  eval ρ O = Ok (Matrix z) ->
  eval ρ T = Ok (Matrix x) ->
  eval ρ N = Ok (Matrix x) ->
  same_shape z x ->
  eval ρ (Div (Sum (binary_crossentropy (Sigmoid O) T)) (Shape0 N)) =
    match x with
    | [] => Err Undefined
    | _ :: _ =>
        Ok (Scalar (rsum (concat (zip_with (zip_with cross_entropy)
                                    (map (map sigmoid) z) x))
                    / INR (length x)))
    end.
Proof.
  intros HO HT HN Hzx.
  change (eval ρ (Div ?n ?d)) with (a ← eval ρ n; b ← eval ρ d; binop rdiv a b).
  rewrite eval_Sum.
  rewrite (eval_binary_crossentropy ρ _ _ _ _ (eval_Sigmoid_matrix _ _ _ HO) HT
             (same_shape_map_l _ _ _ Hzx) (sigmoid_matrix_bounds z)).
  ev. rewrite HN. ev. cbn [shape0]. ev.
  unfold sum_all. cbn [elements binop fmap res_fmap]. unfold rdiv.
  destruct x as [|r x'].
  - cbn [length INR]. destruct (Req_dec_T 0 0); [reflexivity|contradiction].
  - destruct (Req_dec_T (INR (length (r :: x'))) 0) as [Hz|]; [|reflexivity].
    exfalso. revert Hz. apply not_0_INR. discriminate.
Qed.

Section DaeTheorems.
Context {G : Type} `{RandomState G} `{output_losses}.

(** X14.  A constructed network of L layers has L - 1 autoencoders, none on the
    top layer.  The encoder of position [i] computes with the weight and
    the bias of raw layer [i], the bias also when the network was asked for
    without bias, on the input of that raw layer under masking noise of keep
    probability 1 - 0.25.  Both decoders read the encoder's output, the sde
    decoder through a dropout mask of keep probability 1 - 0.5, and map the
    code back to the dimension of the encoder's input. *)
Theorem dae_wiring input params (st st' : builder G) net :
  SS_DEV_NET.__init__ input params st = Ok (net, st') ->
  length (SS_DEV_NET.raw_dae_layers net) = (SS_DEV_NET.layer_count net - 1)%nat /\
  length (SS_DEV_NET.sde_dae_layers net) = (SS_DEV_NET.layer_count net - 1)%nat /\
  forall i, (i < SS_DEV_NET.layer_count net - 1)%nat ->
    exists raw encoder raw_decoder sde_decoder seed seed',
      SS_DEV_NET.mlp_layers net !! i = Some raw /\
      SS_DEV_NET.raw_dae_layers net !! i = Some [encoder; raw_decoder] /\
      SS_DEV_NET.sde_dae_layers net !! i = Some [encoder; sde_decoder] /\
      HiddenLayer.input encoder =
        Mul (HiddenLayer.input raw)
          (Cast (Binomial seed (1 - 0.25) (HiddenLayer.input raw))) /\
      HiddenLayer.linear_output encoder =
        Add (Dot (HiddenLayer.input encoder) (HiddenLayer.W raw))
          (HiddenLayer.b raw) /\
      HiddenLayer.output encoder = Sigmoid (HiddenLayer.linear_output encoder) /\
      HiddenLayer.in_dim encoder = HiddenLayer.in_dim raw /\
      HiddenLayer.out_dim encoder = HiddenLayer.out_dim raw /\
      HiddenLayer.input raw_decoder = HiddenLayer.output encoder /\
      HiddenLayer.in_dim raw_decoder = HiddenLayer.out_dim encoder /\
      HiddenLayer.out_dim raw_decoder = HiddenLayer.in_dim encoder /\
      HiddenLayer.linear_output raw_decoder =
        Add (Dot (HiddenLayer.output encoder) (Transpose (HiddenLayer.W raw)))
          (HiddenLayer.b raw_decoder) /\
      HiddenLayer.output raw_decoder =
        Sigmoid (HiddenLayer.linear_output raw_decoder) /\
      HiddenLayer.input sde_decoder =
        Mul (HiddenLayer.output encoder)
          (Cast (Binomial seed' (1 - 0.5) (HiddenLayer.output encoder))) /\
      HiddenLayer.in_dim sde_decoder = HiddenLayer.out_dim encoder /\
      HiddenLayer.out_dim sde_decoder = HiddenLayer.in_dim encoder /\
      HiddenLayer.linear_output sde_decoder =
        Add (Dot (HiddenLayer.input sde_decoder)
               (Mul (Const (1 / (1 - 0.5))) (Transpose (HiddenLayer.W raw))))
          (HiddenLayer.b raw_decoder) /\
      HiddenLayer.output sde_decoder =
        Sigmoid (HiddenLayer.linear_output sde_decoder).
Proof.
  intros Hrun.
  apply SS_DEV_NET_init_structure in Hrun
    as (c & st1 & d & _ & _ & Hdae & Hlen & _ & _ & _ & _ & Hmlp & _ & Hcount & _ &
        _ & _ & Hrl & Hsl & _).
  apply construct_dae_layers_wired in Hdae
    as (_ & Hl1 & Hl2 & _ & _ & Hwired & _).
  cbv zeta in Hl1, Hl2, Hwired. rewrite Hlen in Hl1, Hl2, Hwired.
  rewrite Hmlp, Hrl, Hsl, Hcount.
  split; [exact Hl1|]. split; [exact Hl2|].
  intros i Hi.
  destruct (Hwired i Hi) as [(r & e & rd & sd & s1' & s2' & Hw) _].
  destruct Hw as (W1 & W2 & W3 & W4 & W5 & W6 & W7 & W8 & W9 & W10 & W11 & W12 &
                  W13 & W14 & W15 & W16 & W17 & W18 & _ & _ & _ & _ & W23 & _).
  exists r, e, rd, sd, s1', s2'. rewrite W7, W8, W23. auto 20.
Qed.

(** X15.  The two losses of each autoencoder.  The reconstruction loss is the
    cross entropy of the decoder's output against the input of the raw
    layer as it is, without the masking noise the encoder reads it through,
    summed over all entries and divided by the number of examples; the
    sparsity loss is 0.01 times the L1 sum of the row-normalised input of
    the decoder, divided by the number of examples.  The reconstruction loss
    is defined for every non-empty batch, whatever the entries of the input
    are, and undefined (0/0) for the empty batch. *)
Theorem dae_losses input params (st st' : builder G) net :
  SS_DEV_NET.__init__ input params st = Ok (net, st') ->
  length (SS_DEV_NET.raw_dae_losses net) = (SS_DEV_NET.layer_count net - 1)%nat /\
  length (SS_DEV_NET.sde_dae_losses net) = (SS_DEV_NET.layer_count net - 1)%nat /\
  forall i, (i < SS_DEV_NET.layer_count net - 1)%nat ->
    exists raw encoder raw_decoder sde_decoder raw_recon sde_recon,
      SS_DEV_NET.mlp_layers net !! i = Some raw /\
      SS_DEV_NET.raw_dae_layers net !! i = Some [encoder; raw_decoder] /\
      SS_DEV_NET.sde_dae_layers net !! i = Some [encoder; sde_decoder] /\
      SS_DEV_NET.raw_dae_losses net !! i =
        Some [raw_recon;
              Div (Mul (Const 0.01)
                     (Sum (Abs (row_normalize (HiddenLayer.input raw_decoder)))))
                (Shape0 (HiddenLayer.input raw))] /\
      SS_DEV_NET.sde_dae_losses net !! i =
        Some [sde_recon;
              Div (Mul (Const 0.01)
                     (Sum (Abs (row_normalize (HiddenLayer.input sde_decoder)))))
                (Shape0 (HiddenLayer.input raw))] /\
      forall ρ x,
        eval ρ (HiddenLayer.input raw) = Ok (Matrix x) ->
        (forall z, eval ρ (HiddenLayer.linear_output raw_decoder) = Ok (Matrix z) ->
           same_shape z x ->
           eval ρ raw_recon =
             match x with
             | [] => Err Undefined
             | _ :: _ =>
                 Ok (Scalar (rsum (concat (zip_with (zip_with cross_entropy)
                                             (map (map sigmoid) z) x))
                             / INR (length x)))
             end) /\
        (forall z, eval ρ (HiddenLayer.linear_output sde_decoder) = Ok (Matrix z) ->
           same_shape z x ->
           eval ρ sde_recon =
             match x with
             | [] => Err Undefined
             | _ :: _ =>
                 Ok (Scalar (rsum (concat (zip_with (zip_with cross_entropy)
                                             (map (map sigmoid) z) x))
                             / INR (length x)))
             end).
Proof.
  intros Hrun.
  apply SS_DEV_NET_init_structure in Hrun
    as (c & st1 & d & _ & _ & Hdae & Hlen & _ & _ & _ & _ & Hmlp & _ & Hcount & _ &
        _ & _ & Hrl & Hsl & Hrlo & Hslo & _).
  apply construct_dae_layers_wired in Hdae
    as (_ & _ & _ & Hn1 & Hn2 & Hwired & _).
  cbv zeta in Hn1, Hn2, Hwired. rewrite Hlen in Hn1, Hn2, Hwired.
  rewrite Hmlp, Hrl, Hsl, Hrlo, Hslo, Hcount.
  split; [exact Hn1|]. split; [exact Hn2|].
  intros i Hi.
  destruct (Hwired i Hi) as ((r & e & rd & sd & s1' & s2' & Hw) & Hraw & Hsde).
  destruct Hw as (W1 & W2 & W3 & _ & _ & _ & _ & _ & _ & _ & _ & _ &
                  W13 & _ & _ & _ & _ & W18 & W19 & W20 & _).
  destruct Hraw as (r1 & e1 & d1 & R1 & R2 & R3).
  destruct Hsde as (r2 & e2 & d2 & S1 & S2 & S3).
  rewrite W1 in R1, S1. injection R1 as <-. injection S1 as <-.
  rewrite W2 in R2. injection R2 as <- <-.
  rewrite W3 in S2. injection S2 as <- <-.
  rewrite W19 in R3. rewrite W20 in S3.
  eexists r, e, rd, sd, _, _.
  split; [exact W1|]. split; [exact W2|]. split; [exact W3|].
  split; [exact R3|]. split; [exact S3|].
  intros ρ x Hx. split; intros z Hz Hzx.
  - rewrite W13. apply (eval_recon_loss ρ _ _ _ z x Hz Hx Hx Hzx).
  - rewrite W18. apply (eval_recon_loss ρ _ _ _ z x Hz Hx Hx Hzx).
Qed.
End DaeTheorems.

Lemma dae_wiring_witness :
  exists net st',
    SS_DEV_NET.__init__ (Var "x") example_params Lcg.start = Ok (net, st') /\
    length (SS_DEV_NET.raw_dae_layers net) = (SS_DEV_NET.layer_count net - 1)%nat /\
    length (SS_DEV_NET.sde_dae_layers net) = (SS_DEV_NET.layer_count net - 1)%nat /\
    forall i, (i < SS_DEV_NET.layer_count net - 1)%nat ->
      exists raw encoder raw_decoder sde_decoder seed seed',
        SS_DEV_NET.mlp_layers net !! i = Some raw /\
        SS_DEV_NET.raw_dae_layers net !! i = Some [encoder; raw_decoder] /\
        SS_DEV_NET.sde_dae_layers net !! i = Some [encoder; sde_decoder] /\
        HiddenLayer.input encoder =
          Mul (HiddenLayer.input raw)
            (Cast (Binomial seed (1 - 0.25) (HiddenLayer.input raw))) /\
        HiddenLayer.linear_output encoder =
          Add (Dot (HiddenLayer.input encoder) (HiddenLayer.W raw))
            (HiddenLayer.b raw) /\
        HiddenLayer.output encoder = Sigmoid (HiddenLayer.linear_output encoder) /\
        HiddenLayer.in_dim encoder = HiddenLayer.in_dim raw /\
        HiddenLayer.out_dim encoder = HiddenLayer.out_dim raw /\
        HiddenLayer.input raw_decoder = HiddenLayer.output encoder /\
        HiddenLayer.in_dim raw_decoder = HiddenLayer.out_dim encoder /\
        HiddenLayer.out_dim raw_decoder = HiddenLayer.in_dim encoder /\
        HiddenLayer.linear_output raw_decoder =
          Add (Dot (HiddenLayer.output encoder) (Transpose (HiddenLayer.W raw)))
            (HiddenLayer.b raw_decoder) /\
        HiddenLayer.output raw_decoder =
          Sigmoid (HiddenLayer.linear_output raw_decoder) /\
        HiddenLayer.input sde_decoder =
          Mul (HiddenLayer.output encoder)
            (Cast (Binomial seed' (1 - 0.5) (HiddenLayer.output encoder))) /\
        HiddenLayer.in_dim sde_decoder = HiddenLayer.out_dim encoder /\
        HiddenLayer.out_dim sde_decoder = HiddenLayer.in_dim encoder /\
        HiddenLayer.linear_output sde_decoder =
          Add (Dot (HiddenLayer.input sde_decoder)
                 (Mul (Const (1 / (1 - 0.5))) (Transpose (HiddenLayer.W raw))))
            (HiddenLayer.b raw_decoder) /\
        HiddenLayer.output sde_decoder =
          Sigmoid (HiddenLayer.linear_output sde_decoder).
Proof.
  destruct (SS_DEV_NET.__init__ (Var "x") example_params Lcg.start)
    as [[net st']|e] eqn:Hrun; [|vm_compute in Hrun; discriminate Hrun].
  exists net, st'. split; [reflexivity|].
  exact (dae_wiring (G:=Z) _ _ _ _ _ Hrun).
Defined.

Lemma dae_losses_witness :
  exists net st' raw encoder raw_decoder raw_recon raw_sparse z,
    SS_DEV_NET.__init__ (Var "x") example_params Lcg.start = Ok (net, st') /\
    length (SS_DEV_NET.raw_dae_losses net) = (SS_DEV_NET.layer_count net - 1)%nat /\
    SS_DEV_NET.mlp_layers net !! 0%nat = Some raw /\
    SS_DEV_NET.raw_dae_layers net !! 0%nat = Some [encoder; raw_decoder] /\
    SS_DEV_NET.raw_dae_losses net !! 0%nat = Some [raw_recon; raw_sparse] /\
    eval dae_env (HiddenLayer.input raw) = Ok (Matrix [[1; 2]]) /\
    eval dae_env (HiddenLayer.linear_output raw_decoder) = Ok (Matrix z) /\
    eval dae_env raw_recon =
      Ok (Scalar (rsum (concat (zip_with (zip_with cross_entropy)
                                  (map (map sigmoid) z) [[1; 2]]))
                  / INR (length [[1; 2]]))).
Proof.
  destruct (SS_DEV_NET.__init__ (Var "x") example_params Lcg.start)
    as [[net st']|e] eqn:Hrun; [|vm_compute in Hrun; discriminate Hrun].
  destruct (dae_losses (G:=Z) _ _ _ _ _ Hrun) as (Hlen & _ & Hthm).
  destruct (Hthm 0%nat) as (raw & enc & rd & sd & rr & sr & H1 & H2 & _ & H4 & _ & Hev).
  { vm_compute in Hrun. injection Hrun as <- <-. cbn. lia. }
  vm_compute in Hrun. injection Hrun as <- <-.
  pose proof H1 as H1'. pose proof H2 as H2'.
  cbn in H1', H2'. injection H1' as <-. injection H2' as <- <-.
  assert (Hx : eval dae_env (Var "x") = Ok (Matrix [[1; 2]])) by reflexivity.
  destruct (Hev dae_env [[1; 2]] Hx) as [Hraw _].
  match type of Hraw with
  | forall z, eval _ ?e = _ -> _ =>
      assert (Hz : exists z, eval dae_env e = Ok (Matrix z) /\ same_shape z [[1; 2]])
        by (eexists; split; [decide_reals; reflexivity|repeat constructor])
  end.
  destruct Hz as (z & Hz & Hshape).
  eexists _, _, _, _, _, rr, _, z.
  split; [reflexivity|]. split; [exact Hlen|]. split; [exact H1|].
  split; [exact H2|]. split; [exact H4|]. split; [exact Hx|].
  split; [exact Hz|]. exact (Hraw z Hz Hshape).
Defined.

(** ** The twin displacement noise *)

Lemma binop_Matrix_Scalar_total g m y :
  binop (fun a b => Ok (g a b)) (Matrix m) (Scalar y) =
  Ok (Matrix (map (map (fun a => g a y)) m)).
Proof.
  cbn [binop]. rewrite (traverse_Forall _ (map (fun a => g a y))); [reflexivity|].
  apply Forall_forall. intros row _. apply traverse_total.
Qed.

Lemma midpoint_row (xr n : list R) :
  length xr = length n ->
  zip_with (fun a b => (a + b) / 2) (zip_with Rminus xr n) (zip_with Rplus xr n) = xr.
Proof.
  revert n. induction xr as [|p xr IH]; intros [|q n] Hlen; simplify_eq/=;
    [reflexivity|].
  rewrite IH by assumption. f_equal. lra.
Qed.

Lemma sq_dist_displaced (op : R -> R -> R) (xr n : list R) :
  (forall p q, (op p q - p) * (op p q - p) = q * q) ->
  length xr = length n ->
  sq_dist (zip_with op xr n) xr = sumsq n.
Proof.
  intros Hop. unfold sq_dist, sumsq, rsum. revert n.
  induction xr as [|p xr IH]; intros [|q n] Hlen; simplify_eq/=; [reflexivity|].
  rewrite IH by assumption. rewrite Hop. reflexivity.
Qed.

Lemma sumsq_scaled_by (row : list R) (s : R) :
  sumsq (map (fun v => v * s) row) = s * s * sumsq row.
Proof.
  unfold sumsq, rsum. induction row as [|a row IH]; cbn; [ring|].
  rewrite IH. ring.
Qed.

Section TwinTheorems.
Context {G : Type} `{RandomState G}.
Variable normal : Z -> texpr -> texpr.

(** X16.  [_twin_displacement_noise] takes one seed from the generator and
    returns two expressions.  In every evaluation in which the input is a
    matrix [x], the drawn directions are a matrix [d] of the same shape and
    the step length is a scalar [s], they are matrices of that shape: each
    row of [x] minus, and plus, [s] times the row of [d] divided by the root
    of its sum of squares plus 1e-6.  Each row of [x] is the midpoint of its
    pair.  The squared distance of either point from the row of [x] is s²
    times q / (q + 1e-6), for q the sum of squares of the drawn row: at most
    s², never the full step length for a step other than 0, and 0 when the
    drawn row is 0. *)
Theorem twin_displacement_bisects input step_len (st st' : builder G) twins :
  _twin_displacement_noise normal input step_len st = Ok (twins, st') ->
  exists l_twin r_twin,
    twins = [l_twin; r_twin] /\
    st' = Builder (randint 100000 (rng st)).2 (next_id st) (initial st) /\
    forall ρ x d s,
      eval ρ input = Ok (Matrix x) ->
      eval ρ (normal (randint 100000 (rng st)).1 input) = Ok (Matrix d) ->
      eval ρ step_len = Ok (Scalar s) ->
      same_shape x d ->
      exists lt rt,
        eval ρ l_twin = Ok (Matrix lt) /\
        eval ρ r_twin = Ok (Matrix rt) /\
        Forall2 (fun row pair =>
          let step :=
            map (fun v => v / sqrt (sumsq row.2 + 1 / 1000000) * s) row.2 in
          let q := sumsq row.2 in
          pair.1 = zip_with Rminus row.1 step /\
          pair.2 = zip_with Rplus row.1 step /\
          zip_with (fun a b => (a + b) / 2) pair.1 pair.2 = row.1 /\
          sq_dist pair.1 row.1 = s * s * (q / (q + 1 / 1000000)) /\
          sq_dist pair.2 row.1 = s * s * (q / (q + 1 / 1000000)) /\
          sq_dist pair.2 row.1 <= s * s /\
          (s <> 0 -> sq_dist pair.2 row.1 < s * s) /\
          (q = 0 -> pair.1 = row.1 /\ pair.2 = row.1))
          (zip x d) (zip lt rt).
Proof.
  unfold _twin_displacement_noise. intros Hrun.
  apply build_bind_Ok in Hrun as (seed & s1 & Hseed & Hrun).
  apply build_ret_Ok in Hrun as [-> ->].
  apply rng_randint_Ok in Hseed as [-> ->].
  eexists _, _. split; [reflexivity|]. split; [reflexivity|].
  intros ρ x d s Hx Hd Hs Hxd.
  set (step := fun row : list R =>
         map (fun v => v / sqrt (sumsq row + 1 / 1000000) * s) row).
  assert (Hstep : eval ρ (Mul (row_normalize
                    (normal (randint 100000 (rng st)).1 input)) step_len) =
                  Ok (Matrix (map step d))).
  { ev. rewrite (eval_row_normalize ρ _ d Hd), Hs. ev. unfold rmul.
    rewrite binop_Matrix_Scalar_total. do 2 f_equal. rewrite map_map.
    apply map_ext. intros row. unfold normalize_row, step. rewrite map_map.
    reflexivity. }
  assert (Hshape : same_shape x (map step d)).
  { apply Forall2_fmap_r. eapply Forall2_impl; [exact Hxd|].
    intros r t Hrt. unfold compose, step. rewrite length_map. exact Hrt. }
  exists (zip_with (zip_with Rminus) x (map step d)),
    (zip_with (zip_with Rplus) x (map step d)).
  split; [|split].
  - change (eval ρ (Sub ?a ?b)) with (u ← eval ρ a; v ← eval ρ b; binop rsub u v).
    rewrite Hx, Hstep. cbn [mbind res_bind]. unfold rsub.
    apply binop_Matrix_Matrix_total, Hshape.
  - change (eval ρ (Add ?a ?b)) with (u ← eval ρ a; v ← eval ρ b; binop radd u v).
    rewrite Hx, Hstep. cbn [mbind res_bind]. unfold radd.
    apply binop_Matrix_Matrix_total, Hshape.
  - clear Hx Hd Hs Hstep Hshape.
    induction Hxd as [|xr dr x d Hlen _ IH]; [constructor|].
    cbn [map zip_with zip]. constructor; [|exact IH].
    cbn [fst snd]. cbv zeta. fold (step dr).
    assert (Hl : length xr = length (step dr))
      by (unfold step; rewrite length_map; exact Hlen).
    assert (Hsq : sumsq (step dr) =
                  s * s * (sumsq dr / (sumsq dr + 1 / 1000000))).
    { unfold step. rewrite <- (map_map (fun v => v / sqrt (sumsq dr + 1 / 1000000))
                                 (fun v => v * s)).
      fold (normalize_row dr). rewrite sumsq_scaled_by, sumsq_normalize_row.
      reflexivity. }
    assert (Hq : 0 <= sumsq dr / (sumsq dr + 1 / 1000000) < 1).
    { pose proof (rsum_squares_nonneg dr) as Hs. split.
      - apply Rmult_le_pos; [exact Hs|]. apply Rlt_le, Rinv_0_lt_compat. lra.
      - apply (Rmult_lt_reg_r (sumsq dr + 1 / 1000000)); [lra|].
        unfold Rdiv at 1. rewrite Rmult_assoc, Rinv_l by lra. lra. }
    assert (Hplus : sq_dist (zip_with Rplus xr (step dr)) xr = sumsq (step dr))
      by (apply sq_dist_displaced; [intros p q; ring|exact Hl]).
    assert (Hminus : sq_dist (zip_with Rminus xr (step dr)) xr = sumsq (step dr))
      by (apply sq_dist_displaced; [intros p q; ring|exact Hl]).
    split; [reflexivity|]. split; [reflexivity|].
    split; [apply midpoint_row, Hl|].
    split; [rewrite Hminus; exact Hsq|]. split; [rewrite Hplus; exact Hsq|].
    split; [|split].
    + rewrite Hplus, Hsq. pose proof (Rle_0_sqr s) as Hs2. unfold Rsqr in Hs2. nra.
    + intros Hs0. rewrite Hplus, Hsq.
      assert (0 < s * s) by nra. nra.
    + intros Hz.
      assert (Hzero : step dr = map (fun _ => 0) dr).
      { unfold step. apply map_ext_in. intros v Hv.
        pose proof (sumsq_ge_entry dr v Hv) as Hle. rewrite Hz in Hle.
        assert (v = 0) by nra. subst v. unfold Rdiv. ring. }
      rewrite Hzero. clear -Hlen. revert dr Hlen.
      induction xr as [|p xr IHx]; intros [|q dr] Hlen; simplify_eq/=;
        [auto|].
      destruct (IHx dr Hlen) as [-> ->]. split; f_equal; lra.
Qed.
End TwinTheorems.

Lemma twin_displacement_bisects_witness :
  exists twins st' l_twin r_twin lt rt,
    _twin_displacement_noise noise_input (Var "x") (Const 0.5) Lcg.start =
      Ok (twins, st') /\
    twins = [l_twin; r_twin] /\
    eval twin_env l_twin = Ok (Matrix lt) /\
    eval twin_env r_twin = Ok (Matrix rt) /\
    Forall2 (fun row pair =>
      let step :=
        map (fun v => v / sqrt (sumsq row.2 + 1 / 1000000) * Q2R 0.5) row.2 in
      let q := sumsq row.2 in
      pair.1 = zip_with Rminus row.1 step /\
      pair.2 = zip_with Rplus row.1 step /\
      zip_with (fun a b => (a + b) / 2) pair.1 pair.2 = row.1 /\
      sq_dist pair.1 row.1 = Q2R 0.5 * Q2R 0.5 * (q / (q + 1 / 1000000)) /\
      sq_dist pair.2 row.1 = Q2R 0.5 * Q2R 0.5 * (q / (q + 1 / 1000000)) /\
      sq_dist pair.2 row.1 <= Q2R 0.5 * Q2R 0.5 /\
      (Q2R 0.5 <> 0 -> sq_dist pair.2 row.1 < Q2R 0.5 * Q2R 0.5) /\
      (q = 0 -> pair.1 = row.1 /\ pair.2 = row.1))
      (zip [[1; 2]] [[3; 4]]) (zip lt rt).
Proof.
  destruct (_twin_displacement_noise noise_input (Var "x") (Const 0.5) Lcg.start)
    as [[twins st']|e] eqn:Hrun; [|vm_compute in Hrun; discriminate Hrun].
  destruct (twin_displacement_bisects (G:=Z) noise_input _ _ _ _ _ Hrun)
    as (l_twin & r_twin & Htwins & _ & Hw).
  destruct (Hw twin_env [[1; 2]] [[3; 4]] (Q2R 0.5)) as (lt & rt & Hl & Hr & Hrows).
  - reflexivity.
  - reflexivity.
  - reflexivity.
  - repeat constructor.
  - exists twins, st', l_twin, r_twin, lt, rt. auto.
Defined.

(** ** What the random streams reach *)

(** An expression without a random stream has the same value whatever the
    streams draw. *)
Lemma eval_noise_free ρ draw :
  forall e, noise_free e = true -> eval (with_draws ρ draw) e = eval ρ e.
Proof.
  fix IH 1. intros e. destruct e; cbn [noise_free]; intros Hnf;
    try reflexivity; try discriminate Hnf;
    try (apply andb_prop in Hnf as [Hnf1 Hnf2]);
    cbn [eval]; rewrite ?(IH _ Hnf), ?(IH _ Hnf1), ?(IH _ Hnf2); try reflexivity.
  f_equal. induction l as [|a l IHl]; [reflexivity|].
  cbn [forallb] in Hnf. apply andb_prop in Hnf as [Ha Hl].
  rewrite (IH a Ha), (IHl Hl). reflexivity.
Qed.

Section NoiseTheorems.
Context {G : Type} `{RandomState G} `{output_losses}.

(** X17.  The raw net of a constructed network is free of dropout: when the
    input of the network contains no random stream, neither does the output
    of any raw layer, so its value, that of its linear output and that of the
    raw activation regulariser are the same whatever the random streams
    draw.  The output of every layer of every clone does contain one. *)
Theorem raw_net_ignores_draws input params (st st' : builder G) net :
  SS_DEV_NET.__init__ input params st = Ok (net, st') ->
  noise_free input = true ->
  (forall j raw, SS_DEV_NET.mlp_layers net !! j = Some raw ->
     noise_free (HiddenLayer.output raw) = true /\
     forall ρ draw,
       eval (with_draws ρ draw) (HiddenLayer.linear_output raw) =
         eval ρ (HiddenLayer.linear_output raw) /\
       eval (with_draws ρ draw) (HiddenLayer.output raw) =
         eval ρ (HiddenLayer.output raw)) /\
  (forall ρ draw,
     eval (with_draws ρ draw) (SS_DEV_NET.raw_reg_loss net) =
       eval ρ (SS_DEV_NET.raw_reg_loss net)) /\
  (forall i clone j lay,
     SS_DEV_NET.dev_clones net !! i = Some clone -> clone !! j = Some lay ->
     noise_free (HiddenLayer.output lay) = false).
Proof.
  intros Hrun Hinput.
  pose proof (SS_DEV_NET_init_Ok _ _ _ _ _ Hrun)
    as (c' & d' & st1' & _ & _ & _ & Hmain & _ & _ & _ & _ & _ & _ & _ & _ &
        Hmlp' & Hclones' & _).
  apply SS_DEV_NET_init_structure in Hrun
    as (c & st1 & d & Hraw & _ & _ & _ & _ & _ & _ & _ & Hmlp & _ & _ &
        _ & _ & _ & _ & _ & _ & _ & Hreg).
  cbv zeta in Hraw. destruct Hraw as (_ & _ & _ & Hlayers & _).
  assert (Hfree : forall j raw, SS_DEV_NET.ch_mlp_layers c !! j = Some raw ->
            noise_free (HiddenLayer.linear_output raw) = true /\
            noise_free (HiddenLayer.output raw) = true).
  { induction j as [|j IH]; intros raw Hj;
      destruct (Hlayers _ raw Hj) as [(_ & Hin & HW & Hb & Hlin & Hout & _) _].
    - cbn [chain_input] in Hin. rewrite Hout. cbn [noise_free].
      rewrite Hlin, HW, Hb, Hin.
      destruct (Params.use_bias params); cbn [noise_free]; rewrite Hinput; auto.
    - destruct (lookup_lt_is_Some_2 (SS_DEV_NET.ch_mlp_layers c) j) as [prev Hprev].
      { apply lookup_lt_Some in Hj. lia. }
      destruct (IH prev Hprev) as [_ Hp].
      cbn [chain_input] in Hin. rewrite Hprev in Hin. cbn [from_option] in Hin.
      rewrite Hout. cbn [noise_free]. rewrite Hlin, HW, Hb, Hin.
      destruct (Params.use_bias params); cbn [noise_free]; rewrite Hp; auto. }
  split; [|split].
  - rewrite Hmlp. intros j raw Hj. destruct (Hfree j raw Hj) as [Hl Ho].
    split; [exact Ho|]. intros ρ draw.
    split; apply eval_noise_free; assumption.
  - intros ρ draw. apply eval_noise_free. rewrite Hreg. cbn [noise_free].
    apply forallb_forall. intros e [raw [<- Hin]]%in_map_iff.
    apply list_elem_of_In, list_elem_of_lookup in Hin as [j Hj].
    destruct (Hlayers _ raw Hj) as [(_ & _ & _ & _ & _ & _ & Hl2 & _) _].
    destruct (Hfree j raw Hj) as [_ Ho].
    rewrite Hl2. cbn [noise_free]. rewrite Ho. reflexivity.
  - rewrite Hclones'. intros i clone j lay Hi Hj.
    destruct Hmain as (_ & _ & _ & _ & _ & _ & Hcl).
    destruct (Hcl i clone Hi) as [_ Hof].
    destruct (Hof j lay Hj) as (raw & _ & inp & s & s' & Hinit).
    apply HiddenLayer_init_Ok in Hinit as (_ & _ & _ & Hin & _ & Hlin & Hout & _).
    rewrite drop_rate_at_ge in Hin.
    rewrite Hout. cbn [noise_free]. rewrite Hlin, Hin.
    destruct (Params.use_bias params); cbn [noise_free];
      rewrite ?andb_false_r; reflexivity.
Qed.
End NoiseTheorems.

Lemma raw_net_ignores_draws_witness :
  exists net st',
    SS_DEV_NET.__init__ (Var "x") example_params Lcg.start = Ok (net, st') /\
    (forall j raw, SS_DEV_NET.mlp_layers net !! j = Some raw ->
       noise_free (HiddenLayer.output raw) = true /\
       forall ρ draw,
         eval (with_draws ρ draw) (HiddenLayer.linear_output raw) =
           eval ρ (HiddenLayer.linear_output raw) /\
         eval (with_draws ρ draw) (HiddenLayer.output raw) =
           eval ρ (HiddenLayer.output raw)) /\
    (forall ρ draw,
       eval (with_draws ρ draw) (SS_DEV_NET.raw_reg_loss net) =
         eval ρ (SS_DEV_NET.raw_reg_loss net)) /\
    (forall i clone j lay,
       SS_DEV_NET.dev_clones net !! i = Some clone -> clone !! j = Some lay ->
       noise_free (HiddenLayer.output lay) = false).
Proof.
  destruct (SS_DEV_NET.__init__ (Var "x") example_params Lcg.start)
    as [[net st']|e] eqn:Hrun; [|vm_compute in Hrun; discriminate Hrun].
  exists net, st'. split; [reflexivity|].
  exact (raw_net_ignores_draws (G:=Z) _ _ _ _ _ Hrun eq_refl).
Defined.

(** ** DEV weights missing for a layer *)

Lemma eval_Mul_fails_l ρ a b :
  is_ok (eval ρ a) = false -> is_ok (eval ρ (Mul a b)) = false.
Proof. intros Ha. cbn [eval]. destruct (eval ρ a); [discriminate|reflexivity]. Qed.

(** X18.  With fewer DEV weights than layers in the shared variable, [dev_cost]
    still returns an expression: the weights are indexed in the graph, not
    in Python.  The expression has no value in such an evaluation, the index
    of the first missing weight being out of bounds. *)
Theorem dev_cost_short_weights self y joint_loss c0 ρ lams :
  (1e-5 < SS_DEV_NET.dev_lams_sum self)%Q ->
  well_formed self c0 ->
  (SS_DEV_NET.layer_count self <= length (SS_DEV_NET.dev_types self))%nat ->
  eval ρ (SS_DEV_NET.dev_lams self) = Ok (Vector lams) ->
  (length lams < SS_DEV_NET.layer_count self)%nat ->
  eval ρ (Subtensor (SS_DEV_NET.dev_lams self) (length lams)) =
    Err IndexOutOfBounds /\
  exists L,
    SS_DEV_NET.dev_cost self y joint_loss = Ok L /\
    is_ok (eval ρ L) = false.
Proof.
  intros Hsum Hwf Hty Hlams Hshort.
  assert (Hsub : eval ρ (Subtensor (SS_DEV_NET.dev_lams self) (length lams)) =
                 Err IndexOutOfBounds).
  { cbn [eval]. rewrite Hlams. cbn [mbind res_bind subtensor].
    rewrite (proj2 (lookup_ge_None lams (length lams))) by lia. reflexivity. }
  split; [exact Hsub|].
  apply Qltb_lt in Hsum.
  destruct (dev_cost_dev_branch self y joint_loss c0 Hsum Hwf Hty)
    as (terms & Hterms & HL).
  eexists. split; [exact HL|]. cbv zeta.
  assert (Hreg : forall rest,
            is_ok (eval ρ (Add (Sum (Stack terms)) rest)) = false).
  { intros rest. apply eval_Add_fails_l, eval_Sum_Stack_fails.
    destruct (Forall2_lookup_l _ _ _ (length lams) (length lams) Hterms)
      as (t & Ht & Hat).
    { apply lookup_seq. lia. }
    apply Exists_exists. exists t. split; [eapply list_elem_of_lookup_2, Ht|].
    destruct Hat as (raw & clone & dt & _ & _ & _ & ->).
    apply eval_Mul_fails_l. rewrite Hsub. reflexivity. }
  destruct (py_eq_int joint_loss 1); [apply eval_Add_fails_r|]; apply Hreg.
Qed.

Lemma dev_cost_short_weights_witness :
  exists net st',
    SS_DEV_NET.__init__ (Var "x") short_lams_params Lcg.start = Ok (net, st') /\
    eval short_lams_env (Subtensor (SS_DEV_NET.dev_lams net) (length [1])) =
      Err IndexOutOfBounds /\
    exists L,
      SS_DEV_NET.dev_cost net (Var "y") (PyInt 1) = Ok L /\
      is_ok (eval short_lams_env L) = false.
Proof.
  destruct (SS_DEV_NET.__init__ (Var "x") short_lams_params Lcg.start)
    as [[net st']|e] eqn:Hrun; [|vm_compute in Hrun; discriminate Hrun].
  destruct (init_well_formed (G:=Z) _ _ _ _ _ Hrun) as [c0 Hwf].
  exists net, st'. split; [reflexivity|].
  vm_compute in Hrun. injection Hrun as <- <-.
  apply (dev_cost_short_weights _ (Var "y") (PyInt 1) c0 short_lams_env [1]).
  - reflexivity.
  - exact Hwf.
  - cbn. lia.
  - reflexivity.
  - cbn. lia.
Defined.

(** ** The activation regulariser *)

Section RegulariserTheorems.
Context {G : Type} `{RandomState G} `{output_losses}.

(** X19.  [raw_reg_loss] of a constructed network is lam_l2a times the sum,
    over the raw layers, of the mean square of the layer's output.  When
    every raw layer has an output with at least one entry, it has this
    value, and the sum is at least 0 and at most the number of layers, the
    outputs being sigmoids. *)
Theorem raw_reg_loss_value input params (st st' : builder G) net ρ ms :
  SS_DEV_NET.__init__ input params st = Ok (net, st') ->
  Forall2 (fun raw m =>
    eval ρ (HiddenLayer.output raw) = Ok (Matrix m) /\ concat m <> [])
    (SS_DEV_NET.mlp_layers net) ms ->
  let total :=
    rsum (map (fun m => sumsq (concat m) / INR (length (concat m))) ms) in
  eval ρ (SS_DEV_NET.raw_reg_loss net) =
    Ok (Scalar (Q2R (Params.lam_l2a params) * total)) /\
  0 <= total <= INR (SS_DEV_NET.layer_count net).
Proof.
  intros Hrun Hms. cbv zeta.
  apply SS_DEV_NET_init_structure in Hrun
    as (c & st1 & d & Hraw & _ & _ & Hlen & HL & _ & _ & _ & Hmlp & _ & Hcount &
        _ & _ & _ & _ & _ & _ & _ & Hreg).
  cbv zeta in Hraw. destruct Hraw as (_ & _ & _ & Hlayers & _).
  rewrite Hmlp in Hms. rewrite Hreg, Hcount, <- Hlen.
  assert (Hfacts : Forall2 (fun raw m =>
            eval ρ (HiddenLayer.act_l2_sum raw) =
              Ok (Scalar (sumsq (concat m) / INR (length (concat m)))) /\
            0 <= sumsq (concat m) / INR (length (concat m)) <= 1)
            (SS_DEV_NET.ch_mlp_layers c) ms).
  { apply Forall2_same_length_lookup. split; [eapply Forall2_length, Hms|].
    intros j raw m Hj Hm.
    destruct (Forall2_lookup_lr _ _ _ _ _ _ Hms Hj Hm) as [Hout Hne].
    destruct (Hlayers _ raw Hj) as [(_ & _ & _ & _ & _ & Ho & Hl2 & _) _].
    split.
    - rewrite Hl2, (eval_mean_square ρ _ m Hout). unfold mean_square.
      destruct (concat m); [contradiction|reflexivity].
    - rewrite Ho in Hout. exact (mean_square_sigmoid ρ _ m Hout Hne). }
  split.
  - apply eval_Mul_scalars; [apply eval_Const|]. apply eval_Sum_Stack.
    apply Forall2_fmap. eapply Forall2_impl; [exact Hfacts|].
    intros raw m [Hv _]. exact Hv.
  - rewrite (Forall2_length _ _ _ Hms).
    clear -Hfacts. induction Hfacts as [|raw m mlp ms [_ Hm] _ IH].
    + cbn. unfold rsum. cbn. lra.
    + cbn [map length]. rewrite rsum_cons, S_INR. lra.
Qed.
End RegulariserTheorems.

Lemma raw_reg_loss_value_witness :
  exists net st' ms,
    SS_DEV_NET.__init__ (Var "x") example_params Lcg.start = Ok (net, st') /\
    Forall2 (fun raw m =>
      eval example_env (HiddenLayer.output raw) = Ok (Matrix m) /\ concat m <> [])
      (SS_DEV_NET.mlp_layers net) ms /\
    let total :=
      rsum (map (fun m => sumsq (concat m) / INR (length (concat m))) ms) in
    eval example_env (SS_DEV_NET.raw_reg_loss net) =
      Ok (Scalar (Q2R (Params.lam_l2a example_params) * total)) /\
    0 <= total <= INR (SS_DEV_NET.layer_count net).
Proof.
  destruct (SS_DEV_NET.__init__ (Var "x") example_params Lcg.start)
    as [[net0 st']|e] eqn:Hrun; [|vm_compute in Hrun; discriminate Hrun].
  pose proof (fun ms => raw_reg_loss_value (G:=Z) _ _ _ _ _ example_env ms Hrun)
    as Hthm.
  vm_compute in Hrun. injection Hrun as <- <-.
  match type of Hthm with
  | forall ms, Forall2 _ (SS_DEV_NET.mlp_layers ?n) _ -> _ => set (net := n) in *
  end.
  assert (Hms : exists ms, Forall2 (fun raw m =>
      eval example_env (HiddenLayer.output raw) = Ok (Matrix m) /\ concat m <> [])
      (SS_DEV_NET.mlp_layers net) ms).
  { eexists [_; _]. constructor; [|constructor; [|constructor]].
    - split; [decide_reals; reflexivity|discriminate].
    - split; [decide_reals; reflexivity|discriminate]. }
  destruct Hms as [ms Hms].
  eexists net, _, ms. split; [reflexivity|]. split; [exact Hms|].
  exact (Hthm ms Hms).
Defined.

(** ** The clone the costs are built from *)

Lemma dev_cost_loop_with_clones self clones y range :
  clones !! 0%nat = SS_DEV_NET.dev_clones self !! 0%nat ->
  forall acc,
    SS_DEV_NET.dev_cost_loop (with_clones self clones) y acc range =
    SS_DEV_NET.dev_cost_loop self y acc range.
Proof.
  intros Hc. induction range as [|i range IH]; intros acc; [reflexivity|].
  cbn [SS_DEV_NET.dev_cost_loop].
  assert (Hstep : SS_DEV_NET.dev_cost_step (with_clones self clones) y acc i =
                  SS_DEV_NET.dev_cost_step self y acc i).
  { unfold SS_DEV_NET.dev_cost_step, with_clones, py_index.
    cbn [SS_DEV_NET.layer_count SS_DEV_NET.mlp_layers SS_DEV_NET.dev_clones
      SS_DEV_NET.dev_types SS_DEV_NET.dev_lams].
    rewrite Hc. reflexivity. }
  rewrite Hstep. destruct (SS_DEV_NET.dev_cost_step self y acc i); [|reflexivity].
  cbn [mbind res_bind]. apply IH.
Qed.

Section CloneTheorems.
Context {G : Type} `{RandomState G} `{output_losses}.

(** X20.  Of the clones of a constructed network only the first enters a cost.
    The dropout classification loss is the loss of the top layer of clone
    0, the dropout activation regulariser sums over the layers of clone 0,
    [sde_cost] is their sum, and [dev_cost] returns the same with any other
    list of clones whose first entry is clone 0: the clones after the first
    are built and never read. *)
Theorem costs_use_first_clone input params (st st' : builder G) net :
  SS_DEV_NET.__init__ input params st = Ok (net, st') ->
  exists clone0 sde_top,
    SS_DEV_NET.dev_clones net !! 0%nat = Some clone0 /\
    last clone0 = Some sde_top /\
    SS_DEV_NET.sde_class_loss net = loss_func (MCL2HingeSS sde_top) /\
    SS_DEV_NET.sde_reg_loss net =
      Mul (Const (Params.lam_l2a params))
        (Sum (Stack (map HiddenLayer.act_l2_sum clone0))) /\
    (forall y,
       SS_DEV_NET.sde_cost net y =
         Add (loss_func (MCL2HingeSS sde_top) y)
           (Mul (Const (Params.lam_l2a params))
              (Sum (Stack (map HiddenLayer.act_l2_sum clone0))))) /\
    forall clones y joint_loss,
      clones !! 0%nat = Some clone0 ->
      SS_DEV_NET.dev_cost (with_clones net clones) y joint_loss =
        SS_DEV_NET.dev_cost net y joint_loss /\
      SS_DEV_NET.sde_cost (with_clones net clones) y = SS_DEV_NET.sde_cost net y.
Proof.
  intros Hrun.
  apply SS_DEV_NET_init_Ok in Hrun
    as (c & d & st1 & raw_top & clone0 & sde_top & _ & _ & _ & Hc0 & Hlast &
        _ & _ & _ & _ & _ & Hclones & _ & _ & _ & _ & _ & _ & _ & Hcl & Hreg).
  exists clone0, sde_top. rewrite Hclones.
  split; [exact Hc0|]. split; [exact Hlast|]. split; [exact Hcl|].
  split; [exact Hreg|]. split.
  - intros y. unfold SS_DEV_NET.sde_cost. rewrite Hcl, Hreg. reflexivity.
  - intros clones y joint_loss Hclones0. split; [|reflexivity].
    unfold SS_DEV_NET.dev_cost.
    cbn [with_clones SS_DEV_NET.dev_mix_rate SS_DEV_NET.dev_lams_sum
      SS_DEV_NET.raw_class_loss SS_DEV_NET.sde_class_loss
      SS_DEV_NET.layer_count SS_DEV_NET.raw_reg_loss SS_DEV_NET.sde_reg_loss
      SS_DEV_NET.raw_out_func].
    rewrite dev_cost_loop_with_clones; [reflexivity|].
    rewrite Hclones0, Hclones, Hc0. reflexivity.
Qed.

(** X21.  Which loss [dev_cost] returns is decided, once and for all, by the sum
    of the DEV weights the network was constructed with.  When that sum is
    at most 1e-5, also for weights that are not 0 but cancel, the result is
    the plain loss of the raw net: no selector is read, none has to be
    there, and no clone and no DEV term occurs in it. *)
Theorem dev_cost_plain_by_sum input params (st st' : builder G) net y joint_loss :
  SS_DEV_NET.__init__ input params st = Ok (net, st') ->
  (foldr Qplus 0%Q (Params.dev_lams params) <= 1e-5)%Q ->
  exists raw_top,
    last (SS_DEV_NET.mlp_layers net) = Some raw_top /\
    SS_DEV_NET.dev_cost net y joint_loss =
      Ok (if py_eq_int joint_loss 1
          then Add (loss_func (MCL2HingeSS raw_top) y)
                 (Mul (Const (Params.lam_l2a params))
                    (Sum (Stack (map HiddenLayer.act_l2_sum
                                   (SS_DEV_NET.mlp_layers net)))))
          else Mul (Const (Params.lam_l2a params))
                 (Sum (Stack (map HiddenLayer.act_l2_sum
                                (SS_DEV_NET.mlp_layers net))))).
Proof.
  intros Hrun Hsum0. apply SS_DEV_NET_init_Ok in Hrun
    as (c & d & st1 & raw_top & clone0 & sde_top & _ & _ & Htop & _ & _ &
        _ & Hsum & _ & _ & Hmlp & _ & _ & _ & _ & _ & Hfunc & _ & Hreg & _).
  exists raw_top. rewrite Hmlp. split; [exact Htop|].
  unfold SS_DEV_NET.dev_cost. rewrite Hsum.
  rewrite (proj2 (Qltb_ge _ _) Hsum0). cbn [mbind res_bind].
  rewrite Hfunc, Hreg. reflexivity.
Qed.
End CloneTheorems.

Lemma costs_use_first_clone_witness :
  exists net st' clone0 sde_top,
    SS_DEV_NET.__init__ (Var "x") three_clone_params Lcg.start = Ok (net, st') /\
    SS_DEV_NET.dev_clones net !! 0%nat = Some clone0 /\
    last clone0 = Some sde_top /\
    SS_DEV_NET.sde_class_loss net = loss_func (MCL2HingeSS sde_top) /\
    SS_DEV_NET.sde_reg_loss net =
      Mul (Const (Params.lam_l2a three_clone_params))
        (Sum (Stack (map HiddenLayer.act_l2_sum clone0))) /\
    (forall y,
       SS_DEV_NET.sde_cost net y =
         Add (loss_func (MCL2HingeSS sde_top) y)
           (Mul (Const (Params.lam_l2a three_clone_params))
              (Sum (Stack (map HiddenLayer.act_l2_sum clone0))))) /\
    forall clones y joint_loss,
      clones !! 0%nat = Some clone0 ->
      SS_DEV_NET.dev_cost (with_clones net clones) y joint_loss =
        SS_DEV_NET.dev_cost net y joint_loss /\
      SS_DEV_NET.sde_cost (with_clones net clones) y = SS_DEV_NET.sde_cost net y.
Proof.
  destruct (SS_DEV_NET.__init__ (Var "x") three_clone_params Lcg.start)
    as [[net st']|e] eqn:Hrun; [|vm_compute in Hrun; discriminate Hrun].
  destruct (costs_use_first_clone (G:=Z) _ _ _ _ _ Hrun)
    as (clone0 & sde_top & Hw).
  exists net, st', clone0, sde_top. split; [reflexivity|exact Hw].
Defined.

Lemma dev_cost_plain_by_sum_witness :
  exists net st' raw_top,
    SS_DEV_NET.__init__ (Var "x") cancelling_params Lcg.start = Ok (net, st') /\
    last (SS_DEV_NET.mlp_layers net) = Some raw_top /\
    SS_DEV_NET.dev_cost net (Var "y") (PyInt 1) =
      Ok (if py_eq_int (PyInt 1) 1
          then Add (loss_func (MCL2HingeSS raw_top) (Var "y"))
                 (Mul (Const (Params.lam_l2a cancelling_params))
                    (Sum (Stack (map HiddenLayer.act_l2_sum
                                   (SS_DEV_NET.mlp_layers net)))))
          else Mul (Const (Params.lam_l2a cancelling_params))
                 (Sum (Stack (map HiddenLayer.act_l2_sum
                                (SS_DEV_NET.mlp_layers net))))).
Proof.
  destruct (SS_DEV_NET.__init__ (Var "x") cancelling_params Lcg.start)
    as [[net st']|e] eqn:Hrun; [|vm_compute in Hrun; discriminate Hrun].
  destruct (dev_cost_plain_by_sum (G:=Z) _ _ _ _ _ (Var "y") (PyInt 1) Hrun)
    as (raw_top & Hw); [vm_compute; discriminate|].
  exists net, st', raw_top. split; [reflexivity|exact Hw].
Defined.

(** ** Labeled examples *)

Lemma select_unlabeled_map {A B} (f : A -> B) (y : list R) (rows : list A) :
  select_unlabeled y (map f rows) = map f (select_unlabeled y rows).
Proof.
  revert rows. induction y as [|yi y IH]; intros [|r rows]; try reflexivity.
  cbn [map select_unlabeled]. rewrite IH.
  destruct (Req_dec_T yi 0); reflexivity.
Qed.

Lemma select_unlabeled_transform dev_type (y : list R) (a : list (list R)) :
  select_unlabeled y (dev_transform dev_type a) =
  dev_transform dev_type (select_unlabeled y a).
Proof.
  unfold dev_transform. repeat case_match; rewrite ?select_unlabeled_map; reflexivity.
Qed.

(** X22.  For a selector other than 4 the labeled examples do not enter the DEV
    term: two evaluations with the same labels whose representations agree
    on the unlabeled examples give it the same value, however they differ on
    the labeled ones. *)
Theorem dev_loss_ignores_labeled ρ ρ' X1 X2 Y dev_type y a b a' b' :
  dev_type <> 4%Z ->
  eval ρ Y = Ok (Vector y) ->
  eval ρ' Y = Ok (Vector y) ->
  eval ρ X1 = Ok (Matrix a) ->
  eval ρ X2 = Ok (Matrix b) ->
  eval ρ' X1 = Ok (Matrix a') ->
  eval ρ' X2 = Ok (Matrix b') ->
  length a = length y ->
  length a' = length y ->
  same_shape a b ->
  same_shape a' b' ->
  select_unlabeled y a = select_unlabeled y a' ->
  select_unlabeled y b = select_unlabeled y b' ->
  eval ρ (SS_DEV_NET._dev_loss X1 X2 Y dev_type) =
    eval ρ' (SS_DEV_NET._dev_loss X1 X2 Y dev_type).
Proof.
  intros H4 HY HY' H1 H2 H1' H2' Hlen Hlen' Hab Hab' Ha Hb.
  destruct (dev_loss_var_fun ρ X1 X2 Y dev_type a b H4 H1 H2)
    as (A & B & HE & HA & HB).
  destruct (dev_loss_var_fun ρ' X1 X2 Y dev_type a' b' H4 H1' H2')
    as (A' & B' & HE' & HA' & HB').
  rewrite HE at 1. rewrite HE'.
  rewrite (eval_var_fun ρ Y A B y _ _ HY HA HB);
    [|rewrite dev_transform_length; exact Hlen
     |apply dev_transform_same_shape, Hab].
  rewrite (eval_var_fun ρ' Y A' B' y _ _ HY' HA' HB');
    [|rewrite dev_transform_length; exact Hlen'
     |apply dev_transform_same_shape, Hab'].
  unfold masked_variance. rewrite !select_unlabeled_transform, Ha, Hb.
  reflexivity.
Qed.

Lemma dev_loss_ignores_labeled_witness :
  eval batch_env (SS_DEV_NET._dev_loss (Var "x1") (Var "x2") (Var "y") 3) =
    eval batch_env' (SS_DEV_NET._dev_loss (Var "x1") (Var "x2") (Var "y") 3).
Proof.
  apply (dev_loss_ignores_labeled batch_env batch_env' (Var "x1") (Var "x2")
           (Var "y") 3 [0; 1] [[1; 2]; [3; 4]] [[0; 0]; [0; 0]]
           [[1; 2]; [7; 8]] [[0; 0]; [5; 6]]);
    try reflexivity; try discriminate; try (repeat constructor).
  - cbn [select_unlabeled]. destruct (Req_dec_T 0 0); [|contradiction].
    destruct (Req_dec_T 1 0); [lra|reflexivity].
  - cbn [select_unlabeled]. destruct (Req_dec_T 0 0); [|contradiction].
    destruct (Req_dec_T 1 0); [lra|reflexivity].
Defined.
